(** * M-Pesa SMS parser: a shallow embedding of [app/parser.py]

    The development has three layers.

    - The Python run-time pieces the parser relies on: [str] methods
      ([lower], [strip], [replace], the [in] operator), the [float]
      constructor and the backtracking regular expressions of the [re]
      module, for the constructs that occur in the source patterns.
    - [MpesaParser]: the class of [app/parser.py], function by function,
      and [SpendingAgent], the class of [app/agent.py].
    - The properties of the parser and of the agent.

    A Python [str] is a sequence of Unicode code points: a list of
    numbers.  The character tables ([str.isspace], [str.isdecimal],
    [str.isalnum], the lower-case mapping, the tables of the final
    sigma rule and of [re.IGNORECASE]) are those of CPython 3.11, which
    carries the Unicode Character Database 14.0.  The text of a pattern
    or of a keyword, a literal of the source, is a Rocq [string].  A
    Python [float] is an IEEE-754 binary64 number, modelled by
    [spec_float] with [prec = 53] and [emax = 1024]. *)

From Stdlib Require Import List String Ascii Bool Arith ZArith NArith Lia QArith Qabs.
From Stdlib Require Import Floats.SpecFloat.
Import ListNotations.

Close Scope Q_scope.
Set Implicit Arguments.

(* ------------------------------------------------------------------ *)
(** ** Characters *)

Module Unicode.
Local Open Scope N_scope.

(** The code point of a character of a source literal. *)
Definition code (c : ascii) : N := N_of_ascii c.

Definition in_ranges (ranges : list (N * N)) (c : N) : bool :=
  existsb (fun r => (fst r <=? c) && (c <=? snd r)) ranges.

Fixpoint assoc {A : Type} (k : N) (table : list (N * A)) : option A :=
  match table with
  | [] => None
  | (a, b) :: table' => if a =? k then Some b else assoc k table'
  end.

(** The ranges of [str.isspace]. *)
Definition WHITE_SPACE : list (N * N) :=
  [
    (9, 13); (28, 32); (133, 133); (160, 160); (5760, 5760); (8192, 8202);
    (8232, 8233); (8239, 8239); (8287, 8287); (12288, 12288) ].

(** [str.isspace], which is also [\s] of a [str] pattern. *)
Definition isspace (c : N) : bool := in_ranges WHITE_SPACE c.

(** The whitespace of the C locale ([Py_ISSPACE]), used by [float]. *)
Definition c_isspace (c : N) : bool :=
  ((9 <=? c) && (c <=? 13)) || (c =? 32).

(** The digit zero of every decimal number system: the ten digits of a
    system follow each other from its zero. *)
Definition DECIMAL_ZEROS : list N :=
  [
    48; 1632; 1776; 1984; 2406; 2534; 2662; 2790; 2918; 3046;
    3174; 3302; 3430; 3558; 3664; 3792; 3872; 4160; 4240; 6112;
    6160; 6470; 6608; 6784; 6800; 6992; 7088; 7232; 7248; 42528;
    43216; 43264; 43472; 43504; 43600; 44016; 65296; 66720; 68912; 69734;
    69872; 69942; 70096; 70384; 70736; 70864; 71248; 71360; 71472; 71904;
    72016; 72784; 73040; 73120; 92768; 92864; 93008; 120782; 120792; 120802;
    120812; 120822; 123200; 123632; 125264; 130032 ].

(** [Py_UNICODE_TODECIMAL]: the value of a decimal digit. *)
Definition todecimal (c : N) : option N :=
  option_map (fun zero => c - zero)
             (find (fun zero => (zero <=? c) && (c <? zero + 10)) DECIMAL_ZEROS).

(** [str.isdecimal], which is also [\d] of a [str] pattern. *)
Definition isdecimal (c : N) : bool :=
  match todecimal c with Some _ => true | None => false end.

(** The ranges of [str.isalnum]: letters, decimal digits and the other
    numeric characters. *)
Definition ALNUM : list (N * N) :=
  [
    (48, 57); (65, 90); (97, 122); (170, 170); (178, 179); (181, 181);
    (185, 186); (188, 190); (192, 214); (216, 246); (248, 705); (710, 721);
    (736, 740); (748, 748); (750, 750); (880, 884); (886, 887); (890, 893);
    (895, 895); (902, 902); (904, 906); (908, 908); (910, 929); (931, 1013);
    (1015, 1153); (1162, 1327); (1329, 1366); (1369, 1369); (1376, 1416); (1488, 1514);
    (1519, 1522); (1568, 1610); (1632, 1641); (1646, 1647); (1649, 1747); (1749, 1749);
    (1765, 1766); (1774, 1788); (1791, 1791); (1808, 1808); (1810, 1839); (1869, 1957);
    (1969, 1969); (1984, 2026); (2036, 2037); (2042, 2042); (2048, 2069); (2074, 2074);
    (2084, 2084); (2088, 2088); (2112, 2136); (2144, 2154); (2160, 2183); (2185, 2190);
    (2208, 2249); (2308, 2361); (2365, 2365); (2384, 2384); (2392, 2401); (2406, 2415);
    (2417, 2432); (2437, 2444); (2447, 2448); (2451, 2472); (2474, 2480); (2482, 2482);
    (2486, 2489); (2493, 2493); (2510, 2510); (2524, 2525); (2527, 2529); (2534, 2545);
    (2548, 2553); (2556, 2556); (2565, 2570); (2575, 2576); (2579, 2600); (2602, 2608);
    (2610, 2611); (2613, 2614); (2616, 2617); (2649, 2652); (2654, 2654); (2662, 2671);
    (2674, 2676); (2693, 2701); (2703, 2705); (2707, 2728); (2730, 2736); (2738, 2739);
    (2741, 2745); (2749, 2749); (2768, 2768); (2784, 2785); (2790, 2799); (2809, 2809);
    (2821, 2828); (2831, 2832); (2835, 2856); (2858, 2864); (2866, 2867); (2869, 2873);
    (2877, 2877); (2908, 2909); (2911, 2913); (2918, 2927); (2929, 2935); (2947, 2947);
    (2949, 2954); (2958, 2960); (2962, 2965); (2969, 2970); (2972, 2972); (2974, 2975);
    (2979, 2980); (2984, 2986); (2990, 3001); (3024, 3024); (3046, 3058); (3077, 3084);
    (3086, 3088); (3090, 3112); (3114, 3129); (3133, 3133); (3160, 3162); (3165, 3165);
    (3168, 3169); (3174, 3183); (3192, 3198); (3200, 3200); (3205, 3212); (3214, 3216);
    (3218, 3240); (3242, 3251); (3253, 3257); (3261, 3261); (3293, 3294); (3296, 3297);
    (3302, 3311); (3313, 3314); (3332, 3340); (3342, 3344); (3346, 3386); (3389, 3389);
    (3406, 3406); (3412, 3414); (3416, 3425); (3430, 3448); (3450, 3455); (3461, 3478);
    (3482, 3505); (3507, 3515); (3517, 3517); (3520, 3526); (3558, 3567); (3585, 3632);
    (3634, 3635); (3648, 3654); (3664, 3673); (3713, 3714); (3716, 3716); (3718, 3722);
    (3724, 3747); (3749, 3749); (3751, 3760); (3762, 3763); (3773, 3773); (3776, 3780);
    (3782, 3782); (3792, 3801); (3804, 3807); (3840, 3840); (3872, 3891); (3904, 3911);
    (3913, 3948); (3976, 3980); (4096, 4138); (4159, 4169); (4176, 4181); (4186, 4189);
    (4193, 4193); (4197, 4198); (4206, 4208); (4213, 4225); (4238, 4238); (4240, 4249);
    (4256, 4293); (4295, 4295); (4301, 4301); (4304, 4346); (4348, 4680); (4682, 4685);
    (4688, 4694); (4696, 4696); (4698, 4701); (4704, 4744); (4746, 4749); (4752, 4784);
    (4786, 4789); (4792, 4798); (4800, 4800); (4802, 4805); (4808, 4822); (4824, 4880);
    (4882, 4885); (4888, 4954); (4969, 4988); (4992, 5007); (5024, 5109); (5112, 5117);
    (5121, 5740); (5743, 5759); (5761, 5786); (5792, 5866); (5870, 5880); (5888, 5905);
    (5919, 5937); (5952, 5969); (5984, 5996); (5998, 6000); (6016, 6067); (6103, 6103);
    (6108, 6108); (6112, 6121); (6128, 6137); (6160, 6169); (6176, 6264); (6272, 6276);
    (6279, 6312); (6314, 6314); (6320, 6389); (6400, 6430); (6470, 6509); (6512, 6516);
    (6528, 6571); (6576, 6601); (6608, 6618); (6656, 6678); (6688, 6740); (6784, 6793);
    (6800, 6809); (6823, 6823); (6917, 6963); (6981, 6988); (6992, 7001); (7043, 7072);
    (7086, 7141); (7168, 7203); (7232, 7241); (7245, 7293); (7296, 7304); (7312, 7354);
    (7357, 7359); (7401, 7404); (7406, 7411); (7413, 7414); (7418, 7418); (7424, 7615);
    (7680, 7957); (7960, 7965); (7968, 8005); (8008, 8013); (8016, 8023); (8025, 8025);
    (8027, 8027); (8029, 8029); (8031, 8061); (8064, 8116); (8118, 8124); (8126, 8126);
    (8130, 8132); (8134, 8140); (8144, 8147); (8150, 8155); (8160, 8172); (8178, 8180);
    (8182, 8188); (8304, 8305); (8308, 8313); (8319, 8329); (8336, 8348); (8450, 8450);
    (8455, 8455); (8458, 8467); (8469, 8469); (8473, 8477); (8484, 8484); (8486, 8486);
    (8488, 8488); (8490, 8493); (8495, 8505); (8508, 8511); (8517, 8521); (8526, 8526);
    (8528, 8585); (9312, 9371); (9450, 9471); (10102, 10131); (11264, 11492); (11499, 11502);
    (11506, 11507); (11517, 11517); (11520, 11557); (11559, 11559); (11565, 11565); (11568, 11623);
    (11631, 11631); (11648, 11670); (11680, 11686); (11688, 11694); (11696, 11702); (11704, 11710);
    (11712, 11718); (11720, 11726); (11728, 11734); (11736, 11742); (11823, 11823); (12293, 12295);
    (12321, 12329); (12337, 12341); (12344, 12348); (12353, 12438); (12445, 12447); (12449, 12538);
    (12540, 12543); (12549, 12591); (12593, 12686); (12690, 12693); (12704, 12735); (12784, 12799);
    (12832, 12841); (12872, 12879); (12881, 12895); (12928, 12937); (12977, 12991); (13312, 19903);
    (19968, 42124); (42192, 42237); (42240, 42508); (42512, 42539); (42560, 42606); (42623, 42653);
    (42656, 42735); (42775, 42783); (42786, 42888); (42891, 42954); (42960, 42961); (42963, 42963);
    (42965, 42969); (42994, 43009); (43011, 43013); (43015, 43018); (43020, 43042); (43056, 43061);
    (43072, 43123); (43138, 43187); (43216, 43225); (43250, 43255); (43259, 43259); (43261, 43262);
    (43264, 43301); (43312, 43334); (43360, 43388); (43396, 43442); (43471, 43481); (43488, 43492);
    (43494, 43518); (43520, 43560); (43584, 43586); (43588, 43595); (43600, 43609); (43616, 43638);
    (43642, 43642); (43646, 43695); (43697, 43697); (43701, 43702); (43705, 43709); (43712, 43712);
    (43714, 43714); (43739, 43741); (43744, 43754); (43762, 43764); (43777, 43782); (43785, 43790);
    (43793, 43798); (43808, 43814); (43816, 43822); (43824, 43866); (43868, 43881); (43888, 44002);
    (44016, 44025); (44032, 55203); (55216, 55238); (55243, 55291); (63744, 64109); (64112, 64217);
    (64256, 64262); (64275, 64279); (64285, 64285); (64287, 64296); (64298, 64310); (64312, 64316);
    (64318, 64318); (64320, 64321); (64323, 64324); (64326, 64433); (64467, 64829); (64848, 64911);
    (64914, 64967); (65008, 65019); (65136, 65140); (65142, 65276); (65296, 65305); (65313, 65338);
    (65345, 65370); (65382, 65470); (65474, 65479); (65482, 65487); (65490, 65495); (65498, 65500);
    (65536, 65547); (65549, 65574); (65576, 65594); (65596, 65597); (65599, 65613); (65616, 65629);
    (65664, 65786); (65799, 65843); (65856, 65912); (65930, 65931); (66176, 66204); (66208, 66256);
    (66273, 66299); (66304, 66339); (66349, 66378); (66384, 66421); (66432, 66461); (66464, 66499);
    (66504, 66511); (66513, 66517); (66560, 66717); (66720, 66729); (66736, 66771); (66776, 66811);
    (66816, 66855); (66864, 66915); (66928, 66938); (66940, 66954); (66956, 66962); (66964, 66965);
    (66967, 66977); (66979, 66993); (66995, 67001); (67003, 67004); (67072, 67382); (67392, 67413);
    (67424, 67431); (67456, 67461); (67463, 67504); (67506, 67514); (67584, 67589); (67592, 67592);
    (67594, 67637); (67639, 67640); (67644, 67644); (67647, 67669); (67672, 67702); (67705, 67742);
    (67751, 67759); (67808, 67826); (67828, 67829); (67835, 67867); (67872, 67897); (67968, 68023);
    (68028, 68047); (68050, 68096); (68112, 68115); (68117, 68119); (68121, 68149); (68160, 68168);
    (68192, 68222); (68224, 68255); (68288, 68295); (68297, 68324); (68331, 68335); (68352, 68405);
    (68416, 68437); (68440, 68466); (68472, 68497); (68521, 68527); (68608, 68680); (68736, 68786);
    (68800, 68850); (68858, 68899); (68912, 68921); (69216, 69246); (69248, 69289); (69296, 69297);
    (69376, 69415); (69424, 69445); (69457, 69460); (69488, 69505); (69552, 69579); (69600, 69622);
    (69635, 69687); (69714, 69743); (69745, 69746); (69749, 69749); (69763, 69807); (69840, 69864);
    (69872, 69881); (69891, 69926); (69942, 69951); (69956, 69956); (69959, 69959); (69968, 70002);
    (70006, 70006); (70019, 70066); (70081, 70084); (70096, 70106); (70108, 70108); (70113, 70132);
    (70144, 70161); (70163, 70187); (70272, 70278); (70280, 70280); (70282, 70285); (70287, 70301);
    (70303, 70312); (70320, 70366); (70384, 70393); (70405, 70412); (70415, 70416); (70419, 70440);
    (70442, 70448); (70450, 70451); (70453, 70457); (70461, 70461); (70480, 70480); (70493, 70497);
    (70656, 70708); (70727, 70730); (70736, 70745); (70751, 70753); (70784, 70831); (70852, 70853);
    (70855, 70855); (70864, 70873); (71040, 71086); (71128, 71131); (71168, 71215); (71236, 71236);
    (71248, 71257); (71296, 71338); (71352, 71352); (71360, 71369); (71424, 71450); (71472, 71483);
    (71488, 71494); (71680, 71723); (71840, 71922); (71935, 71942); (71945, 71945); (71948, 71955);
    (71957, 71958); (71960, 71983); (71999, 71999); (72001, 72001); (72016, 72025); (72096, 72103);
    (72106, 72144); (72161, 72161); (72163, 72163); (72192, 72192); (72203, 72242); (72250, 72250);
    (72272, 72272); (72284, 72329); (72349, 72349); (72368, 72440); (72704, 72712); (72714, 72750);
    (72768, 72768); (72784, 72812); (72818, 72847); (72960, 72966); (72968, 72969); (72971, 73008);
    (73030, 73030); (73040, 73049); (73056, 73061); (73063, 73064); (73066, 73097); (73112, 73112);
    (73120, 73129); (73440, 73458); (73648, 73648); (73664, 73684); (73728, 74649); (74752, 74862);
    (74880, 75075); (77712, 77808); (77824, 78894); (82944, 83526); (92160, 92728); (92736, 92766);
    (92768, 92777); (92784, 92862); (92864, 92873); (92880, 92909); (92928, 92975); (92992, 92995);
    (93008, 93017); (93019, 93025); (93027, 93047); (93053, 93071); (93760, 93846); (93952, 94026);
    (94032, 94032); (94099, 94111); (94176, 94177); (94179, 94179); (94208, 100343); (100352, 101589);
    (101632, 101640); (110576, 110579); (110581, 110587); (110589, 110590); (110592, 110882); (110928, 110930);
    (110948, 110951); (110960, 111355); (113664, 113770); (113776, 113788); (113792, 113800); (113808, 113817);
    (119520, 119539); (119648, 119672); (119808, 119892); (119894, 119964); (119966, 119967); (119970, 119970);
    (119973, 119974); (119977, 119980); (119982, 119993); (119995, 119995); (119997, 120003); (120005, 120069);
    (120071, 120074); (120077, 120084); (120086, 120092); (120094, 120121); (120123, 120126); (120128, 120132);
    (120134, 120134); (120138, 120144); (120146, 120485); (120488, 120512); (120514, 120538); (120540, 120570);
    (120572, 120596); (120598, 120628); (120630, 120654); (120656, 120686); (120688, 120712); (120714, 120744);
    (120746, 120770); (120772, 120779); (120782, 120831); (122624, 122654); (123136, 123180); (123191, 123197);
    (123200, 123209); (123214, 123214); (123536, 123565); (123584, 123627); (123632, 123641); (124896, 124902);
    (124904, 124907); (124909, 124910); (124912, 124926); (124928, 125124); (125127, 125135); (125184, 125251);
    (125259, 125259); (125264, 125273); (126065, 126123); (126125, 126127); (126129, 126132); (126209, 126253);
    (126255, 126269); (126464, 126467); (126469, 126495); (126497, 126498); (126500, 126500); (126503, 126503);
    (126505, 126514); (126516, 126519); (126521, 126521); (126523, 126523); (126530, 126530); (126535, 126535);
    (126537, 126537); (126539, 126539); (126541, 126543); (126545, 126546); (126548, 126548); (126551, 126551);
    (126553, 126553); (126555, 126555); (126557, 126557); (126559, 126559); (126561, 126562); (126564, 126564);
    (126567, 126570); (126572, 126578); (126580, 126583); (126585, 126588); (126590, 126590); (126592, 126601);
    (126603, 126619); (126625, 126627); (126629, 126633); (126635, 126651); (127232, 127244); (130032, 130041);
    (131072, 173791); (173824, 177976); (177984, 178205); (178208, 183969); (183984, 191456); (194560, 195101);
    (196608, 201546) ].

Definition isalnum (c : N) : bool := in_ranges ALNUM c.

(** [\w] of a [str] pattern. *)
Definition isword (c : N) : bool := isalnum c || (c =? 95).

(** The characters with a lower-case form of their own, each with that
    form ([Py_UNICODE_TOLOWER]). *)
Definition LOWER : list (N * N) :=
  [
    (65, 97); (66, 98); (67, 99); (68, 100); (69, 101); (70, 102);
    (71, 103); (72, 104); (73, 105); (74, 106); (75, 107); (76, 108);
    (77, 109); (78, 110); (79, 111); (80, 112); (81, 113); (82, 114);
    (83, 115); (84, 116); (85, 117); (86, 118); (87, 119); (88, 120);
    (89, 121); (90, 122); (192, 224); (193, 225); (194, 226); (195, 227);
    (196, 228); (197, 229); (198, 230); (199, 231); (200, 232); (201, 233);
    (202, 234); (203, 235); (204, 236); (205, 237); (206, 238); (207, 239);
    (208, 240); (209, 241); (210, 242); (211, 243); (212, 244); (213, 245);
    (214, 246); (216, 248); (217, 249); (218, 250); (219, 251); (220, 252);
    (221, 253); (222, 254); (256, 257); (258, 259); (260, 261); (262, 263);
    (264, 265); (266, 267); (268, 269); (270, 271); (272, 273); (274, 275);
    (276, 277); (278, 279); (280, 281); (282, 283); (284, 285); (286, 287);
    (288, 289); (290, 291); (292, 293); (294, 295); (296, 297); (298, 299);
    (300, 301); (302, 303); (304, 105); (306, 307); (308, 309); (310, 311);
    (313, 314); (315, 316); (317, 318); (319, 320); (321, 322); (323, 324);
    (325, 326); (327, 328); (330, 331); (332, 333); (334, 335); (336, 337);
    (338, 339); (340, 341); (342, 343); (344, 345); (346, 347); (348, 349);
    (350, 351); (352, 353); (354, 355); (356, 357); (358, 359); (360, 361);
    (362, 363); (364, 365); (366, 367); (368, 369); (370, 371); (372, 373);
    (374, 375); (376, 255); (377, 378); (379, 380); (381, 382); (385, 595);
    (386, 387); (388, 389); (390, 596); (391, 392); (393, 598); (394, 599);
    (395, 396); (398, 477); (399, 601); (400, 603); (401, 402); (403, 608);
    (404, 611); (406, 617); (407, 616); (408, 409); (412, 623); (413, 626);
    (415, 629); (416, 417); (418, 419); (420, 421); (422, 640); (423, 424);
    (425, 643); (428, 429); (430, 648); (431, 432); (433, 650); (434, 651);
    (435, 436); (437, 438); (439, 658); (440, 441); (444, 445); (452, 454);
    (453, 454); (455, 457); (456, 457); (458, 460); (459, 460); (461, 462);
    (463, 464); (465, 466); (467, 468); (469, 470); (471, 472); (473, 474);
    (475, 476); (478, 479); (480, 481); (482, 483); (484, 485); (486, 487);
    (488, 489); (490, 491); (492, 493); (494, 495); (497, 499); (498, 499);
    (500, 501); (502, 405); (503, 447); (504, 505); (506, 507); (508, 509);
    (510, 511); (512, 513); (514, 515); (516, 517); (518, 519); (520, 521);
    (522, 523); (524, 525); (526, 527); (528, 529); (530, 531); (532, 533);
    (534, 535); (536, 537); (538, 539); (540, 541); (542, 543); (544, 414);
    (546, 547); (548, 549); (550, 551); (552, 553); (554, 555); (556, 557);
    (558, 559); (560, 561); (562, 563); (570, 11365); (571, 572); (573, 410);
    (574, 11366); (577, 578); (579, 384); (580, 649); (581, 652); (582, 583);
    (584, 585); (586, 587); (588, 589); (590, 591); (880, 881); (882, 883);
    (886, 887); (895, 1011); (902, 940); (904, 941); (905, 942); (906, 943);
    (908, 972); (910, 973); (911, 974); (913, 945); (914, 946); (915, 947);
    (916, 948); (917, 949); (918, 950); (919, 951); (920, 952); (921, 953);
    (922, 954); (923, 955); (924, 956); (925, 957); (926, 958); (927, 959);
    (928, 960); (929, 961); (931, 963); (932, 964); (933, 965); (934, 966);
    (935, 967); (936, 968); (937, 969); (938, 970); (939, 971); (975, 983);
    (984, 985); (986, 987); (988, 989); (990, 991); (992, 993); (994, 995);
    (996, 997); (998, 999); (1000, 1001); (1002, 1003); (1004, 1005); (1006, 1007);
    (1012, 952); (1015, 1016); (1017, 1010); (1018, 1019); (1021, 891); (1022, 892);
    (1023, 893); (1024, 1104); (1025, 1105); (1026, 1106); (1027, 1107); (1028, 1108);
    (1029, 1109); (1030, 1110); (1031, 1111); (1032, 1112); (1033, 1113); (1034, 1114);
    (1035, 1115); (1036, 1116); (1037, 1117); (1038, 1118); (1039, 1119); (1040, 1072);
    (1041, 1073); (1042, 1074); (1043, 1075); (1044, 1076); (1045, 1077); (1046, 1078);
    (1047, 1079); (1048, 1080); (1049, 1081); (1050, 1082); (1051, 1083); (1052, 1084);
    (1053, 1085); (1054, 1086); (1055, 1087); (1056, 1088); (1057, 1089); (1058, 1090);
    (1059, 1091); (1060, 1092); (1061, 1093); (1062, 1094); (1063, 1095); (1064, 1096);
    (1065, 1097); (1066, 1098); (1067, 1099); (1068, 1100); (1069, 1101); (1070, 1102);
    (1071, 1103); (1120, 1121); (1122, 1123); (1124, 1125); (1126, 1127); (1128, 1129);
    (1130, 1131); (1132, 1133); (1134, 1135); (1136, 1137); (1138, 1139); (1140, 1141);
    (1142, 1143); (1144, 1145); (1146, 1147); (1148, 1149); (1150, 1151); (1152, 1153);
    (1162, 1163); (1164, 1165); (1166, 1167); (1168, 1169); (1170, 1171); (1172, 1173);
    (1174, 1175); (1176, 1177); (1178, 1179); (1180, 1181); (1182, 1183); (1184, 1185);
    (1186, 1187); (1188, 1189); (1190, 1191); (1192, 1193); (1194, 1195); (1196, 1197);
    (1198, 1199); (1200, 1201); (1202, 1203); (1204, 1205); (1206, 1207); (1208, 1209);
    (1210, 1211); (1212, 1213); (1214, 1215); (1216, 1231); (1217, 1218); (1219, 1220);
    (1221, 1222); (1223, 1224); (1225, 1226); (1227, 1228); (1229, 1230); (1232, 1233);
    (1234, 1235); (1236, 1237); (1238, 1239); (1240, 1241); (1242, 1243); (1244, 1245);
    (1246, 1247); (1248, 1249); (1250, 1251); (1252, 1253); (1254, 1255); (1256, 1257);
    (1258, 1259); (1260, 1261); (1262, 1263); (1264, 1265); (1266, 1267); (1268, 1269);
    (1270, 1271); (1272, 1273); (1274, 1275); (1276, 1277); (1278, 1279); (1280, 1281);
    (1282, 1283); (1284, 1285); (1286, 1287); (1288, 1289); (1290, 1291); (1292, 1293);
    (1294, 1295); (1296, 1297); (1298, 1299); (1300, 1301); (1302, 1303); (1304, 1305);
    (1306, 1307); (1308, 1309); (1310, 1311); (1312, 1313); (1314, 1315); (1316, 1317);
    (1318, 1319); (1320, 1321); (1322, 1323); (1324, 1325); (1326, 1327); (1329, 1377);
    (1330, 1378); (1331, 1379); (1332, 1380); (1333, 1381); (1334, 1382); (1335, 1383);
    (1336, 1384); (1337, 1385); (1338, 1386); (1339, 1387); (1340, 1388); (1341, 1389);
    (1342, 1390); (1343, 1391); (1344, 1392); (1345, 1393); (1346, 1394); (1347, 1395);
    (1348, 1396); (1349, 1397); (1350, 1398); (1351, 1399); (1352, 1400); (1353, 1401);
    (1354, 1402); (1355, 1403); (1356, 1404); (1357, 1405); (1358, 1406); (1359, 1407);
    (1360, 1408); (1361, 1409); (1362, 1410); (1363, 1411); (1364, 1412); (1365, 1413);
    (1366, 1414); (4256, 11520); (4257, 11521); (4258, 11522); (4259, 11523); (4260, 11524);
    (4261, 11525); (4262, 11526); (4263, 11527); (4264, 11528); (4265, 11529); (4266, 11530);
    (4267, 11531); (4268, 11532); (4269, 11533); (4270, 11534); (4271, 11535); (4272, 11536);
    (4273, 11537); (4274, 11538); (4275, 11539); (4276, 11540); (4277, 11541); (4278, 11542);
    (4279, 11543); (4280, 11544); (4281, 11545); (4282, 11546); (4283, 11547); (4284, 11548);
    (4285, 11549); (4286, 11550); (4287, 11551); (4288, 11552); (4289, 11553); (4290, 11554);
    (4291, 11555); (4292, 11556); (4293, 11557); (4295, 11559); (4301, 11565); (5024, 43888);
    (5025, 43889); (5026, 43890); (5027, 43891); (5028, 43892); (5029, 43893); (5030, 43894);
    (5031, 43895); (5032, 43896); (5033, 43897); (5034, 43898); (5035, 43899); (5036, 43900);
    (5037, 43901); (5038, 43902); (5039, 43903); (5040, 43904); (5041, 43905); (5042, 43906);
    (5043, 43907); (5044, 43908); (5045, 43909); (5046, 43910); (5047, 43911); (5048, 43912);
    (5049, 43913); (5050, 43914); (5051, 43915); (5052, 43916); (5053, 43917); (5054, 43918);
    (5055, 43919); (5056, 43920); (5057, 43921); (5058, 43922); (5059, 43923); (5060, 43924);
    (5061, 43925); (5062, 43926); (5063, 43927); (5064, 43928); (5065, 43929); (5066, 43930);
    (5067, 43931); (5068, 43932); (5069, 43933); (5070, 43934); (5071, 43935); (5072, 43936);
    (5073, 43937); (5074, 43938); (5075, 43939); (5076, 43940); (5077, 43941); (5078, 43942);
    (5079, 43943); (5080, 43944); (5081, 43945); (5082, 43946); (5083, 43947); (5084, 43948);
    (5085, 43949); (5086, 43950); (5087, 43951); (5088, 43952); (5089, 43953); (5090, 43954);
    (5091, 43955); (5092, 43956); (5093, 43957); (5094, 43958); (5095, 43959); (5096, 43960);
    (5097, 43961); (5098, 43962); (5099, 43963); (5100, 43964); (5101, 43965); (5102, 43966);
    (5103, 43967); (5104, 5112); (5105, 5113); (5106, 5114); (5107, 5115); (5108, 5116);
    (5109, 5117); (7312, 4304); (7313, 4305); (7314, 4306); (7315, 4307); (7316, 4308);
    (7317, 4309); (7318, 4310); (7319, 4311); (7320, 4312); (7321, 4313); (7322, 4314);
    (7323, 4315); (7324, 4316); (7325, 4317); (7326, 4318); (7327, 4319); (7328, 4320);
    (7329, 4321); (7330, 4322); (7331, 4323); (7332, 4324); (7333, 4325); (7334, 4326);
    (7335, 4327); (7336, 4328); (7337, 4329); (7338, 4330); (7339, 4331); (7340, 4332);
    (7341, 4333); (7342, 4334); (7343, 4335); (7344, 4336); (7345, 4337); (7346, 4338);
    (7347, 4339); (7348, 4340); (7349, 4341); (7350, 4342); (7351, 4343); (7352, 4344);
    (7353, 4345); (7354, 4346); (7357, 4349); (7358, 4350); (7359, 4351); (7680, 7681);
    (7682, 7683); (7684, 7685); (7686, 7687); (7688, 7689); (7690, 7691); (7692, 7693);
    (7694, 7695); (7696, 7697); (7698, 7699); (7700, 7701); (7702, 7703); (7704, 7705);
    (7706, 7707); (7708, 7709); (7710, 7711); (7712, 7713); (7714, 7715); (7716, 7717);
    (7718, 7719); (7720, 7721); (7722, 7723); (7724, 7725); (7726, 7727); (7728, 7729);
    (7730, 7731); (7732, 7733); (7734, 7735); (7736, 7737); (7738, 7739); (7740, 7741);
    (7742, 7743); (7744, 7745); (7746, 7747); (7748, 7749); (7750, 7751); (7752, 7753);
    (7754, 7755); (7756, 7757); (7758, 7759); (7760, 7761); (7762, 7763); (7764, 7765);
    (7766, 7767); (7768, 7769); (7770, 7771); (7772, 7773); (7774, 7775); (7776, 7777);
    (7778, 7779); (7780, 7781); (7782, 7783); (7784, 7785); (7786, 7787); (7788, 7789);
    (7790, 7791); (7792, 7793); (7794, 7795); (7796, 7797); (7798, 7799); (7800, 7801);
    (7802, 7803); (7804, 7805); (7806, 7807); (7808, 7809); (7810, 7811); (7812, 7813);
    (7814, 7815); (7816, 7817); (7818, 7819); (7820, 7821); (7822, 7823); (7824, 7825);
    (7826, 7827); (7828, 7829); (7838, 223); (7840, 7841); (7842, 7843); (7844, 7845);
    (7846, 7847); (7848, 7849); (7850, 7851); (7852, 7853); (7854, 7855); (7856, 7857);
    (7858, 7859); (7860, 7861); (7862, 7863); (7864, 7865); (7866, 7867); (7868, 7869);
    (7870, 7871); (7872, 7873); (7874, 7875); (7876, 7877); (7878, 7879); (7880, 7881);
    (7882, 7883); (7884, 7885); (7886, 7887); (7888, 7889); (7890, 7891); (7892, 7893);
    (7894, 7895); (7896, 7897); (7898, 7899); (7900, 7901); (7902, 7903); (7904, 7905);
    (7906, 7907); (7908, 7909); (7910, 7911); (7912, 7913); (7914, 7915); (7916, 7917);
    (7918, 7919); (7920, 7921); (7922, 7923); (7924, 7925); (7926, 7927); (7928, 7929);
    (7930, 7931); (7932, 7933); (7934, 7935); (7944, 7936); (7945, 7937); (7946, 7938);
    (7947, 7939); (7948, 7940); (7949, 7941); (7950, 7942); (7951, 7943); (7960, 7952);
    (7961, 7953); (7962, 7954); (7963, 7955); (7964, 7956); (7965, 7957); (7976, 7968);
    (7977, 7969); (7978, 7970); (7979, 7971); (7980, 7972); (7981, 7973); (7982, 7974);
    (7983, 7975); (7992, 7984); (7993, 7985); (7994, 7986); (7995, 7987); (7996, 7988);
    (7997, 7989); (7998, 7990); (7999, 7991); (8008, 8000); (8009, 8001); (8010, 8002);
    (8011, 8003); (8012, 8004); (8013, 8005); (8025, 8017); (8027, 8019); (8029, 8021);
    (8031, 8023); (8040, 8032); (8041, 8033); (8042, 8034); (8043, 8035); (8044, 8036);
    (8045, 8037); (8046, 8038); (8047, 8039); (8072, 8064); (8073, 8065); (8074, 8066);
    (8075, 8067); (8076, 8068); (8077, 8069); (8078, 8070); (8079, 8071); (8088, 8080);
    (8089, 8081); (8090, 8082); (8091, 8083); (8092, 8084); (8093, 8085); (8094, 8086);
    (8095, 8087); (8104, 8096); (8105, 8097); (8106, 8098); (8107, 8099); (8108, 8100);
    (8109, 8101); (8110, 8102); (8111, 8103); (8120, 8112); (8121, 8113); (8122, 8048);
    (8123, 8049); (8124, 8115); (8136, 8050); (8137, 8051); (8138, 8052); (8139, 8053);
    (8140, 8131); (8152, 8144); (8153, 8145); (8154, 8054); (8155, 8055); (8168, 8160);
    (8169, 8161); (8170, 8058); (8171, 8059); (8172, 8165); (8184, 8056); (8185, 8057);
    (8186, 8060); (8187, 8061); (8188, 8179); (8486, 969); (8490, 107); (8491, 229);
    (8498, 8526); (8544, 8560); (8545, 8561); (8546, 8562); (8547, 8563); (8548, 8564);
    (8549, 8565); (8550, 8566); (8551, 8567); (8552, 8568); (8553, 8569); (8554, 8570);
    (8555, 8571); (8556, 8572); (8557, 8573); (8558, 8574); (8559, 8575); (8579, 8580);
    (9398, 9424); (9399, 9425); (9400, 9426); (9401, 9427); (9402, 9428); (9403, 9429);
    (9404, 9430); (9405, 9431); (9406, 9432); (9407, 9433); (9408, 9434); (9409, 9435);
    (9410, 9436); (9411, 9437); (9412, 9438); (9413, 9439); (9414, 9440); (9415, 9441);
    (9416, 9442); (9417, 9443); (9418, 9444); (9419, 9445); (9420, 9446); (9421, 9447);
    (9422, 9448); (9423, 9449); (11264, 11312); (11265, 11313); (11266, 11314); (11267, 11315);
    (11268, 11316); (11269, 11317); (11270, 11318); (11271, 11319); (11272, 11320); (11273, 11321);
    (11274, 11322); (11275, 11323); (11276, 11324); (11277, 11325); (11278, 11326); (11279, 11327);
    (11280, 11328); (11281, 11329); (11282, 11330); (11283, 11331); (11284, 11332); (11285, 11333);
    (11286, 11334); (11287, 11335); (11288, 11336); (11289, 11337); (11290, 11338); (11291, 11339);
    (11292, 11340); (11293, 11341); (11294, 11342); (11295, 11343); (11296, 11344); (11297, 11345);
    (11298, 11346); (11299, 11347); (11300, 11348); (11301, 11349); (11302, 11350); (11303, 11351);
    (11304, 11352); (11305, 11353); (11306, 11354); (11307, 11355); (11308, 11356); (11309, 11357);
    (11310, 11358); (11311, 11359); (11360, 11361); (11362, 619); (11363, 7549); (11364, 637);
    (11367, 11368); (11369, 11370); (11371, 11372); (11373, 593); (11374, 625); (11375, 592);
    (11376, 594); (11378, 11379); (11381, 11382); (11390, 575); (11391, 576); (11392, 11393);
    (11394, 11395); (11396, 11397); (11398, 11399); (11400, 11401); (11402, 11403); (11404, 11405);
    (11406, 11407); (11408, 11409); (11410, 11411); (11412, 11413); (11414, 11415); (11416, 11417);
    (11418, 11419); (11420, 11421); (11422, 11423); (11424, 11425); (11426, 11427); (11428, 11429);
    (11430, 11431); (11432, 11433); (11434, 11435); (11436, 11437); (11438, 11439); (11440, 11441);
    (11442, 11443); (11444, 11445); (11446, 11447); (11448, 11449); (11450, 11451); (11452, 11453);
    (11454, 11455); (11456, 11457); (11458, 11459); (11460, 11461); (11462, 11463); (11464, 11465);
    (11466, 11467); (11468, 11469); (11470, 11471); (11472, 11473); (11474, 11475); (11476, 11477);
    (11478, 11479); (11480, 11481); (11482, 11483); (11484, 11485); (11486, 11487); (11488, 11489);
    (11490, 11491); (11499, 11500); (11501, 11502); (11506, 11507); (42560, 42561); (42562, 42563);
    (42564, 42565); (42566, 42567); (42568, 42569); (42570, 42571); (42572, 42573); (42574, 42575);
    (42576, 42577); (42578, 42579); (42580, 42581); (42582, 42583); (42584, 42585); (42586, 42587);
    (42588, 42589); (42590, 42591); (42592, 42593); (42594, 42595); (42596, 42597); (42598, 42599);
    (42600, 42601); (42602, 42603); (42604, 42605); (42624, 42625); (42626, 42627); (42628, 42629);
    (42630, 42631); (42632, 42633); (42634, 42635); (42636, 42637); (42638, 42639); (42640, 42641);
    (42642, 42643); (42644, 42645); (42646, 42647); (42648, 42649); (42650, 42651); (42786, 42787);
    (42788, 42789); (42790, 42791); (42792, 42793); (42794, 42795); (42796, 42797); (42798, 42799);
    (42802, 42803); (42804, 42805); (42806, 42807); (42808, 42809); (42810, 42811); (42812, 42813);
    (42814, 42815); (42816, 42817); (42818, 42819); (42820, 42821); (42822, 42823); (42824, 42825);
    (42826, 42827); (42828, 42829); (42830, 42831); (42832, 42833); (42834, 42835); (42836, 42837);
    (42838, 42839); (42840, 42841); (42842, 42843); (42844, 42845); (42846, 42847); (42848, 42849);
    (42850, 42851); (42852, 42853); (42854, 42855); (42856, 42857); (42858, 42859); (42860, 42861);
    (42862, 42863); (42873, 42874); (42875, 42876); (42877, 7545); (42878, 42879); (42880, 42881);
    (42882, 42883); (42884, 42885); (42886, 42887); (42891, 42892); (42893, 613); (42896, 42897);
    (42898, 42899); (42902, 42903); (42904, 42905); (42906, 42907); (42908, 42909); (42910, 42911);
    (42912, 42913); (42914, 42915); (42916, 42917); (42918, 42919); (42920, 42921); (42922, 614);
    (42923, 604); (42924, 609); (42925, 620); (42926, 618); (42928, 670); (42929, 647);
    (42930, 669); (42931, 43859); (42932, 42933); (42934, 42935); (42936, 42937); (42938, 42939);
    (42940, 42941); (42942, 42943); (42944, 42945); (42946, 42947); (42948, 42900); (42949, 642);
    (42950, 7566); (42951, 42952); (42953, 42954); (42960, 42961); (42966, 42967); (42968, 42969);
    (42997, 42998); (65313, 65345); (65314, 65346); (65315, 65347); (65316, 65348); (65317, 65349);
    (65318, 65350); (65319, 65351); (65320, 65352); (65321, 65353); (65322, 65354); (65323, 65355);
    (65324, 65356); (65325, 65357); (65326, 65358); (65327, 65359); (65328, 65360); (65329, 65361);
    (65330, 65362); (65331, 65363); (65332, 65364); (65333, 65365); (65334, 65366); (65335, 65367);
    (65336, 65368); (65337, 65369); (65338, 65370); (66560, 66600); (66561, 66601); (66562, 66602);
    (66563, 66603); (66564, 66604); (66565, 66605); (66566, 66606); (66567, 66607); (66568, 66608);
    (66569, 66609); (66570, 66610); (66571, 66611); (66572, 66612); (66573, 66613); (66574, 66614);
    (66575, 66615); (66576, 66616); (66577, 66617); (66578, 66618); (66579, 66619); (66580, 66620);
    (66581, 66621); (66582, 66622); (66583, 66623); (66584, 66624); (66585, 66625); (66586, 66626);
    (66587, 66627); (66588, 66628); (66589, 66629); (66590, 66630); (66591, 66631); (66592, 66632);
    (66593, 66633); (66594, 66634); (66595, 66635); (66596, 66636); (66597, 66637); (66598, 66638);
    (66599, 66639); (66736, 66776); (66737, 66777); (66738, 66778); (66739, 66779); (66740, 66780);
    (66741, 66781); (66742, 66782); (66743, 66783); (66744, 66784); (66745, 66785); (66746, 66786);
    (66747, 66787); (66748, 66788); (66749, 66789); (66750, 66790); (66751, 66791); (66752, 66792);
    (66753, 66793); (66754, 66794); (66755, 66795); (66756, 66796); (66757, 66797); (66758, 66798);
    (66759, 66799); (66760, 66800); (66761, 66801); (66762, 66802); (66763, 66803); (66764, 66804);
    (66765, 66805); (66766, 66806); (66767, 66807); (66768, 66808); (66769, 66809); (66770, 66810);
    (66771, 66811); (66928, 66967); (66929, 66968); (66930, 66969); (66931, 66970); (66932, 66971);
    (66933, 66972); (66934, 66973); (66935, 66974); (66936, 66975); (66937, 66976); (66938, 66977);
    (66940, 66979); (66941, 66980); (66942, 66981); (66943, 66982); (66944, 66983); (66945, 66984);
    (66946, 66985); (66947, 66986); (66948, 66987); (66949, 66988); (66950, 66989); (66951, 66990);
    (66952, 66991); (66953, 66992); (66954, 66993); (66956, 66995); (66957, 66996); (66958, 66997);
    (66959, 66998); (66960, 66999); (66961, 67000); (66962, 67001); (66964, 67003); (66965, 67004);
    (68736, 68800); (68737, 68801); (68738, 68802); (68739, 68803); (68740, 68804); (68741, 68805);
    (68742, 68806); (68743, 68807); (68744, 68808); (68745, 68809); (68746, 68810); (68747, 68811);
    (68748, 68812); (68749, 68813); (68750, 68814); (68751, 68815); (68752, 68816); (68753, 68817);
    (68754, 68818); (68755, 68819); (68756, 68820); (68757, 68821); (68758, 68822); (68759, 68823);
    (68760, 68824); (68761, 68825); (68762, 68826); (68763, 68827); (68764, 68828); (68765, 68829);
    (68766, 68830); (68767, 68831); (68768, 68832); (68769, 68833); (68770, 68834); (68771, 68835);
    (68772, 68836); (68773, 68837); (68774, 68838); (68775, 68839); (68776, 68840); (68777, 68841);
    (68778, 68842); (68779, 68843); (68780, 68844); (68781, 68845); (68782, 68846); (68783, 68847);
    (68784, 68848); (68785, 68849); (68786, 68850); (71840, 71872); (71841, 71873); (71842, 71874);
    (71843, 71875); (71844, 71876); (71845, 71877); (71846, 71878); (71847, 71879); (71848, 71880);
    (71849, 71881); (71850, 71882); (71851, 71883); (71852, 71884); (71853, 71885); (71854, 71886);
    (71855, 71887); (71856, 71888); (71857, 71889); (71858, 71890); (71859, 71891); (71860, 71892);
    (71861, 71893); (71862, 71894); (71863, 71895); (71864, 71896); (71865, 71897); (71866, 71898);
    (71867, 71899); (71868, 71900); (71869, 71901); (71870, 71902); (71871, 71903); (93760, 93792);
    (93761, 93793); (93762, 93794); (93763, 93795); (93764, 93796); (93765, 93797); (93766, 93798);
    (93767, 93799); (93768, 93800); (93769, 93801); (93770, 93802); (93771, 93803); (93772, 93804);
    (93773, 93805); (93774, 93806); (93775, 93807); (93776, 93808); (93777, 93809); (93778, 93810);
    (93779, 93811); (93780, 93812); (93781, 93813); (93782, 93814); (93783, 93815); (93784, 93816);
    (93785, 93817); (93786, 93818); (93787, 93819); (93788, 93820); (93789, 93821); (93790, 93822);
    (93791, 93823); (125184, 125218); (125185, 125219); (125186, 125220); (125187, 125221); (125188, 125222);
    (125189, 125223); (125190, 125224); (125191, 125225); (125192, 125226); (125193, 125227); (125194, 125228);
    (125195, 125229); (125196, 125230); (125197, 125231); (125198, 125232); (125199, 125233); (125200, 125234);
    (125201, 125235); (125202, 125236); (125203, 125237); (125204, 125238); (125205, 125239); (125206, 125240);
    (125207, 125241); (125208, 125242); (125209, 125243); (125210, 125244); (125211, 125245); (125212, 125246);
    (125213, 125247); (125214, 125248); (125215, 125249); (125216, 125250); (125217, 125251) ].

(** [Py_UNICODE_TOLOWER], also [_sre.unicode_tolower]. *)
Definition tolower (c : N) : N :=
  match assoc c LOWER with
  | Some l => l
  | None => c
  end.

(** The characters the final sigma rule of [str.lower] passes over. *)
Definition CASE_IGNORABLE : list (N * N) :=
  [
    (39, 39); (46, 46); (58, 58); (94, 94); (96, 96); (168, 168);
    (173, 173); (175, 175); (180, 180); (183, 184); (688, 879); (884, 885);
    (890, 890); (900, 901); (903, 903); (1155, 1161); (1369, 1369); (1375, 1375);
    (1425, 1469); (1471, 1471); (1473, 1474); (1476, 1477); (1479, 1479); (1524, 1524);
    (1536, 1541); (1552, 1562); (1564, 1564); (1600, 1600); (1611, 1631); (1648, 1648);
    (1750, 1757); (1759, 1768); (1770, 1773); (1807, 1807); (1809, 1809); (1840, 1866);
    (1958, 1968); (2027, 2037); (2042, 2042); (2045, 2045); (2070, 2093); (2137, 2139);
    (2184, 2184); (2192, 2193); (2200, 2207); (2249, 2306); (2362, 2362); (2364, 2364);
    (2369, 2376); (2381, 2381); (2385, 2391); (2402, 2403); (2417, 2417); (2433, 2433);
    (2492, 2492); (2497, 2500); (2509, 2509); (2530, 2531); (2558, 2558); (2561, 2562);
    (2620, 2620); (2625, 2626); (2631, 2632); (2635, 2637); (2641, 2641); (2672, 2673);
    (2677, 2677); (2689, 2690); (2748, 2748); (2753, 2757); (2759, 2760); (2765, 2765);
    (2786, 2787); (2810, 2815); (2817, 2817); (2876, 2876); (2879, 2879); (2881, 2884);
    (2893, 2893); (2901, 2902); (2914, 2915); (2946, 2946); (3008, 3008); (3021, 3021);
    (3072, 3072); (3076, 3076); (3132, 3132); (3134, 3136); (3142, 3144); (3146, 3149);
    (3157, 3158); (3170, 3171); (3201, 3201); (3260, 3260); (3263, 3263); (3270, 3270);
    (3276, 3277); (3298, 3299); (3328, 3329); (3387, 3388); (3393, 3396); (3405, 3405);
    (3426, 3427); (3457, 3457); (3530, 3530); (3538, 3540); (3542, 3542); (3633, 3633);
    (3636, 3642); (3654, 3662); (3761, 3761); (3764, 3772); (3782, 3782); (3784, 3789);
    (3864, 3865); (3893, 3893); (3895, 3895); (3897, 3897); (3953, 3966); (3968, 3972);
    (3974, 3975); (3981, 3991); (3993, 4028); (4038, 4038); (4141, 4144); (4146, 4151);
    (4153, 4154); (4157, 4158); (4184, 4185); (4190, 4192); (4209, 4212); (4226, 4226);
    (4229, 4230); (4237, 4237); (4253, 4253); (4348, 4348); (4957, 4959); (5906, 5908);
    (5938, 5939); (5970, 5971); (6002, 6003); (6068, 6069); (6071, 6077); (6086, 6086);
    (6089, 6099); (6103, 6103); (6109, 6109); (6155, 6159); (6211, 6211); (6277, 6278);
    (6313, 6313); (6432, 6434); (6439, 6440); (6450, 6450); (6457, 6459); (6679, 6680);
    (6683, 6683); (6742, 6742); (6744, 6750); (6752, 6752); (6754, 6754); (6757, 6764);
    (6771, 6780); (6783, 6783); (6823, 6823); (6832, 6862); (6912, 6915); (6964, 6964);
    (6966, 6970); (6972, 6972); (6978, 6978); (7019, 7027); (7040, 7041); (7074, 7077);
    (7080, 7081); (7083, 7085); (7142, 7142); (7144, 7145); (7149, 7149); (7151, 7153);
    (7212, 7219); (7222, 7223); (7288, 7293); (7376, 7378); (7380, 7392); (7394, 7400);
    (7405, 7405); (7412, 7412); (7416, 7417); (7468, 7530); (7544, 7544); (7579, 7679);
    (8125, 8125); (8127, 8129); (8141, 8143); (8157, 8159); (8173, 8175); (8189, 8190);
    (8203, 8207); (8216, 8217); (8228, 8228); (8231, 8231); (8234, 8238); (8288, 8292);
    (8294, 8303); (8305, 8305); (8319, 8319); (8336, 8348); (8400, 8432); (11388, 11389);
    (11503, 11505); (11631, 11631); (11647, 11647); (11744, 11775); (11823, 11823); (12293, 12293);
    (12330, 12333); (12337, 12341); (12347, 12347); (12441, 12446); (12540, 12542); (40981, 40981);
    (42232, 42237); (42508, 42508); (42607, 42610); (42612, 42621); (42623, 42623); (42652, 42655);
    (42736, 42737); (42752, 42785); (42864, 42864); (42888, 42890); (42994, 42996); (43000, 43001);
    (43010, 43010); (43014, 43014); (43019, 43019); (43045, 43046); (43052, 43052); (43204, 43205);
    (43232, 43249); (43263, 43263); (43302, 43309); (43335, 43345); (43392, 43394); (43443, 43443);
    (43446, 43449); (43452, 43453); (43471, 43471); (43493, 43494); (43561, 43566); (43569, 43570);
    (43573, 43574); (43587, 43587); (43596, 43596); (43632, 43632); (43644, 43644); (43696, 43696);
    (43698, 43700); (43703, 43704); (43710, 43711); (43713, 43713); (43741, 43741); (43756, 43757);
    (43763, 43764); (43766, 43766); (43867, 43871); (43881, 43883); (44005, 44005); (44008, 44008);
    (44013, 44013); (64286, 64286); (64434, 64450); (65024, 65039); (65043, 65043); (65056, 65071);
    (65106, 65106); (65109, 65109); (65279, 65279); (65287, 65287); (65294, 65294); (65306, 65306);
    (65342, 65342); (65344, 65344); (65392, 65392); (65438, 65439); (65507, 65507); (65529, 65531);
    (66045, 66045); (66272, 66272); (66422, 66426); (67456, 67461); (67463, 67504); (67506, 67514);
    (68097, 68099); (68101, 68102); (68108, 68111); (68152, 68154); (68159, 68159); (68325, 68326);
    (68900, 68903); (69291, 69292); (69446, 69456); (69506, 69509); (69633, 69633); (69688, 69702);
    (69744, 69744); (69747, 69748); (69759, 69761); (69811, 69814); (69817, 69818); (69821, 69821);
    (69826, 69826); (69837, 69837); (69888, 69890); (69927, 69931); (69933, 69940); (70003, 70003);
    (70016, 70017); (70070, 70078); (70089, 70092); (70095, 70095); (70191, 70193); (70196, 70196);
    (70198, 70199); (70206, 70206); (70367, 70367); (70371, 70378); (70400, 70401); (70459, 70460);
    (70464, 70464); (70502, 70508); (70512, 70516); (70712, 70719); (70722, 70724); (70726, 70726);
    (70750, 70750); (70835, 70840); (70842, 70842); (70847, 70848); (70850, 70851); (71090, 71093);
    (71100, 71101); (71103, 71104); (71132, 71133); (71219, 71226); (71229, 71229); (71231, 71232);
    (71339, 71339); (71341, 71341); (71344, 71349); (71351, 71351); (71453, 71455); (71458, 71461);
    (71463, 71467); (71727, 71735); (71737, 71738); (71995, 71996); (71998, 71998); (72003, 72003);
    (72148, 72151); (72154, 72155); (72160, 72160); (72193, 72202); (72243, 72248); (72251, 72254);
    (72263, 72263); (72273, 72278); (72281, 72283); (72330, 72342); (72344, 72345); (72752, 72758);
    (72760, 72765); (72767, 72767); (72850, 72871); (72874, 72880); (72882, 72883); (72885, 72886);
    (73009, 73014); (73018, 73018); (73020, 73021); (73023, 73029); (73031, 73031); (73104, 73105);
    (73109, 73109); (73111, 73111); (73459, 73460); (78896, 78904); (92912, 92916); (92976, 92982);
    (92992, 92995); (94031, 94031); (94095, 94111); (94176, 94177); (94179, 94180); (110576, 110579);
    (110581, 110587); (110589, 110590); (113821, 113822); (113824, 113827); (118528, 118573); (118576, 118598);
    (119143, 119145); (119155, 119170); (119173, 119179); (119210, 119213); (119362, 119364); (121344, 121398);
    (121403, 121452); (121461, 121461); (121476, 121476); (121499, 121503); (121505, 121519); (122880, 122886);
    (122888, 122904); (122907, 122913); (122915, 122916); (122918, 122922); (123184, 123197); (123566, 123566);
    (123628, 123631); (125136, 125142); (125252, 125259); (127995, 127999); (917505, 917505); (917536, 917631);
    (917760, 917999) ].

(** The cased characters among those the rule does not pass over. *)
Definition CASED : list (N * N) :=
  [
    (65, 90); (97, 122); (170, 170); (181, 181); (186, 186); (192, 214);
    (216, 246); (248, 442); (444, 447); (452, 659); (661, 687); (880, 883);
    (886, 887); (891, 893); (895, 895); (902, 902); (904, 906); (908, 908);
    (910, 929); (931, 1013); (1015, 1153); (1162, 1327); (1329, 1366); (1376, 1416);
    (4256, 4293); (4295, 4295); (4301, 4301); (4304, 4346); (4349, 4351); (5024, 5109);
    (5112, 5117); (7296, 7304); (7312, 7354); (7357, 7359); (7424, 7467); (7531, 7543);
    (7545, 7578); (7680, 7957); (7960, 7965); (7968, 8005); (8008, 8013); (8016, 8023);
    (8025, 8025); (8027, 8027); (8029, 8029); (8031, 8061); (8064, 8116); (8118, 8124);
    (8126, 8126); (8130, 8132); (8134, 8140); (8144, 8147); (8150, 8155); (8160, 8172);
    (8178, 8180); (8182, 8188); (8450, 8450); (8455, 8455); (8458, 8467); (8469, 8469);
    (8473, 8477); (8484, 8484); (8486, 8486); (8488, 8488); (8490, 8493); (8495, 8500);
    (8505, 8505); (8508, 8511); (8517, 8521); (8526, 8526); (8544, 8575); (8579, 8580);
    (9398, 9449); (11264, 11387); (11390, 11492); (11499, 11502); (11506, 11507); (11520, 11557);
    (11559, 11559); (11565, 11565); (42560, 42605); (42624, 42651); (42786, 42863); (42865, 42887);
    (42891, 42894); (42896, 42954); (42960, 42961); (42963, 42963); (42965, 42969); (42997, 42998);
    (43002, 43002); (43824, 43866); (43872, 43880); (43888, 43967); (64256, 64262); (64275, 64279);
    (65313, 65338); (65345, 65370); (66560, 66639); (66736, 66771); (66776, 66811); (66928, 66938);
    (66940, 66954); (66956, 66962); (66964, 66965); (66967, 66977); (66979, 66993); (66995, 67001);
    (67003, 67004); (68736, 68786); (68800, 68850); (71840, 71903); (93760, 93823); (119808, 119892);
    (119894, 119964); (119966, 119967); (119970, 119970); (119973, 119974); (119977, 119980); (119982, 119993);
    (119995, 119995); (119997, 120003); (120005, 120069); (120071, 120074); (120077, 120084); (120086, 120092);
    (120094, 120121); (120123, 120126); (120128, 120132); (120134, 120134); (120138, 120144); (120146, 120485);
    (120488, 120512); (120514, 120538); (120540, 120570); (120572, 120596); (120598, 120628); (120630, 120654);
    (120656, 120686); (120688, 120712); (120714, 120744); (120746, 120770); (120772, 120779); (122624, 122633);
    (122635, 122654); (125184, 125251); (127280, 127305); (127312, 127337); (127344, 127369) ].

(** The characters whose lower-case form is one of [forms]. *)
Definition lowered_to (forms : list N) : list N :=
  filter (fun y => existsb (N.eqb (tolower y)) forms)
         (forms ++
          map fst (filter (fun p => existsb (N.eqb (snd p)) forms) LOWER)).

(** Every member of [l1] is a member of [l2]. *)
Definition included (l1 l2 : list N) : bool :=
  forallb (fun v => existsb (N.eqb v) l2) l1.

Definition iscaseignorable (c : N) : bool := in_ranges CASE_IGNORABLE c.
Definition iscased (c : N) : bool := in_ranges CASED c.

End Unicode.

(* ------------------------------------------------------------------ *)
(** ** Strings *)

Module Str.
Local Open Scope N_scope.

Definition str := list N.

(** The [str] of a source literal. *)
Definition chars (s : string) : str := map Unicode.code (list_ascii_of_string s).

(** The lower-case form of a character other than the capital sigma:
    one character, except for the capital I with a dot above, which
    has two. *)
Definition lower_char (c : N) : str :=
  if c =? 304 then [105; 775] else [Unicode.tolower c].

(** The nearest character that is not case-ignorable. *)
Fixpoint nearest (s : str) : option N :=
  match s with
  | [] => None
  | c :: s' => if Unicode.iscaseignorable c then nearest s' else Some c
  end.

(** The capital sigma is in final position: a cased character stands
    before it and none after it, case-ignorable characters apart.
    [bef] is the text before it, last character first. *)
Definition final_sigma (bef aft : str) : bool :=
  match nearest bef with
  | Some c =>
      Unicode.iscased c &&
      match nearest aft with
      | Some d => negb (Unicode.iscased d)
      | None => true
      end
  | None => false
  end.

Fixpoint lower_from (bef aft : str) : str :=
  match aft with
  | [] => []
  | c :: aft' =>
      (if c =? 931
       then [if final_sigma bef aft' then 962 else 963]
       else lower_char c)
      ++ lower_from (c :: bef) aft'
  end.

(** [s.lower()] *)
Definition lower (s : str) : str := lower_from [] s.

Fixpoint startswith (p s : str) : bool :=
  match p, s with
  | [], _ => true
  | a :: p', b :: s' => (a =? b) && startswith p' s'
  | _ :: _, [] => false
  end.

(** [needle in hay] *)
Fixpoint contains (needle hay : str) : bool :=
  startswith needle hay ||
  match hay with
  | [] => false
  | _ :: hay' => contains needle hay'
  end.

(** [s.replace(c, "")] for a one-character [c]. *)
Definition remove (c : ascii) (s : str) : str :=
  filter (fun x => negb (x =? Unicode.code c)) s.

Fixpoint lstrip_by (sp : N -> bool) (s : str) : str :=
  match s with
  | c :: s' => if sp c then lstrip_by sp s' else s
  | [] => []
  end.

Definition strip_by (sp : N -> bool) (s : str) : str :=
  rev (lstrip_by sp (rev (lstrip_by sp s))).

(** [s.strip()] *)
Definition strip (s : str) : str := strip_by Unicode.isspace s.

End Str.

(* ------------------------------------------------------------------ *)
(** ** Exceptions *)

Inductive exn : Type :=
| ValueError
| AttributeError
| ReError.

Inductive result (A : Type) : Type :=
| Ok (a : A)
| Raise (e : exn).

Arguments Ok {A} a.
Arguments Raise {A} e.

Definition bind {A B : Type} (x : result A) (f : A -> result B) : result B :=
  match x with
  | Ok a => f a
  | Raise e => Raise e
  end.

Notation "x <- e1 ;; e2" := (bind e1 (fun x => e2))
  (at level 61, e1 at next level, right associativity).

(* ------------------------------------------------------------------ *)
(** ** float(str) *)

Module PyFloat.
Import Str.
Local Open Scope N_scope.

Definition prec : Z := 53.
Definition emax : Z := 1024.

Definition float := spec_float.

(** The correctly rounded (to nearest, ties to even) binary64 value of
    [(-1)^neg * digits * 10^e10], as [strtod] computes it. *)
Definition of_decimal (neg : bool) (digits : Z) (e10 : Z) : float :=
  match digits with
  | Zpos m =>
      if (0 <=? e10)%Z
      then SFdiv prec emax
             (S754_finite neg (m * Z.to_pos (10 ^ e10)) 0)
             (S754_finite false 1 0)
      else SFdiv prec emax
             (S754_finite neg m 0)
             (S754_finite false (Z.to_pos (10 ^ (- e10))) 0)
  | _ => S754_zero neg
  end.

(** The digits of the C parser: 0 to 9. *)
Definition isdigit (c : N) : bool := (48 <=? c) && (c <=? 57).

Definition digit_value (c : N) : Z := Z.of_N c - 48.

(** The rest of a [digitpart ::= digit (["_"] digit)*] after its first
    digit: [acc] is the number read so far, [n] counts its digits. *)
Fixpoint digits_tail (acc : Z) (n : Z) (s : str) : Z * Z * str :=
  match s with
  | c :: s' =>
      if isdigit c
      then digits_tail (10 * acc + digit_value c) (n + 1) s'
      else if c =? Unicode.code "_"
      then match s' with
           | d :: s'' =>
               if isdigit d
               then digits_tail (10 * acc + digit_value d) (n + 1) s''
               else (acc, n, s)
           | [] => (acc, n, s)
           end
      else (acc, n, s)
  | [] => (acc, n, s)
  end.

Definition digitpart (acc : Z) (n : Z) (s : str) : option (Z * Z * str) :=
  match s with
  | c :: s' =>
      if isdigit c
      then Some (digits_tail (10 * acc + digit_value c) (n + 1) s')
      else None
  | [] => None
  end.

(** [s] without its first character when that is [c]. *)
Definition after_char (c : ascii) (s : str) : option str :=
  match s with
  | x :: s' => if x =? Unicode.code c then Some s' else None
  | [] => None
  end.

(** [number ::= [digitpart] "." digitpart | digitpart ["."]]: the
    digits read as an integer, the number of digits after the point,
    and the rest. *)
Definition number (s : str) : option (Z * Z * str) :=
  match digitpart 0 0 s with
  | Some (i, _, r) =>
      match after_char "." r with
      | Some r' =>
          match digitpart i 0 r' with
          | Some (m, k, r'') => Some (m, k, r'')
          | None => Some (i, 0%Z, r')
          end
      | None => Some (i, 0%Z, r)
      end
  | None =>
      match after_char "." s with
      | Some r' => digitpart 0 0 r'
      | None => None
      end
  end.

Definition sign (s : str) : bool * str :=
  match after_char "-" s with
  | Some s' => (true, s')
  | None =>
      match after_char "+" s with
      | Some s' => (false, s')
      | None => (false, s)
      end
  end.

(** [exponent ::= ("e" | "E") [sign] digitpart]; when the text after
    the number is not an exponent nothing is read. *)
Definition exponent (s : str) : Z * str :=
  match s with
  | c :: s' =>
      if (c =? Unicode.code "e") || (c =? Unicode.code "E")
      then let (neg, s'') := sign s' in
           match digitpart 0 0 s'' with
           | Some (e, _, r) => ((if neg then - e else e)%Z, r)
           | None => (0%Z, s)
           end
      else (0%Z, s)
  | [] => (0%Z, s)
  end.

(** What [float] makes of the text before it parses it: outside ASCII
    a space becomes [" "] and a decimal digit of any number system the
    ASCII digit of the same value; any other character makes the text
    invalid. *)
Fixpoint to_ascii (s : str) : option str :=
  match s with
  | [] => Some []
  | c :: s' =>
      if c <? 127
      then option_map (cons c) (to_ascii s')
      else if Unicode.isspace c
      then option_map (cons (Unicode.code " ")) (to_ascii s')
      else match Unicode.todecimal c with
           | Some d => option_map (cons (48 + d)) (to_ascii s')
           | None => None
           end
  end.

(** [Py_TOLOWER] *)
Definition c_tolower (c : N) : N :=
  if (65 <=? c) && (c <=? 90) then c + 32 else c.

Definition is_word (w : string) (s : str) : bool :=
  if list_eq_dec N.eq_dec (map c_tolower s) (chars w) then true else false.

Definition absfloatvalue (neg : bool) (s : str) : result float :=
  if is_word "inf" s then Ok (S754_infinity neg)
  else if is_word "infinity" s then Ok (S754_infinity neg)
  else if is_word "nan" s then Ok S754_nan
  else match number s with
       | Some (m, k, r) =>
           match exponent r with
           | (e, []) => Ok (of_decimal neg m (e - k))
           | (_, _ :: _) => Raise ValueError
           end
       | None => Raise ValueError
       end.

(** [float(s)] for a [str] argument. *)
Definition float_of_str (s : str) : result float :=
  match to_ascii s with
  | Some a =>
      let (neg, body) := sign (strip_by Unicode.c_isspace a) in
      absfloatvalue neg body
  | None => Raise ValueError
  end.

(** The exact value of a finite float, as a rational. *)
Definition value (f : float) : option Q :=
  match f with
  | S754_zero _ => Some 0%Q
  | S754_finite s m e =>
      let q := if (0 <=? e)%Z
               then inject_Z (Zpos m * 2 ^ e)
               else (Zpos m # Z.to_pos (2 ^ (- e)))%Q in
      Some (if s then Qopp q else q)
  | _ => None
  end.

Definition is_nan (f : float) : bool :=
  match f with S754_nan => true | _ => false end.

Definition is_infinite (f : float) : bool :=
  match f with S754_infinity _ => true | _ => false end.

(** The sign bit. *)
Definition signbit (f : float) : bool :=
  match f with
  | S754_zero s | S754_infinity s | S754_finite s _ _ => s
  | S754_nan => false
  end.

End PyFloat.

(* ------------------------------------------------------------------ *)
(** ** Regular expressions: the [re] module

    The constructs are those of the patterns in [app/parser.py]:
    literals, the dot, character sets with ranges and the classes for
    digits and spaces, the word-boundary assertion, sequence,
    alternation, the greedy optional group, greedy and lazy repetition
    of a one-character expression, and capturing groups.

    Matching is by backtracking.  [run] lists, in the order in which the
    backtracking search of [re] reaches them, the states in which an
    expression can stop; the match [re] reports is the first one. *)

Module Re.
Import Str.
Local Open Scope N_scope.

Inductive item : Type :=
| ILit (c : ascii)            (* a character of a set *)
| IRange (lo hi : ascii)      (* a range lo-hi of a set *)
| IDigit                      (* the class of decimal digits *)
| ISpace.                     (* the class of white space *)

Inductive atom : Type :=
| Chr (c : ascii)             (* a literal character *)
| AnyChar                     (* the dot *)
| OneOf (items : list item).  (* a set, or a class on its own *)

Inductive regex : Type :=
| Eps
| One (a : atom)
| Boundary                                   (* word boundary *)
| Seq (r1 r2 : regex)
| Alt (r1 r2 : regex)
| Opt (r : regex)                            (* greedy optional *)
| Rep (greedy : bool) (lo : nat) (hi : option nat) (a : atom)
| Group (n : nat) (r : regex).

(** The characters [lo], ..., [hi]. *)
Definition codes (lo hi : ascii) : list ascii :=
  map (fun n => ascii_of_nat n)
      (seq (nat_of_ascii lo) (S (nat_of_ascii hi) - nat_of_ascii lo)).

(** *** Ignoring case

    [_sre.unicode_iscased] on the characters a pattern is written
    with: those that differ from their lower-case or upper-case
    form. *)
Definition CASED_LATIN1 : list (N * N) :=
  [
    (65, 90); (97, 122); (181, 181); (192, 214); (216, 246); (248, 255) ].

Definition iscased (c : ascii) : bool :=
  Unicode.in_ranges CASED_LATIN1 (Unicode.code c).

(** [re._casefix._EXTRA_CASES]: for a lower-case character, the other
    lower-case characters with the same upper-case form. *)
Definition EXTRA_CASES : list (N * list N) :=
  [
    (105, [305]);
    (115, [383]);
    (181, [956]);
    (305, [105]);
    (383, [115]);
    (837, [953; 8126]);
    (912, [8147]);
    (944, [8163]);
    (946, [976]);
    (949, [1013]);
    (952, [977]);
    (953, [837; 8126]);
    (954, [1008]);
    (956, [181]);
    (960, [982]);
    (961, [1009]);
    (962, [963]);
    (963, [962]);
    (966, [981]);
    (976, [946]);
    (977, [952]);
    (981, [966]);
    (982, [960]);
    (1008, [954]);
    (1009, [961]);
    (1013, [949]);
    (1074, [7296]);
    (1076, [7297]);
    (1086, [7298]);
    (1089, [7299]);
    (1090, [7300; 7301]);
    (1098, [7302]);
    (1123, [7303]);
    (7296, [1074]);
    (7297, [1076]);
    (7298, [1086]);
    (7299, [1089]);
    (7300, [1090; 7301]);
    (7301, [1090; 7300]);
    (7302, [1098]);
    (7303, [1123]);
    (7304, [42571]);
    (7777, [7835]);
    (7835, [7777]);
    (8126, [837; 953]);
    (8147, [912]);
    (8163, [944]);
    (42571, [7304]);
    (64261, [64262]);
    (64262, [64261]) ].

Definition fixes (lo : N) : list N :=
  match Unicode.assoc lo EXTRA_CASES with
  | Some l => l
  | None => []
  end.

(** What a cased character of a pattern is compiled to when case is
    ignored: its lower-case form and the extra cases of that form.
    The lower-case form of the subject character is looked up among
    them. *)
Definition folded (c : ascii) : list N :=
  let lo := Unicode.tolower (Unicode.code c) in lo :: fixes lo.

(** The member [i] of a set accepts the character [y]. *)
Definition item_match (y : N) (i : item) : bool :=
  match i with
  | ILit c => y =? Unicode.code c
  | IRange lo hi => (Unicode.code lo <=? y) && (y <=? Unicode.code hi)
  | IDigit => Unicode.isdecimal y
  | ISpace => Unicode.isspace y
  end.

Definition item_cased (i : item) : bool :=
  match i with
  | ILit c => iscased c
  | IRange lo hi => existsb iscased (codes lo hi)
  | IDigit | ISpace => false
  end.

(** The characters a member of a set stands for when case is
    ignored; a class stands for itself. *)
Definition item_folded (i : item) : list N :=
  match i with
  | ILit c => folded c
  | IRange lo hi => flat_map folded (codes lo hi)
  | IDigit | ISpace => []
  end.

Definition item_class (y : N) (i : item) : bool :=
  match i with
  | IDigit => Unicode.isdecimal y
  | ISpace => Unicode.isspace y
  | ILit _ | IRange _ _ => false
  end.

(** With [re.IGNORECASE] a cased literal, and a set with a cased
    member, are tested on the lower-case form of the character;
    everything else is tested on the character itself. *)
Definition atom_match (ignorecase : bool) (a : atom) (x : N) : bool :=
  match a with
  | Chr c =>
      if ignorecase && iscased c
      then existsb (N.eqb (Unicode.tolower x)) (folded c)
      else x =? Unicode.code c
  | AnyChar => negb (x =? 10)
  | OneOf items =>
      if ignorecase && existsb item_cased items
      then let y := Unicode.tolower x in
           existsb (N.eqb y) (flat_map item_folded items)
           || existsb (item_class y) items
      else existsb (item_match x) items
  end.

(** A position in the subject: the text before it (last character
    first) and the text after it, with the groups captured so far. *)
Record state : Type := State {
  before : str;
  after : str;
  groups : list (nat * str)
}.

Definition is_word_at (s : str) : bool :=
  match s with
  | c :: _ => Unicode.isword c
  | [] => false
  end.

(** A word boundary: exactly one of the two neighbours is a word
    character. *)
Definition boundary (bef aft : str) : bool :=
  xorb (is_word_at bef) (is_word_at aft).

Definition at_boundary (st : state) : bool :=
  boundary (before st) (after st).

Definition may_repeat (hi : option nat) : bool :=
  match hi with
  | Some O => false
  | _ => true
  end.

(** The positions after [lo] to [hi] characters that match [a]: the
    longest first when greedy, the shortest first when lazy. *)
Fixpoint repeat_atom (ignorecase greedy : bool) (a : atom)
         (lo : nat) (hi : option nat) (bef aft : str) {struct aft}
  : list (str * str) :=
  let stop := match lo with O => [(bef, aft)] | S _ => [] end in
  let more :=
    match aft with
    | c :: aft' =>
        if may_repeat hi && atom_match ignorecase a c
        then repeat_atom ignorecase greedy a (pred lo) (option_map pred hi)
                         (c :: bef) aft'
        else []
    | [] => []
    end in
  if greedy then more ++ stop else stop ++ more.

(** The text between two positions of the same subject. *)
Definition between_states (from to : state) : str :=
  firstn (List.length (after from) - List.length (after to)) (after from).

Definition set_group (n : nat) (from : state) (st : state) : state :=
  {| before := before st;
     after := after st;
     groups := (n, between_states from st) :: groups st |}.

Fixpoint run (ignorecase : bool) (r : regex) (st : state) : list state :=
  match r with
  | Eps => [st]
  | One a =>
      match after st with
      | c :: aft =>
          if atom_match ignorecase a c
          then [{| before := c :: before st; after := aft; groups := groups st |}]
          else []
      | [] => []
      end
  | Boundary => if at_boundary st then [st] else []
  | Seq r1 r2 => flat_map (run ignorecase r2) (run ignorecase r1 st)
  | Alt r1 r2 => run ignorecase r1 st ++ run ignorecase r2 st
  | Opt r1 => run ignorecase r1 st ++ [st]
  | Rep greedy lo hi a =>
      map (fun p => {| before := fst p; after := snd p; groups := groups st |})
          (repeat_atom ignorecase greedy a lo hi (before st) (after st))
  | Group n r1 => map (set_group n st) (run ignorecase r1 st)
  end.

(** A match object: where the match starts and the state it ends in. *)
Record Match : Type := MkMatch {
  m_start : nat;
  m_final : state
}.

(** The scan of [re.search]: the first match at the leftmost position
    that has one. *)
Fixpoint search_from (ignorecase : bool) (r : regex) (bef aft : str)
         {struct aft} : option Match :=
  match run ignorecase r {| before := bef; after := aft; groups := [] |} with
  | st :: _ => Some {| m_start := List.length bef; m_final := st |}
  | [] =>
      match aft with
      | c :: aft' => search_from ignorecase r (c :: bef) aft'
      | [] => None
      end
  end.

Definition search_compiled (ignorecase : bool) (r : regex) (s : str)
  : option Match :=
  search_from ignorecase r [] s.

Fixpoint lookup (n : nat) (gs : list (nat * str)) : option str :=
  match gs with
  | [] => None
  | (k, v) :: gs' => if Nat.eqb k n then Some v else lookup n gs'
  end.

(** [m.group(n)] for [n >= 1]: [None] when the group took no part in
    the match. *)
Definition group (m : Match) (n : nat) : option str :=
  lookup n (groups (m_final m)).

(** *** Pattern syntax

    The text of a pattern is read character by character. *)

Definition digit : atom := OneOf [IDigit].
Definition space : atom := OneOf [ISpace].

Definition is_digit_char (c : ascii) : bool :=
  (48 <=? Unicode.code c) && (Unicode.code c <=? 57).

Definition is_letter_char (c : ascii) : bool :=
  ((65 <=? Unicode.code c) && (Unicode.code c <=? 90))
  || ((97 <=? Unicode.code c) && (Unicode.code c <=? 122)).

(** The ASCII characters that a backslash makes a literal. *)
Definition is_punct (c : ascii) : bool :=
  negb (is_digit_char c) && negb (is_letter_char c)
  && (33 <=? Unicode.code c) && (Unicode.code c <=? 126).

(** The characters that are not literals at the start of an
    expression. *)
Definition is_special (c : ascii) : bool :=
  existsb (Ascii.eqb c) (list_ascii_of_string ".^$*+?{}[]\|()").

Fixpoint read_nat (acc : nat) (s : list ascii) : nat * list ascii :=
  match s with
  | c :: s' =>
      if is_digit_char c
      then read_nat (10 * acc + (nat_of_ascii c - 48)) s'
      else (acc, s)
  | [] => (acc, s)
  end.

(** The members of a set, after its opening bracket. *)
Fixpoint read_set (s : list ascii) : option (list item * list ascii) :=
  let more (i : item) (rest : option (list item * list ascii)) :=
    match rest with
    | Some (rest_items, s1) => Some (i :: rest_items, s1)
    | None => None
    end in
  match s with
  | [] => None
  | "]"%char :: s' => Some ([], s')
  | "\"%char :: c :: s' =>
      if Ascii.eqb c "d" then more IDigit (read_set s')
      else if Ascii.eqb c "s" then more ISpace (read_set s')
      else if is_punct c then more (ILit c) (read_set s')
      else None
  | "\"%char :: [] => None
  | c :: "-"%char :: d :: s' =>
      if Ascii.eqb d "]" then more (ILit c) (more (ILit "-"%char) (Some ([], s')))
      else if Ascii.eqb d "\" then None
      else if Unicode.code c <=? Unicode.code d
      then more (IRange c d) (read_set s')
      else None
  | c :: s' =>
      if Ascii.eqb c "^" || Ascii.eqb c "[" then None
      else more (ILit c) (read_set s')
  end.

(** A repetition count [{m}] or [{m,n}] or [{m,}], after its opening
    brace. *)
Definition read_count (s : list ascii)
  : option (nat * option nat * list ascii) :=
  match s with
  | c :: _ =>
      if is_digit_char c
      then let (lo, s1) := read_nat 0 s in
           match s1 with
           | "}"%char :: s2 => Some (lo, Some lo, s2)
           | ","%char :: "}"%char :: s2 => Some (lo, None, s2)
           | ","%char :: ((d :: _) as s2) =>
               if is_digit_char d
               then let (hi, s3) := read_nat 0 s2 in
                    match s3 with
                    | "}"%char :: s4 =>
                        if (lo <=? hi)%nat then Some (lo, Some hi, s4) else None
                    | _ => None
                    end
               else None
           | _ => None
           end
      else None
  | [] => None
  end.

(** The repetition that follows an expression, if any. *)
Definition quantified (r : regex) (s : list ascii)
  : option (regex * list ascii) :=
  let lazy (s : list ascii) : bool * list ascii :=
    match s with
    | "?"%char :: s' => (false, s')
    | _ => (true, s)
    end in
  let rep (lo : nat) (hi : option nat) (s : list ascii) :=
    match r with
    | One a => let (greedy, s') := lazy s in Some (Rep greedy lo hi a, s')
    | _ => None
    end in
  match s with
  | "*"%char :: s' => rep 0%nat None s'
  | "+"%char :: s' => rep 1%nat None s'
  | "?"%char :: "?"%char :: _ => None
  | "?"%char :: s' => Some (Opt r, s')
  | "{"%char :: s' =>
      match read_count s' with
      | Some (lo, hi, s'') => rep lo hi s''
      | None => None
      end
  | _ => Some (r, s)
  end.

(** The parser of patterns: alternatives, sequences, and expressions
    with their repetition.  [g] is the number of the next capturing
    group.  [None] is a pattern [re] rejects or one that uses a
    construct outside this model. *)
Fixpoint parse_alt (fuel : nat) (g : nat) (s : list ascii) {struct fuel}
  : option (regex * nat * list ascii) :=
  match fuel with
  | O => None
  | S fuel' =>
      match parse_seq fuel' g s with
      | Some (r1, g1, "|"%char :: s1) =>
          match parse_alt fuel' g1 s1 with
          | Some (r2, g2, s2) => Some (Alt r1 r2, g2, s2)
          | None => None
          end
      | other => other
      end
  end
with parse_seq (fuel : nat) (g : nat) (s : list ascii) {struct fuel}
  : option (regex * nat * list ascii) :=
  match fuel with
  | O => None
  | S fuel' =>
      match parse_item fuel' g s with
      | Some (r1, g1, s1) =>
          match s1 with
          | [] | "|"%char :: _ | ")"%char :: _ => Some (r1, g1, s1)
          | _ =>
              match parse_seq fuel' g1 s1 with
              | Some (r2, g2, s2) => Some (Seq r1 r2, g2, s2)
              | None => None
              end
          end
      | None => None
      end
  end
with parse_item (fuel : nat) (g : nat) (s : list ascii) {struct fuel}
  : option (regex * nat * list ascii) :=
  let finish (r : regex) (g : nat) (s : list ascii) :=
    match quantified r s with
    | Some (r', s') => Some (r', g, s')
    | None => None
    end in
  match fuel with
  | O => None
  | S fuel' =>
      match s with
      | "("%char :: "?"%char :: ":"%char :: s1 =>
          match parse_alt fuel' g s1 with
          | Some (r, g1, ")"%char :: s2) => finish r g1 s2
          | _ => None
          end
      | "("%char :: "?"%char :: _ => None
      | "("%char :: s1 =>
          match parse_alt fuel' (S g) s1 with
          | Some (r, g1, ")"%char :: s2) => finish (Group g r) g1 s2
          | _ => None
          end
      | "["%char :: s1 =>
          match read_set s1 with
          | Some (i :: rest_items, s2) => finish (One (OneOf (i :: rest_items))) g s2
          | _ => None
          end
      | "\"%char :: c :: s1 =>
          if Ascii.eqb c "d" then finish (One digit) g s1
          else if Ascii.eqb c "s" then finish (One space) g s1
          else if Ascii.eqb c "b" then finish Boundary g s1
          else if is_punct c then finish (One (Chr c)) g s1
          else None
      | "."%char :: s1 => finish (One AnyChar) g s1
      | c :: s1 =>
          if is_special c then None else finish (One (Chr c)) g s1
      | [] => None
      end
  end.

(** [re.compile]: [None] as for [parse_alt]. *)
Definition compile (pattern : string) : option regex :=
  let s := list_ascii_of_string pattern in
  match s with
  | [] => Some Eps
  | _ =>
      match parse_alt (3 * List.length s + 3) 1 s with
      | Some (r, _, []) => Some r
      | _ => None
      end
  end.

End Re.

Module ReApi.
Import Str Re.

(** [re.search(pattern, s, flags)] where [flags] is [re.IGNORECASE]
    or nothing.  [re.error] is raised for a pattern that does not
    compile. *)
Definition search (pattern : string) (s : str) (ignorecase : bool)
  : result (option Match) :=
  match compile pattern with
  | Some r => Ok (search_compiled ignorecase r s)
  | None => Raise ReError
  end.

End ReApi.

(* ------------------------------------------------------------------ *)
(** ** class MpesaParser *)

Module MpesaParser.
Import Str.
Local Open Scope string_scope.

Definition TRANSACTION_TYPES : list (string * list string) :=
  [ ("SENT", ["you have sent"; "sent to"; "paid to"; "transferred to"]);
    ("RECEIVED", ["you have received"; "received from"]);
    ("WITHDRAWN", ["withdraw"; "withdrawn from"]);
    ("BOUGHT", ["bought"; "airtime for"]);
    ("BALANCE", ["balance was"; "your balance is"]);
    ("REVERSED", ["reversed"; "transaction reversed"]);
    ("PAYBILL", ["paid to"; "for account"]) ].

(** The patterns of [extract_amount]. *)
Definition amount_patterns : list string :=
  [ "Ksh\s*([\d,]+\.?\d*)";
    "KES\s*([\d,]+\.?\d*)";
    "amount\s+(?:of\s+)?Ksh\s*([\d,]+\.?\d*)" ].

(** The pattern of [extract_transaction_code]. *)
Definition code_pattern : string :=
  "\b([A-Z]{2}\d{2}[A-Z0-9]{5,6})\b".

(** The patterns of [extract_balance]. *)
Definition balance_patterns : list string :=
  [ "balance (?:is|was)\s+Ksh\s*([\d,]+\.?\d*)";
    "New.*?balance.*?Ksh\s*([\d,]+\.?\d*)";
    "balance.*?Ksh\s*([\d,]+\.?\d*)" ].

(** The patterns of [extract_recipient]. *)
Definition recipient_patterns : list string :=
  [ "(?:sent to|paid to|received from)\s+([A-Z\s]+?)(?:\s+\d|\s+on|\s+Ksh|\.)";
    "(?:sent to|paid to|received from)\s+(\d+)" ].

(** A method call on the value of [match.group(1)], which is [None]
    when the group took no part in the match. *)
Definition method {A : Type} (o : option str) (f : str -> A) : result A :=
  match o with
  | Some s => Ok (f s)
  | None => Raise AttributeError
  end.

(** The loop of [extract_amount], which is also that of
    [extract_balance]: for each pattern in turn, search it ignoring
    case; on a match, remove the commas of group 1 and return its
    [float]; a [ValueError] of [float] goes on with the next pattern;
    the result is [None] after the last pattern. *)
Fixpoint first_float (patterns : list string) (message : str)
  : result (option PyFloat.float) :=
  match patterns with
  | [] => Ok None
  | pattern :: patterns' =>
      m <- ReApi.search pattern message true ;;
      match m with
      | Some m =>
          amount_str <- method (Re.group m 1) (remove ",") ;;
          match PyFloat.float_of_str amount_str with
          | Ok v => Ok (Some v)
          | Raise ValueError => first_float patterns' message
          | Raise e => Raise e
          end
      | None => first_float patterns' message
      end
  end.

Definition extract_amount (message : str) : result (option PyFloat.float) :=
  first_float amount_patterns message.

Definition extract_transaction_code (message : str) : result (option str) :=
  m <- ReApi.search code_pattern message false ;;
  match m with
  | Some m => Ok (Re.group m 1)
  | None => Ok None
  end.

Definition extract_balance (message : str) : result (option PyFloat.float) :=
  first_float balance_patterns message.

(** The loop of [extract_recipient]. *)
Fixpoint first_group (patterns : list string) (message : str)
  : result (option str) :=
  match patterns with
  | [] => Ok None
  | pattern :: patterns' =>
      m <- ReApi.search pattern message true ;;
      match m with
      | Some m =>
          r <- method (Re.group m 1) strip ;;
          Ok (Some r)
      | None => first_group patterns' message
      end
  end.

Definition extract_recipient (message : str) : result (option str) :=
  first_group recipient_patterns message.

(** The loop of [determine_transaction_type] over the items of the
    table, in insertion order. *)
Fixpoint first_type (table : list (string * list string)) (message_lower : str)
  : string :=
  match table with
  | [] => "UNKNOWN"
  | (trans_type, keywords) :: table' =>
      if existsb (fun keyword => contains (chars keyword) message_lower) keywords
      then trans_type
      else first_type table' message_lower
  end.

Definition determine_transaction_type (message : str) : string :=
  first_type TRANSACTION_TYPES (Str.lower message).

Record ParsedTransaction : Type := {
  sender : str;
  raw_message : str;
  transaction_type : string;
  amount : option PyFloat.float;
  transaction_code : option str;
  balance : option PyFloat.float;
  recipient : option str;
  timestamp : Z;
  parsed_successfully : bool
}.

Definition is_not_none {A : Type} (o : option A) : bool :=
  match o with Some _ => true | None => false end.

(** [parse]; [utcnow] is the value [datetime.utcnow()] returns. *)
Definition parse (utcnow : Z) (sender message : str)
  : result ParsedTransaction :=
  let transaction_type := determine_transaction_type message in
  amount <- extract_amount message ;;
  transaction_code <- extract_transaction_code message ;;
  balance <- extract_balance message ;;
  recipient <- extract_recipient message ;;
  Ok {| sender := sender;
        raw_message := message;
        transaction_type := transaction_type;
        amount := amount;
        transaction_code := transaction_code;
        balance := balance;
        recipient := recipient;
        timestamp := utcnow;
        parsed_successfully :=
          is_not_none amount && is_not_none transaction_code |}.

End MpesaParser.

(* ------------------------------------------------------------------ *)
(** ** The compiled patterns *)

Module Patterns.
Import Str Re.

(** The characters of a literal text of a pattern. *)
Definition text (s : string) : list ascii := list_ascii_of_string s.

(** The literal text [s] followed by [r]. *)
Fixpoint lit_then (s : list ascii) (r : regex) : regex :=
  match s with
  | [] => r
  | c :: s' => Seq (One (Chr c)) (lit_then s' r)
  end.

(** The literal text [s] at the end of a sequence. *)
Fixpoint lit (s : list ascii) : regex :=
  match s with
  | [] => Eps
  | c :: s' =>
      match s' with
      | [] => One (Chr c)
      | _ :: _ => Seq (One (Chr c)) (lit s')
      end
  end.

Definition star (a : atom) : regex := Rep true 0 None a.
Definition plus (a : atom) : regex := Rep true 1 None a.
Definition lazy_star (a : atom) : regex := Rep false 0 None a.
Definition lazy_plus (a : atom) : regex := Rep false 1 None a.
Definition times (lo hi : nat) (a : atom) : regex := Rep true lo (Some hi) a.

Definition digit_or_comma : atom := OneOf [IDigit; ILit ","%char].
Definition upper : atom := OneOf [IRange "A" "Z"].
Definition upper_or_space : atom := OneOf [IRange "A" "Z"; ISpace].
Definition upper_or_digit : atom := OneOf [IRange "A" "Z"; IRange "0" "9"].

(** The group every amount and balance pattern ends with: digits and
    commas, an optional point, digits. *)
Definition number : regex :=
  Group 1 (Seq (plus digit_or_comma) (Seq (Opt (One (Chr "."))) (star digit))).

(** [Ksh] or [KES], optional spaces and the number. *)
Definition currency (symbol : string) : regex :=
  lit_then (text symbol) (Seq (star space) number).

Definition amount_1 : regex := currency "Ksh".
Definition amount_2 : regex := currency "KES".
Definition amount_3 : regex :=
  lit_then (text "amount")
    (Seq (plus space)
       (Seq (Opt (lit_then (text "of") (plus space))) (currency "Ksh"))).

Definition balance_1 : regex :=
  lit_then (text "balance ")
    (Seq (Alt (lit (text "is")) (lit (text "was")))
       (Seq (plus space) (currency "Ksh"))).
Definition balance_2 : regex :=
  lit_then (text "New")
    (Seq (lazy_star AnyChar)
       (lit_then (text "balance") (Seq (lazy_star AnyChar) (currency "Ksh")))).
Definition balance_3 : regex :=
  lit_then (text "balance") (Seq (lazy_star AnyChar) (currency "Ksh")).

Definition direction : regex :=
  Alt (lit (text "sent to"))
      (Alt (lit (text "paid to")) (lit (text "received from"))).

Definition recipient_1 : regex :=
  Seq direction
    (Seq (plus space)
       (Seq (Group 1 (lazy_plus upper_or_space))
          (Alt (Seq (plus space) (One digit))
             (Alt (Seq (plus space) (lit (text "on")))
                (Alt (Seq (plus space) (lit (text "Ksh")))
                     (One (Chr ".")))))))%char.
Definition recipient_2 : regex :=
  Seq direction (Seq (plus space) (Group 1 (plus digit))).

Definition code_body : regex :=
  Seq (times 2 2 upper) (Seq (times 2 2 digit) (times 5 6 upper_or_digit)).
Definition code : regex :=
  Seq Boundary (Seq (Group 1 code_body) Boundary).

End Patterns.

(* ------------------------------------------------------------------ *)
(** ** What an expression matches

    [sem ic r bef t aft g]: the expression [r] matches the text [t]
    found between [bef] (read backwards) and [aft], and captures the
    groups [g] (the last one first). *)

Module ReSpec.
Import Str Re.

Definition within (hi : option nat) (n : nat) : Prop :=
  match hi with
  | Some h => n <= h
  | None => True
  end.

Fixpoint sem (ic : bool) (r : regex) (bef t aft : str)
         (g : list (nat * str)) {struct r} : Prop :=
  match r with
  | Eps => t = [] /\ g = []
  | One a => exists c, t = [c] /\ atom_match ic a c = true /\ g = []
  | Boundary => t = [] /\ g = [] /\ boundary bef aft = true
  | Seq r1 r2 =>
      exists t1 t2 g1 g2,
        t = t1 ++ t2 /\ g = g2 ++ g1 /\
        sem ic r1 bef t1 (t2 ++ aft) g1 /\
        sem ic r2 (rev t1 ++ bef) t2 aft g2
  | Alt r1 r2 => sem ic r1 bef t aft g \/ sem ic r2 bef t aft g
  | Opt r1 => sem ic r1 bef t aft g \/ (t = [] /\ g = [])
  | Rep _ lo hi a =>
      lo <= List.length t /\ within hi (List.length t) /\
      Forall (fun c => atom_match ic a c = true) t /\ g = []
  | Group n r1 => exists g1, sem ic r1 bef t aft g1 /\ g = (n, t) :: g1
  end.

(** [needle] occurs in [hay]. *)
Definition occurs (needle hay : str) : Prop :=
  exists pre post, hay = pre ++ needle ++ post.

(** [found] is what the literal text [s] of a pattern matches,
    character by character. *)
Definition same_text (ic : bool) (found : str) (s : list ascii) : Prop :=
  Forall2 (fun x c => atom_match ic (Chr c) x = true) found s.

End ReSpec.

(* ------------------------------------------------------------------ *)
(** ** Vocabulary of the properties *)

Module Spec.
Import Str.

(** A decimal digit of any number system. *)
Definition is_digit (c : N) : Prop := Unicode.isdecimal c = true.
Definition is_space (c : N) : Prop := Unicode.isspace c = true.
(** A capital letter A to Z. *)
Definition is_upper (c : N) : Prop := (65 <= c /\ c <= 90)%N.
(** A digit 0 to 9. *)
Definition is_digit_09 (c : N) : Prop := (48 <= c /\ c <= 57)%N.

(** The small and the capital form of a letter A to Z or a to z; any
    other character of a literal is its own small and capital form. *)
Definition small (c : ascii) : N :=
  let n := Unicode.code c in
  if ((65 <=? n) && (n <=? 90))%N then (n + 32)%N else n.
Definition capital (c : ascii) : N :=
  let n := Unicode.code c in
  if ((97 <=? n) && (n <=? 122))%N then (n - 32)%N else n.

(** [x] is the character [c] of a word, as a small or as a capital
    letter. *)
Definition either_case (c : ascii) (x : N) : Prop :=
  x = capital c \/ x = small c.

(** The characters outside ASCII that [re.IGNORECASE] takes for a
    letter, for having an upper-case or lower-case form in common with
    it: the capital I with a dot above and the dotless i for i, the
    long s for s, the Kelvin sign for k. *)
Definition unicode_forms (c : ascii) : list N :=
  if (small c =? 105)%N then [304; 305]%N
  else if (small c =? 115)%N then [383]%N
  else if (small c =? 107)%N then [8490]%N
  else [].

(** [x] is the character [c] of a word when case is ignored the way
    [re.IGNORECASE] does. *)
Definition ignoring_case (c : ascii) (x : N) : Prop :=
  either_case c x \/ In x (unicode_forms c).

(** [found] is [word], character by character, up to [same]. *)
Definition spells (same : ascii -> N -> Prop) (word : string) (found : str)
  : Prop :=
  Forall2 same (list_ascii_of_string word) found.

(** [word] occurs in [hay], up to [same]. *)
Definition occurs_as (same : ascii -> N -> Prop) (word : string) (hay : str)
  : Prop :=
  exists pre found post, hay = pre ++ found ++ post /\ spells same word found.

(** The text the number group of the amount and balance patterns
    accepts: digits and commas, then at most one point, then digits. *)
Definition number_text (num : str) : Prop :=
  exists a b c,
    num = a ++ b ++ c /\ a <> [] /\
    Forall (fun x => is_digit x \/ x = Unicode.code ",") a /\
    (b = [] \/ b = [Unicode.code "."]) /\
    Forall is_digit c.

(** A currency marker, spaces and a number: what the expression
    [Patterns.currency] matches, with the number as group 1. *)
Definition money (symbol : string) (t num : str) : Prop :=
  exists k ws,
    t = k ++ ws ++ num /\
    spells ignoring_case symbol k /\
    Forall is_space ws /\
    number_text num.

(** What an amount pattern matches ends with a currency marker and the
    number, which is its group 1. *)
Definition ends_with_money (symbol : string) (t : str) (g : list (nat * str))
  : Prop :=
  exists pre cur num, t = pre ++ cur /\ money symbol cur num /\ g = [(1, num)].

(** The text between the word "balance" and the marker of the number
    in what a balance pattern matches: a space, "is" or "was" and
    white space, or any text without a line feed. *)
Definition is_or_was (mid : str) : Prop :=
  exists v ws,
    mid = Unicode.code " " :: v ++ ws /\
    (spells ignoring_case "is" v \/ spells ignoring_case "was" v) /\
    ws <> [] /\ Forall is_space ws.

Definition one_line (mid : str) : Prop := ~ In 10%N mid.

(** What a balance pattern matches has the word "balance" and, after
    it, the marker "Ksh" and the number, which is its group 1. *)
Definition balance_then_money (t : str) (g : list (nat * str)) : Prop :=
  exists pre bal mid cur num,
    t = pre ++ bal ++ mid ++ cur /\
    spells either_case "balance" bal /\
    (is_or_was mid \/ one_line mid) /\
    money "Ksh" cur num /\ g = [(1, num)].

(** An expression whose group 1 is always a number text, part of the
    text matched. *)
Definition captures_number (r : Re.regex) : Prop :=
  forall bef t aft g,
    ReSpec.sem true r bef t aft g ->
    exists num,
      g = [(1, num)] /\ number_text num /\ List.length num <= List.length t.

(** The characters left of a number text once its commas are removed. *)
Definition numeric_char (c : N) : bool :=
  Unicode.isdecimal c || (c =? Unicode.code ".")%N.

(** The same characters once [float] has made ASCII of the text. *)
Definition numeric_09 (c : N) : bool :=
  PyFloat.isdigit c || (c =? Unicode.code ".")%N.

(** What one round of the loop of [extract_amount] yields for a
    pattern: the float of its group 1 without commas, when the pattern
    matches and the text converts. *)
Definition attempt (pattern : string) (message : str) : option PyFloat.float :=
  match Re.compile pattern with
  | Some r =>
      match Re.search_compiled true r message with
      | Some m =>
          match Re.group m 1 with
          | Some num =>
              match PyFloat.float_of_str (remove "," num) with
              | Ok v => Some v
              | Raise _ => None
              end
          | None => None
          end
      | None => None
      end
  | None => None
  end.

(** The pattern matches the message and the captured text, commas
    removed, converts to [v]. *)
Definition converts (pattern : string) (message : str) (v : PyFloat.float)
  : Prop :=
  exists r m num,
    Re.compile pattern = Some r /\
    Re.search_compiled true r message = Some m /\
    Re.group m 1 = Some num /\
    PyFloat.float_of_str (remove "," num) = Ok v.

(** The pattern matches the message but the captured text, commas
    removed, makes [float] raise [ValueError]. *)
Definition fails_to_convert (pattern : string) (message : str) : Prop :=
  exists r m num,
    Re.compile pattern = Some r /\
    Re.search_compiled true r message = Some m /\
    Re.group m 1 = Some num /\
    PyFloat.float_of_str (remove "," num) = Raise ValueError.

(** The pattern does not match the message. *)
Definition no_match (pattern : string) (message : str) : Prop :=
  exists r,
    Re.compile pattern = Some r /\
    Re.search_compiled true r message = None.

(** The patterns compile and their group 1 is a number text. *)
Definition well_formed (patterns : list string) : Prop :=
  Forall (fun p => exists r, Re.compile p = Some r /\ captures_number r) patterns.

(** The pattern yields nothing: no match, or a text that does not
    convert. *)
Definition skipped (message : str) (pattern : string) : Prop :=
  no_match pattern message \/ fails_to_convert pattern message.

(** An expression that always captures its group 1. *)
Definition captures_group (r : Re.regex) : Prop :=
  forall bef t aft g,
    ReSpec.sem true r bef t aft g -> exists txt, g = [(1, txt)].

(** Some trigger phrase of [keywords] is a substring of [lowered]. *)
Definition triggers (lowered : str) (keywords : list string) : Prop :=
  exists keyword, In keyword keywords /\ ReSpec.occurs (chars keyword) lowered.

(** No trigger phrase of the entry is a substring of [lowered]. *)
Definition silent (lowered : str) (entry : string * list string) : Prop :=
  ~ triggers lowered (snd entry).

Definition is_upper_or_digit (c : N) : Prop := is_upper c \/ is_digit_09 c.

(** Two capital letters A to Z, two decimal digits (of any number
    system), then five or six characters each a capital letter A to Z
    or a digit 0 to 9. *)
Definition code_shape (c : str) : Prop :=
  exists a b d,
    c = a ++ b ++ d /\
    List.length a = 2 /\ Forall is_upper a /\
    List.length b = 2 /\ Forall is_digit b /\
    (List.length d = 5 \/ List.length d = 6) /\ Forall is_upper_or_digit d.

(** The first character of [s], if any, is of the class [p]. *)
Definition begins_with (p : N -> bool) (s : str) : bool :=
  match s with
  | c :: _ => p c
  | [] => false
  end.

(** The text between [pre] and [post] is a whole word: the character
    before it, if any, and the character after it, if any, are not
    word characters (letters, digits, the underscore). *)
Definition whole_word (pre post : str) : Prop :=
  begins_with Unicode.isword (rev pre) = false /\
  begins_with Unicode.isword post = false.

(** The text between [pre] and [post] is not part of a longer
    alphanumeric run: the character before it, if any, and the
    character after it, if any, are not alphanumeric. *)
Definition whole_run (pre post : str) : Prop :=
  begins_with Unicode.isalnum (rev pre) = false /\
  begins_with Unicode.isalnum post = false.

(** [c] is a transaction code that stands in [message] between [pre]
    and [post]. *)
Definition code_at (message pre c post : str) : Prop :=
  message = pre ++ c ++ post /\ code_shape c /\ whole_word pre post.

(** [c] is the first transaction code of [message]. *)
Definition first_code (message c : str) : Prop :=
  exists pre post,
    code_at message pre c post /\
    forall pre' c' post',
      code_at message pre' c' post' -> List.length pre <= List.length pre'.

(** The positive binary64 number [m * 2^e]. *)
Definition double (m : positive) (e : Z) : PyFloat.float :=
  S754_finite false m e.

Definition pow2 (e : Z) : Q :=
  if (0 <=? e)%Z then inject_Z (2 ^ e) else (1 # Z.to_pos (2 ^ (- e)))%Q.

(** The float [f] is finite and its value is exactly [q]. *)
Definition exactly (q : Q) (f : PyFloat.float) : Prop :=
  exists v, PyFloat.value f = Some v /\ (v == q)%Q.

(** The float [f] is a binary64 number within half a unit in its last
    place of [q]: a rounding of [q] to nearest. *)
Definition rounds (q : Q) (f : PyFloat.float) : Prop :=
  match f with
  | S754_finite _ m e =>
      bounded PyFloat.prec PyFloat.emax m e = true /\
      exists v, PyFloat.value f = Some v /\
                (Qabs (v - q) <= pow2 e / 2)%Q
  | _ => False
  end.

(** The message of the scenario SENT. *)
Definition scenario_sent : str :=
  chars "RK12AB34CD confirmed. You have sent Ksh500.00 to JOHN DOE. New M-PESA balance is Ksh1,234.56.".

(** A message whose amount has 310 digits: 1 and 309 zeros. *)
Definition huge_amount : str :=
  chars "Ksh1" ++ repeat (Unicode.code "0") 309.

(** A message whose balance has 310 digits. *)
Definition huge_balance : str :=
  chars "Your balance is Ksh1" ++ repeat (Unicode.code "0") 309.

(** "Ksh" written with the long s, and a message with an amount after
    it. *)
Definition long_s_marker : str := [75; 383; 104]%N.
Definition long_s_amount : str :=
  chars "RK12AB34CD " ++ long_s_marker ++ chars "100".

(** A message about a failed balance enquiry that goes on with a
    payment. *)
Definition enquiry_failed : str :=
  chars "Your M-PESA balance enquiry failed. Ksh500.00 sent to JOHN DOE 0722000000 on 1/1/24".

(** The word "balance", [n] letters x, and an amount. *)
Definition far_balance (n : nat) : str :=
  chars "balance" ++ repeat (Unicode.code "x") n ++ chars "Ksh5".

(** The number of a balance is near the word "balance" when at most
    [bound] characters stand between the word and the marker of the
    number. *)
Definition balance_within (bound : nat) (message : str) : Prop :=
  exists pre bal mid rest,
    message = pre ++ bal ++ mid ++ rest /\
    spells either_case "balance" bal /\
    List.length mid <= bound /\
    exists k more, rest = k ++ more /\ spells ignoring_case "Ksh" k.

End Spec.

(* ------------------------------------------------------------------ *)
(** ** class SpendingAgent ([app/agent.py])

    The session is the table [daily_limits], its rows in the order of
    their insertion; the columns the database fills in by itself ([id],
    [created_at], [updated_at]) are left out.  The columns
    [limit_amount] and [spent_amount] can be NULL, which Python reads
    as [None].  The database is SQLite, that of the default settings.
    [today] is the text [get_today_date] returns.  A method that reads
    or writes the table takes it and returns it. *)

Module SpendingAgent.

(** A Python number: the [int] and the [float] that
    [check_spending_status] computes with. *)
Inductive number : Type :=
| Int (z : Z)
| Float (f : PyFloat.float).

Inductive error : Type :=
| ZeroDivisionError
| TypeError.

(** What a computation yields. *)
Inductive outcome (A : Type) : Type :=
| Returns (a : A)
| Raises (e : error).

Arguments Returns {A} a.
Arguments Raises {A} e.

Record DailyLimit : Type := {
  date : string;
  limit_amount : option PyFloat.float;
  spent_amount : option PyFloat.float;
  transaction_count : Z
}.

Definition Session : Type := list DailyLimit.

(** The settings [__init__] copies into the agent. *)
Record Agent : Type := {
  daily_limit : PyFloat.float;
  warning_threshold : PyFloat.float
}.

(** What a column of type [Float] gives back for a float written to
    it: NULL for a NaN, zero without its sign, any other number as it
    is. *)
Definition stored (f : PyFloat.float) : option PyFloat.float :=
  match f with
  | S754_nan => None
  | S754_zero _ => Some (S754_zero false)
  | _ => Some f
  end.

(** [float(z)] for an integer a binary64 number holds exactly. *)
Definition float_of_int (z : Z) : PyFloat.float :=
  binary_normalize PyFloat.prec PyFloat.emax z 0 false.

Definition is_zero (f : PyFloat.float) : bool :=
  match f with S754_zero _ => true | _ => false end.

(** [x / y] on floats. *)
Definition truediv (x y : PyFloat.float) : outcome PyFloat.float :=
  if is_zero y then Raises ZeroDivisionError
  else Returns (SFdiv PyFloat.prec PyFloat.emax x y).

(** [x * y], [x - y] on floats. *)
Definition mul (x y : PyFloat.float) : PyFloat.float :=
  SFmul PyFloat.prec PyFloat.emax x y.
Definition sub (x y : PyFloat.float) : PyFloat.float :=
  SFsub PyFloat.prec PyFloat.emax x y.

(** The float a number is compared as; the only [int] that occurs
    is 0. *)
Definition as_float (n : number) : PyFloat.float :=
  match n with
  | Int z => float_of_int z
  | Float f => f
  end.

(** [x > y] and [x >= y] *)
Definition gt (x y : PyFloat.float) : bool := SFltb y x.
Definition ge (x y : PyFloat.float) : bool := SFleb y x.

(** The integer nearest to [n / d], a tie going to the even one. *)
Definition div_half_even (n d : Z) : Z :=
  let q := (n / d)%Z in
  let r := (n mod d)%Z in
  match (2 * r ?= d)%Z with
  | Lt => q
  | Gt => (q + 1)%Z
  | Eq => if Z.even q then q else (q + 1)%Z
  end.

(** [round(x, 2)]: the float of the decimal with two places nearest to
    the exact value of [x], a tie going to the even last digit; an
    [int], an infinity and a NaN are returned as they are. *)
Definition round2 (x : number) : number :=
  match x with
  | Int z => Int z
  | Float (S754_finite s m e) =>
      let hundredths :=
        if (0 <=? e)%Z
        then (Zpos m * 2 ^ e * 100)%Z
        else div_half_even (Zpos m * 100) (2 ^ (- e)) in
      Float (PyFloat.of_decimal s hundredths (-2))
  | Float f => Float f
  end.

(** [get_or_create_daily_limit]: the row of today, made and added to
    the table when there is none; the new row is returned as the
    table gives it back after the commit. *)
Definition get_or_create_daily_limit (self : Agent) (today : string)
           (db : Session) : DailyLimit * Session :=
  match find (fun row => String.eqb (date row) today) db with
  | Some daily_limit => (daily_limit, db)
  | None =>
      let daily_limit :=
        {| date := today;
           limit_amount := stored (daily_limit self);
           spent_amount := stored (S754_zero false);
           transaction_count := 0 |} in
      (daily_limit, db ++ [daily_limit])
  end.

(** The dictionary [check_spending_status] returns. *)
Record SpendingStatus : Type := {
  status_date : string;
  spent : PyFloat.float;
  limit : PyFloat.float;
  remaining : PyFloat.float;
  percentage_used : number;
  status : string;
  status_transaction_count : Z
}.

(** [check_spending_status]; the subtraction raises [TypeError] when
    one of the two columns is [None]. *)
Definition check_spending_status (self : Agent) (today : string)
           (db : Session) : outcome SpendingStatus * Session :=
  let (daily_limit, db) := get_or_create_daily_limit self today db in
  match spent_amount daily_limit, limit_amount daily_limit with
  | Some spent, Some limit =>
      let remaining := sub limit spent in
      match (if gt limit (float_of_int 0)
             then match truediv spent limit with
                  | Returns q => Returns (Float (mul q (float_of_int 100)))
                  | Raises e => Raises e
                  end
             else Returns (Int 0)) with
      | Returns percentage_used =>
          let status :=
            if ge (as_float percentage_used) (float_of_int 100)
            then "EXCEEDED"%string
            else if ge (as_float percentage_used)
                       (mul (warning_threshold self) (float_of_int 100))
            then "WARNING"%string
            else "SAFE"%string in
          (Returns {| status_date := date daily_limit;
                      spent := spent;
                      limit := limit;
                      remaining := remaining;
                      percentage_used := round2 percentage_used;
                      status := status;
                      status_transaction_count := transaction_count daily_limit |},
           db)
      | Raises e => (Raises e, db)
      end
  | _, _ => (Raises TypeError, db)
  end.

(** [should_notify] *)
Definition should_notify (transaction_type : string) : bool :=
  existsb (String.eqb transaction_type)
          ["SENT"; "WITHDRAWN"; "BOUGHT"; "PAYBILL"]%string.

End SpendingAgent.

(* ------------------------------------------------------------------ *)
(** ** Vocabulary of the further properties *)

Module Shapes.
Import Str.

(** A letter A to Z of either case, or one of the four characters
    that [re.IGNORECASE] takes for such a letter. *)
Definition is_letter (c : N) : Prop :=
  (65 <= c /\ c <= 90)%N \/ (97 <= c /\ c <= 122)%N
  \/ In c [304; 305; 383; 8490]%N.

(** One of the directional phrases of the recipient patterns, read
    without regard to case. *)
Definition is_direction (d : str) : Prop :=
  Spec.spells Spec.ignoring_case "sent to" d
  \/ Spec.spells Spec.ignoring_case "paid to" d
  \/ Spec.spells Spec.ignoring_case "received from" d.

(** The text has no white space at either end. *)
Definition trimmed (s : str) : Prop :=
  (forall c rest, s = c :: rest -> Unicode.isspace c = false) /\
  (forall c front, s = front ++ [c] -> Unicode.isspace c = false).

(** The table of the classifier without the phrases that can never
    decide: "withdrawn from" holds "withdraw", "transaction reversed"
    holds "reversed", and "paid to" is a phrase of SENT before it is one
    of PAYBILL. *)
Definition LIVE_TRANSACTION_TYPES : list (string * list string) :=
  [ ("SENT", ["you have sent"; "sent to"; "paid to"; "transferred to"]);
    ("RECEIVED", ["you have received"; "received from"]);
    ("WITHDRAWN", ["withdraw"]);
    ("BOUGHT", ["bought"; "airtime for"]);
    ("BALANCE", ["balance was"; "your balance is"]);
    ("REVERSED", ["reversed"]);
    ("PAYBILL", ["for account"]) ]%string.

(** The number of a currency marker stands in the message: the marker
    [k], white space [ws], the number text [num]. *)
Definition money_at (message pre k ws num post : str) : Prop :=
  message = pre ++ k ++ ws ++ num ++ post /\
  (Spec.spells Spec.ignoring_case "Ksh" k
   \/ Spec.spells Spec.ignoring_case "KES" k) /\
  Forall Spec.is_space ws /\
  Spec.number_text num.

(** The number text [num] is read whole: what follows it does not
    begin with a digit, and begins with a comma or a point only when
    the number already has its point. *)
Definition whole_number (num post : str) : Prop :=
  (forall c rest, post = c :: rest -> ~ Spec.is_digit c) /\
  (forall c rest, post = c :: rest ->
     c = Unicode.code "," \/ c = Unicode.code "." ->
     In (Unicode.code ".") num).

(** The tests of [Spec.either_case] and [Spec.ignoring_case]. *)
Definition either_case_b (c : ascii) (x : N) : bool :=
  ((x =? Spec.capital c) || (x =? Spec.small c))%N.
Definition ignoring_case_b (c : ascii) (x : N) : bool :=
  either_case_b c x || existsb (N.eqb x) (Spec.unicode_forms c).

(** [word] is spelled where [s] begins. *)
Fixpoint spelled_at (same : ascii -> N -> bool) (word : list ascii) (s : str)
  : bool :=
  match word, s with
  | [], _ => true
  | c :: word', x :: s' => same c x && spelled_at same word' s'
  | _ :: _, [] => false
  end.

(** [word] is spelled somewhere in [hay]. *)
Fixpoint spelled_in (same : ascii -> N -> bool) (word : list ascii) (hay : str)
  : bool :=
  spelled_at same word hay ||
  match hay with
  | [] => false
  | _ :: hay' => spelled_in same word hay'
  end.

(** The first match of [r] ends with the first match of [r_end] from
    some position. *)
Definition ends_as (r_end r : Re.regex) : Prop :=
  forall st x more,
    Re.run true r st = x :: more ->
    exists mid more', Re.run true r_end mid = x :: more'.

End Shapes.

(* ================================================================== *)
(** * Properties *)

Import Str Re ReSpec Spec.

Unset Implicit Arguments.

(* ------------------------------------------------------------------ *)
(** ** The patterns of the parser compile *)

Lemma compile_amount_patterns :
  map compile MpesaParser.amount_patterns
  = [Some Patterns.amount_1; Some Patterns.amount_2; Some Patterns.amount_3].
Proof. reflexivity. Qed.

Lemma compile_balance_patterns :
  map compile MpesaParser.balance_patterns
  = [Some Patterns.balance_1; Some Patterns.balance_2; Some Patterns.balance_3].
Proof. reflexivity. Qed.

Lemma compile_recipient_patterns :
  map compile MpesaParser.recipient_patterns
  = [Some Patterns.recipient_1; Some Patterns.recipient_2].
Proof. reflexivity. Qed.

Lemma compile_code_pattern :
  compile MpesaParser.code_pattern = Some Patterns.code.
Proof. reflexivity. Qed.

(* ------------------------------------------------------------------ *)
(** ** The matcher and the meaning of expressions *)

Ltac assoc := rewrite <- ?app_assoc; simpl; rewrite <- ?app_assoc; reflexivity.

Section Matcher.
Variable ic : bool.

Lemma firstn_length_app (t rest : str) :
  firstn (List.length (t ++ rest) - List.length rest) (t ++ rest) = t.
Proof.
  rewrite length_app, Nat.add_sub.
  rewrite firstn_app, Nat.sub_diag, firstn_all. simpl. apply app_nil_r.
Qed.

Lemma repeat_atom_spec (greedy : bool) (a : atom) (aft : str) :
  forall lo hi bef b' a',
    In (b', a') (repeat_atom ic greedy a lo hi bef aft) <->
    exists t, aft = t ++ a' /\ b' = rev t ++ bef /\
              lo <= List.length t /\ within hi (List.length t) /\
              Forall (fun c => atom_match ic a c = true) t.
Proof.
  induction aft as [|c aft IH]; intros lo hi bef b' a'.
  - simpl. split.
    + intros H. assert (H' : In (b', a') (match lo with O => [(bef, [])] | S _ => [] end)).
      { destruct greedy; simpl in H; [exact H | rewrite app_nil_r in H; exact H]. }
      destruct lo; simpl in H'; [|contradiction].
      destruct H' as [H'|[]]. inversion H'; subst.
      exists []. repeat split; auto. destruct hi; simpl; lia.
    + intros (t & Ht & Hb & Hlo & _ & _).
      symmetry in Ht. apply app_eq_nil in Ht. destruct Ht; subst.
      simpl in Hlo. assert (lo = 0) by lia. subst lo.
      destruct greedy; simpl; auto.
  - cbn [repeat_atom].
    set (stop := match lo with O => [(bef, c :: aft)] | S _ => [] end).
    set (more := if may_repeat hi && atom_match ic a c
                 then repeat_atom ic greedy a (pred lo) (option_map pred hi)
                                  (c :: bef) aft
                 else []).
    assert (Hstop : In (b', a') stop <-> (lo = 0 /\ b' = bef /\ a' = c :: aft)).
    { unfold stop. destruct lo; simpl.
      - split; [intros [H|[]]; inversion H; auto | intros (_ & -> & ->); auto].
      - split; [contradiction | intros (H & _); discriminate]. }
    assert (Hmore : In (b', a') more <->
                    exists t, aft = t ++ a' /\ b' = rev (c :: t) ++ bef /\
                              lo <= S (List.length t) /\
                              within hi (S (List.length t)) /\
                              atom_match ic a c = true /\
                              Forall (fun c => atom_match ic a c = true) t).
    { unfold more. destruct (may_repeat hi) eqn:Hrep;
        destruct (atom_match ic a c) eqn:Hc; simpl.
      - rewrite IH. split.
        + intros (t & -> & -> & Hlo & Hhi & Hall). exists t.
          repeat split; auto.
          * simpl. rewrite <- app_assoc. reflexivity.
          * lia.
          * destruct hi as [[|h]|]; simpl in *; try discriminate; lia.
        + intros (t & -> & -> & Hlo & Hhi & _ & Hall). exists t.
          repeat split; auto.
          * simpl. rewrite <- app_assoc. reflexivity.
          * lia.
          * destruct hi as [[|h]|]; simpl in *; try discriminate; lia.
      - split; [contradiction | intros (t & _ & _ & _ & _ & H & _); discriminate].
      - split; [contradiction|].
        intros (t & _ & _ & _ & Hhi & _).
        destruct hi as [[|h]|]; simpl in *; try discriminate; lia.
      - split; [contradiction | intros (t & _ & _ & _ & _ & H & _); discriminate]. }
    assert (Hin : In (b', a') (if greedy then more ++ stop else stop ++ more)
                  <-> In (b', a') more \/ In (b', a') stop).
    { destruct greedy; rewrite in_app_iff; tauto. }
    unfold stop in Hin, Hstop. rewrite Hin, Hstop, Hmore. split.
    + intros [(t & Ht & Hb & Hlo & Hhi & Hc & Hall) | (-> & -> & ->)].
      * exists (c :: t). subst. repeat split; auto.
      * exists []. repeat split; auto; destruct hi; simpl; lia.
    + intros (t & Ht & Hb & Hlo & Hhi & Hall).
      destruct t as [|c' t].
      * right. simpl in *. subst. repeat split; auto. lia.
      * left. simpl in Ht. inversion Ht; subst c' aft.
        inversion Hall; subst. exists t. repeat split; auto.
Qed.

(** The matcher is sound and complete for [sem]. *)
Lemma run_sem (r : regex) :
  forall st st',
    In st' (run ic r st) <->
    exists t g,
      after st = t ++ after st' /\
      before st' = rev t ++ before st /\
      groups st' = g ++ groups st /\
      sem ic r (before st) t (after st') g.
Proof.
  induction r as [ | a | | r1 IH1 r2 IH2 | r1 IH1 r2 IH2 | r1 IH1
                 | greedy lo hi a | n r1 IH1 ]; intros st st'.
  - (* Eps *)
    simpl. split.
    + intros [<-|[]]. exists [], []. auto.
    + intros (t & g & Ha & Hb & Hg & -> & ->). left.
      destruct st, st'; simpl in *; congruence.
  - (* One *)
    simpl. split.
    + destruct (after st) as [|c aft] eqn:Haft; [contradiction|].
      destruct (atom_match ic a c) eqn:Hc; [|contradiction].
      intros [<-|[]]. exists [c], []. simpl. repeat split; auto.
      exists c. auto.
    + intros (t & g & Ha & Hb & Hg & c & -> & Hc & ->).
      simpl in Ha. rewrite Ha, Hc. left.
      destruct st, st'; simpl in *; congruence.
  - (* Boundary *)
    simpl. unfold at_boundary. split.
    + destruct (boundary (before st) (after st)) eqn:Hbd; [|contradiction].
      intros [<-|[]]. exists [], []. repeat split; auto.
    + intros (t & g & Ha & Hb & Hg & -> & -> & Hbd).
      assert (st = st') by (destruct st, st'; simpl in *; congruence).
      subst st'. rewrite Hbd. left. reflexivity.
  - (* Seq *)
    simpl. rewrite in_flat_map. split.
    + intros (mid & H1 & H2).
      apply IH1 in H1. apply IH2 in H2.
      destruct H1 as (t1 & g1 & Ha1 & Hb1 & Hg1 & S1).
      destruct H2 as (t2 & g2 & Ha2 & Hb2 & Hg2 & S2).
      exists (t1 ++ t2), (g2 ++ g1). repeat split.
      * rewrite Ha1, Ha2. assoc.
      * rewrite Hb2, Hb1, rev_app_distr. assoc.
      * rewrite Hg2, Hg1. assoc.
      * exists t1, t2, g1, g2. repeat split; auto.
        -- rewrite <- Ha2. exact S1.
        -- rewrite <- Hb1. exact S2.
    + intros (t & g & Ha & Hb & Hg & t1 & t2 & g1 & g2 & -> & -> & S1 & S2).
      exists {| before := rev t1 ++ before st;
                after := t2 ++ after st';
                groups := g1 ++ groups st |}.
      split.
      * apply IH1. exists t1, g1. simpl. repeat split; auto.
        rewrite Ha. assoc.
      * apply IH2. exists t2, g2. simpl. repeat split; auto.
        -- rewrite Hb, rev_app_distr. assoc.
        -- rewrite Hg. assoc.
  - (* Alt *)
    simpl. rewrite in_app_iff, IH1, IH2. split.
    + intros [(t & g & H)|(t & g & H)]; exists t, g; tauto.
    + intros (t & g & Ha & Hb & Hg & [S|S]); [left|right]; exists t, g; auto.
  - (* Opt *)
    simpl. rewrite in_app_iff, IH1. split.
    + intros [(t & g & H)|[<-|[]]].
      * exists t, g; tauto.
      * exists [], []. repeat split; auto.
    + intros (t & g & Ha & Hb & Hg & [S|(-> & ->)]).
      * left. exists t, g; auto.
      * right. left. destruct st, st'; simpl in *; congruence.
  - (* Rep *)
    simpl. rewrite in_map_iff. split.
    + intros ([b' a'] & <- & Hin). simpl.
      apply repeat_atom_spec in Hin.
      destruct Hin as (t & Ha & Hb & Hlo & Hhi & Hall).
      exists t, []. repeat split; auto.
    + intros (t & g & Ha & Hb & Hg & Hlo & Hhi & Hall & ->).
      exists (before st', after st'). split.
      * destruct st'; simpl in *. congruence.
      * apply repeat_atom_spec. exists t. auto.
  - (* Group *)
    simpl. rewrite in_map_iff. split.
    + intros (st1 & <- & Hin). apply IH1 in Hin.
      destruct Hin as (t & g & Ha & Hb & Hg & S).
      exists t, ((n, t) :: g). simpl. repeat split; auto.
      * rewrite Hg. unfold between_states.
        rewrite Ha, firstn_length_app. reflexivity.
      * exists g. split; auto.
    + intros (t & g & Ha & Hb & Hg & g1 & S & ->).
      exists {| before := before st'; after := after st'; groups := g1 ++ groups st |}.
      split.
      * unfold set_group, between_states. simpl.
        rewrite Ha, firstn_length_app.
        destruct st'; simpl in *. congruence.
      * apply IH1. exists t, g1. simpl. auto.
Qed.

(** [search_from] answers the first state of the leftmost position
    from which the expression matches. *)
Lemma search_from_some (r : regex) (aft : str) :
  forall bef m,
    search_from ic r bef aft = Some m ->
    exists skipped rest more,
      aft = skipped ++ rest /\
      m_start m = List.length bef + List.length skipped /\
      run ic r {| before := rev skipped ++ bef; after := rest; groups := [] |}
      = m_final m :: more /\
      forall s1 c s2, skipped = s1 ++ c :: s2 ->
        run ic r {| before := rev s1 ++ bef; after := c :: s2 ++ rest; groups := [] |}
        = [].
Proof.
  induction aft as [|c aft IH]; intros bef m; simpl.
  - destruct (run ic r _) as [|st more] eqn:Hrun; [discriminate|].
    intros [= <-]. exists [], [], more. simpl. repeat split; auto.
    intros [|? ?] ? ? H; discriminate.
  - destruct (run ic r _) as [|st more] eqn:Hrun.
    + intros H. apply IH in H.
      destruct H as (skipped & rest & more & -> & Hs & Hr & Hnone).
      exists (c :: skipped), rest, more. simpl. repeat split.
      * rewrite Hs. simpl. lia.
      * rewrite <- app_assoc. exact Hr.
      * intros [|c1 s1] c' s2 Heq; simpl in *.
        -- inversion Heq; subst. exact Hrun.
        -- injection Heq as <- ->. rewrite <- app_assoc. simpl.
           apply Hnone. reflexivity.
    + intros [= <-]. exists [], (c :: aft), more. simpl. repeat split; auto.
      intros [|? ?] ? ? H; discriminate.
Qed.

Lemma search_from_none (r : regex) (aft : str) :
  forall bef,
    search_from ic r bef aft = None <->
    forall skipped rest, aft = skipped ++ rest ->
      run ic r {| before := rev skipped ++ bef; after := rest; groups := [] |} = [].
Proof.
  induction aft as [|c aft IH]; intros bef; simpl.
  - destruct (run ic r _) as [|st more] eqn:Hrun.
    + split; auto. intros _ skipped rest H.
      symmetry in H. apply app_eq_nil in H. destruct H; subst. exact Hrun.
    + split; [discriminate|]. intros H.
      specialize (H [] [] eq_refl). simpl in H. congruence.
  - destruct (run ic r _) as [|st more] eqn:Hrun.
    + rewrite IH. split.
      * intros H [|c' skipped] rest Heq; simpl in *.
        -- subst rest. exact Hrun.
        -- inversion Heq; subst. rewrite <- app_assoc. simpl. apply H. reflexivity.
      * intros H skipped rest ->.
        specialize (H (c :: skipped) rest eq_refl). simpl in H.
        rewrite <- app_assoc in H. exact H.
    + split; [discriminate|]. intros H.
      specialize (H [] (c :: aft) eq_refl). simpl in H. congruence.
Qed.

End Matcher.

(* ------------------------------------------------------------------ *)
(** ** Strings *)

Lemma startswith_spec (p s : str) :
  startswith p s = true <-> exists rest, s = p ++ rest.
Proof.
  revert s. induction p as [|a p IH]; intros s; simpl.
  - split; eauto.
  - destruct s as [|b s].
    + split; [discriminate | intros (rest & H); discriminate].
    + rewrite andb_true_iff, N.eqb_eq, IH. split.
      * intros (-> & rest & ->). eauto.
      * intros (rest & H). injection H as -> ->. eauto.
Qed.

Lemma contains_spec (needle hay : str) :
  contains needle hay = true <-> occurs needle hay.
Proof.
  unfold occurs. induction hay as [|c hay IH]; simpl.
  - rewrite orb_false_r, startswith_spec. split.
    + intros (rest & H). exists [], rest. exact H.
    + intros (pre & post & H).
      destruct pre; [|discriminate]. exists post. exact H.
  - rewrite orb_true_iff, startswith_spec, IH. split.
    + intros [(rest & H) | (pre & post & ->)].
      * exists [], rest. exact H.
      * exists (c :: pre), post. reflexivity.
    + intros (pre & post & H). destruct pre as [|c' pre]; simpl in H.
      * left. exists post. exact H.
      * right. injection H as _ ->. exists pre, post. reflexivity.
Qed.

Lemma contains_false (needle hay : str) :
  contains needle hay = false <-> ~ occurs needle hay.
Proof.
  rewrite <- contains_spec. destruct (contains needle hay); split; congruence.
Qed.

Lemma occurs_app (needle pre hay post : str) :
  occurs needle hay -> occurs needle (pre ++ hay ++ post).
Proof.
  intros (a & b & ->). exists (pre ++ a), (b ++ post).
  rewrite <- !app_assoc. reflexivity.
Qed.

(* ------------------------------------------------------------------ *)
(** ** The character tables *)

Section Tables.
Local Open Scope N_scope.

Lemma in_ranges_spec (ranges : list (N * N)) (c : N) :
  Unicode.in_ranges ranges c = true <->
  exists lo hi, In (lo, hi) ranges /\ lo <= c /\ c <= hi.
Proof.
  unfold Unicode.in_ranges. rewrite existsb_exists. split.
  - intros ([lo hi] & Hin & H). apply andb_true_iff in H.
    destruct H as (H1 & H2). apply N.leb_le in H1, H2.
    exists lo, hi. auto.
  - intros (lo & hi & Hin & H1 & H2). exists (lo, hi). split; [exact Hin|].
    simpl. apply andb_true_iff. split; apply N.leb_le; assumption.
Qed.

Lemma existsb_eqb (x : N) (l : list N) :
  existsb (N.eqb x) l = true <-> In x l.
Proof.
  rewrite existsb_exists. split.
  - intros (y & Hin & H). apply N.eqb_eq in H. subst y. exact Hin.
  - intros H. exists x. split; [exact H | apply N.eqb_refl].
Qed.

Lemma assoc_in (A : Type) (k : N) (table : list (N * A)) (v : A) :
  Unicode.assoc k table = Some v -> In (k, v) table.
Proof.
  induction table as [|[a b] table IH]; simpl; [discriminate|].
  destruct (a =? k) eqn:E.
  - apply N.eqb_eq in E. intros [= ->]. left. congruence.
  - intros H. right. exact (IH H).
Qed.

(** A character is its own lower-case form or has one in the table. *)
Lemma tolower_cases (c : N) :
  Unicode.tolower c = c \/ In (c, Unicode.tolower c) Unicode.LOWER.
Proof.
  unfold Unicode.tolower.
  destruct (Unicode.assoc c Unicode.LOWER) as [l|] eqn:E; [right|left; reflexivity].
  apply assoc_in. exact E.
Qed.

Lemma lowered_to_spec (forms : list N) (x : N) :
  existsb (N.eqb (Unicode.tolower x)) forms = true <->
  In x (Unicode.lowered_to forms).
Proof.
  unfold Unicode.lowered_to. rewrite filter_In. split; [|tauto].
  intros H. split; [|exact H].
  apply in_or_app. destruct (tolower_cases x) as [E|Hin].
  - left. rewrite E in H. apply existsb_eqb. exact H.
  - right. apply in_map_iff. exists (x, Unicode.tolower x).
    split; [reflexivity|]. apply filter_In. split; [exact Hin | exact H].
Qed.

Lemma included_spec (l1 l2 : list N) :
  Unicode.included l1 l2 = true -> forall x, In x l1 -> In x l2.
Proof.
  unfold Unicode.included. rewrite forallb_forall.
  intros H x Hx. apply existsb_eqb. exact (H x Hx).
Qed.

(** The characters from [lo] on, [n] of them. *)
Lemma in_range_list (lo n : nat) (x : N) :
  N.of_nat lo <= x -> x < N.of_nat (lo + n) ->
  In x (map N.of_nat (seq lo n)).
Proof.
  intros H1 H2. apply in_map_iff. exists (N.to_nat x).
  split; [apply N2Nat.id|]. apply in_seq. lia.
Qed.

(** A property of the characters of a range that a computation
    settles. *)
Lemma on_range (f : N -> bool) (lo n : nat) :
  forallb f (map N.of_nat (seq lo n)) = true ->
  forall x, N.of_nat lo <= x -> x < N.of_nat (lo + n) -> f x = true.
Proof.
  intros H x H1 H2. rewrite forallb_forall in H.
  apply H. apply in_range_list; assumption.
Qed.

(** A space is no capital and no lower-case form of one. *)
Lemma isspace_tolower (x : N) :
  Unicode.isspace (Unicode.tolower x) = Unicode.isspace x.
Proof.
  destruct (tolower_cases x) as [->|Hin]; [reflexivity|].
  assert (H : forallb (fun p => negb (Unicode.isspace (fst p))
                                && negb (Unicode.isspace (snd p)))
                      Unicode.LOWER = true) by (vm_compute; reflexivity).
  rewrite forallb_forall in H. specialize (H _ Hin). simpl in H.
  apply andb_true_iff in H. destruct H as (H1 & H2).
  apply negb_true_iff in H1, H2. congruence.
Qed.

Lemma todecimal_spec (c d : N) :
  Unicode.todecimal c = Some d ->
  exists zero, In zero Unicode.DECIMAL_ZEROS /\ zero <= c /\ c < zero + 10
               /\ d = c - zero.
Proof.
  unfold Unicode.todecimal.
  destruct (find _ Unicode.DECIMAL_ZEROS) as [zero|] eqn:E; [|discriminate].
  apply find_some in E. destruct E as (Hin & H).
  apply andb_true_iff in H. destruct H as (H1 & H2).
  apply N.leb_le in H1. apply N.ltb_lt in H2.
  simpl. intros [= <-]. exists zero. auto.
Qed.

Lemma isdecimal_spec (c : N) :
  Unicode.isdecimal c = true ->
  exists d, Unicode.todecimal c = Some d /\ d < 10.
Proof.
  unfold Unicode.isdecimal.
  destruct (Unicode.todecimal c) as [d|] eqn:E; [|discriminate].
  intros _. exists d. split; [reflexivity|].
  apply todecimal_spec in E. destruct E as (zero & _ & H1 & H2 & ->). lia.
Qed.

(** A decimal digit is alphanumeric. *)
Lemma isdecimal_isalnum (c : N) :
  Unicode.isdecimal c = true -> Unicode.isalnum c = true.
Proof.
  intros H. apply isdecimal_spec in H. destruct H as (d & H & _).
  apply todecimal_spec in H. destruct H as (zero & Hin & H1 & H2 & _).
  assert (Hall : forallb
                   (fun z => existsb (fun r => (fst r <=? z) && (z + 9 <=? snd r))
                                     Unicode.ALNUM)
                   Unicode.DECIMAL_ZEROS = true) by (vm_compute; reflexivity).
  rewrite forallb_forall in Hall. specialize (Hall _ Hin).
  apply existsb_exists in Hall. destruct Hall as ([lo hi] & Hr & Hb).
  simpl in Hb. apply andb_true_iff in Hb. destruct Hb as (Hb1 & Hb2).
  apply N.leb_le in Hb1, Hb2.
  apply in_ranges_spec. exists lo, hi. split; [exact Hr|]. lia.
Qed.

(** The digits 0 to 9 are decimal digits with their own value. *)
Lemma todecimal_09 (c : N) :
  48 <= c -> c <= 57 -> Unicode.todecimal c = Some (c - 48).
Proof.
  intros H1 H2. unfold Unicode.todecimal.
  change Unicode.DECIMAL_ZEROS with (48 :: tl Unicode.DECIMAL_ZEROS).
  cbn [find].
  replace ((48 <=? c) && (c <? 48 + 10)) with true; [reflexivity|].
  symmetry. apply andb_true_iff. split; [apply N.leb_le | apply N.ltb_lt]; lia.
Qed.

(** Below 127 the decimal digits are 0 to 9. *)
Lemma isdecimal_ascii (c : N) :
  c < 127 -> Unicode.isdecimal c = true -> 48 <= c /\ c <= 57.
Proof.
  intros Hc H. apply isdecimal_spec in H. destruct H as (d & H & _).
  apply todecimal_spec in H. destruct H as (zero & Hin & H1 & H2 & _).
  assert (Hall : forallb (fun z => (z =? 48) || (127 <=? z))
                         Unicode.DECIMAL_ZEROS = true)
    by (vm_compute; reflexivity).
  rewrite forallb_forall in Hall. specialize (Hall _ Hin).
  apply orb_true_iff in Hall. destruct Hall as [E|E].
  - apply N.eqb_eq in E. lia.
  - apply N.leb_le in E. lia.
Qed.

Lemma upper_isalnum (c : N) : 65 <= c -> c <= 90 -> Unicode.isalnum c = true.
Proof.
  intros H1 H2. apply in_ranges_spec. exists 65, 90.
  split; [right; left; reflexivity | auto].
Qed.

Lemma digit_09_isalnum (c : N) : 48 <= c -> c <= 57 -> Unicode.isalnum c = true.
Proof.
  intros H1 H2. apply in_ranges_spec. exists 48, 57.
  split; [left; reflexivity | auto].
Qed.

End Tables.

(* ------------------------------------------------------------------ *)
(** ** Character classes and literals of the patterns *)

Lemma match_digit (ic : bool) (x : N) :
  atom_match ic digit x = Unicode.isdecimal x.
Proof.
  unfold atom_match, digit. cbn [existsb item_cased item_match].
  rewrite andb_false_r, orb_false_r. reflexivity.
Qed.

Lemma match_space (ic : bool) (x : N) :
  atom_match ic space x = Unicode.isspace x.
Proof.
  unfold atom_match, space. cbn [existsb item_cased item_match].
  rewrite andb_false_r, orb_false_r. reflexivity.
Qed.

Lemma match_digit_or_comma (ic : bool) (x : N) :
  atom_match ic Patterns.digit_or_comma x
  = Unicode.isdecimal x || (x =? Unicode.code ",")%N.
Proof.
  unfold atom_match, Patterns.digit_or_comma.
  change (existsb item_cased [IDigit; ILit ","%char]) with false.
  rewrite andb_false_r. cbn [existsb item_match].
  rewrite orb_false_r. reflexivity.
Qed.

Lemma match_upper (x : N) :
  atom_match false Patterns.upper x = true <-> is_upper x.
Proof.
  unfold atom_match, Patterns.upper, is_upper. cbn [andb existsb item_match].
  rewrite orb_false_r, andb_true_iff, !N.leb_le. reflexivity.
Qed.

Lemma match_upper_or_digit (x : N) :
  atom_match false Patterns.upper_or_digit x = true <-> is_upper_or_digit x.
Proof.
  unfold atom_match, Patterns.upper_or_digit, is_upper_or_digit, is_upper,
    is_digit_09.
  cbn [andb existsb item_match].
  rewrite orb_false_r, orb_true_iff, !andb_true_iff, !N.leb_le. reflexivity.
Qed.

(** The dot matches everything but the line feed. *)
Lemma match_any (ic : bool) (x : N) :
  atom_match ic AnyChar x = true <-> x <> 10%N.
Proof.
  unfold atom_match. rewrite negb_true_iff. apply N.eqb_neq.
Qed.

(** A character of a pattern that is below 128. *)
Lemma ascii_below_128 (c : ascii) :
  (Unicode.code c <? 128)%N = true ->
  In (nat_of_ascii c) (seq 0 128).
Proof.
  intros H. apply N.ltb_lt in H. apply in_seq.
  unfold Unicode.code in H.
  assert (N.of_nat (nat_of_ascii c) = N_of_ascii c).
  { unfold nat_of_ascii. apply N2Nat.id. }
  lia.
Qed.

(** When case is ignored, a character below 128 of a pattern matches
    its two cases and its Unicode forms, and nothing else. *)
Lemma match_chr_ci (c : ascii) (x : N) :
  (Unicode.code c <? 128)%N = true ->
  (atom_match true (Chr c) x = true <-> ignoring_case c x).
Proof.
  intros Hc.
  assert (Hall :
            forallb
              (fun n =>
                 let c := ascii_of_nat n in
                 let l := if iscased c
                          then Unicode.lowered_to (folded c)
                          else [Unicode.code c] in
                 let f := capital c :: small c :: unicode_forms c in
                 Unicode.included l f && Unicode.included f l)
              (seq 0 128) = true) by (vm_compute; reflexivity).
  rewrite forallb_forall in Hall.
  specialize (Hall _ (ascii_below_128 c Hc)). cbv zeta in Hall.
  rewrite ascii_nat_embedding in Hall.
  apply andb_true_iff in Hall. destruct Hall as (H1 & H2).
  assert (Hforms : ignoring_case c x
                   <-> In x (capital c :: small c :: unicode_forms c)).
  { unfold ignoring_case, either_case. simpl. intuition. }
  rewrite Hforms. unfold atom_match. cbn [andb].
  destruct (iscased c).
  - rewrite lowered_to_spec. split; apply included_spec; assumption.
  - rewrite N.eqb_eq. split.
    + intros ->. apply (included_spec _ _ H1). left. reflexivity.
    + intros H. apply (included_spec _ _ H2) in H.
      destruct H as [<-|[]]. reflexivity.
Qed.

(** When case counts, a literal matches itself. *)
Lemma match_chr_cs (c : ascii) (x : N) :
  atom_match false (Chr c) x = true <-> x = Unicode.code c.
Proof. unfold atom_match. cbn [andb]. apply N.eqb_eq. Qed.

Lemma match_point (ic : bool) (x : N) :
  atom_match ic (Chr ".") x = true -> x = Unicode.code ".".
Proof.
  unfold atom_match. change (iscased ".") with false.
  rewrite andb_false_r. apply N.eqb_eq.
Qed.

(** The members of the set of capital letters and spaces when case is
    ignored. *)
Lemma match_upper_or_space (x : N) :
  atom_match true Patterns.upper_or_space x = true <->
  Shapes.is_letter x \/ is_space x.
Proof.
  unfold atom_match, Patterns.upper_or_space.
  replace (existsb item_cased [IRange "A" "Z"; ISpace]) with true
    by (vm_compute; reflexivity).
  cbn [andb existsb item_class flat_map item_folded]. cbv zeta.
  rewrite app_nil_r, !orb_false_l, orb_false_r, orb_true_iff.
  rewrite isspace_tolower, lowered_to_spec.
  set (members := Unicode.lowered_to (flat_map folded (codes "A" "Z"))).
  assert (Hm : In x members <-> Shapes.is_letter x).
  { assert (E : members
                = ([97; 98; 99; 100; 101; 102; 103; 104; 105; 305; 106; 107;
                    108; 109; 110; 111; 112; 113; 114; 115; 383; 116; 117;
                    118; 119; 120; 121; 122; 65; 66; 67; 68; 69; 70; 71; 72;
                    73; 74; 75; 76; 77; 78; 79; 80; 81; 82; 83; 84; 85; 86;
                    87; 88; 89; 90; 304; 8490]%N))
      by (vm_compute; reflexivity).
    unfold Shapes.is_letter. split.
    - rewrite E. intros H.
      repeat (destruct H as [<-|H];
              [first [ left; lia | right; left; lia
                     | right; right; simpl; tauto ]|]).
      destruct H.
    - intros [(H1 & H2) | [(H1 & H2) | H]].
      + apply (on_range (fun v => existsb (N.eqb v) members) 65 26
                        ltac:(vm_compute; reflexivity)) in H1; [|lia].
        apply existsb_eqb. exact H1.
      + apply (on_range (fun v => existsb (N.eqb v) members) 97 26
                        ltac:(vm_compute; reflexivity)) in H1; [|lia].
        apply existsb_eqb. exact H1.
      + rewrite E. simpl in H. simpl. intuition. }
  rewrite Hm. unfold is_space. reflexivity.
Qed.

(* ------------------------------------------------------------------ *)
(** ** Literal text in a pattern *)

Lemma same_text_cons (ic : bool) (x : N) (c : ascii) (found : str)
      (s : list ascii) :
  same_text ic (x :: found) (c :: s) <->
  atom_match ic (Chr c) x = true /\ same_text ic found s.
Proof.
  unfold same_text. split.
  - intros H. inversion H; subst. auto.
  - intros (H1 & H2). constructor; assumption.
Qed.

Lemma same_text_nil (ic : bool) (found : str) :
  same_text ic found [] <-> found = [].
Proof.
  unfold same_text. split.
  - intros H. inversion H. reflexivity.
  - intros ->. constructor.
Qed.

Lemma same_text_nil_l (ic : bool) (c : ascii) (s : list ascii) :
  ~ same_text ic [] (c :: s).
Proof. unfold same_text. intros H. inversion H. Qed.

Lemma same_text_length (ic : bool) (found : str) (s : list ascii) :
  same_text ic found s -> List.length found = List.length s.
Proof. unfold same_text. induction 1; simpl; congruence. Qed.

Lemma same_text_app (ic : bool) (found : str) (s1 s2 : list ascii) :
  same_text ic found (s1 ++ s2) ->
  exists f1 f2, found = f1 ++ f2 /\ same_text ic f1 s1 /\ same_text ic f2 s2.
Proof.
  unfold same_text. intros H. apply Forall2_app_inv_r in H.
  destruct H as (f1 & f2 & H1 & H2 & ->). exists f1, f2. auto.
Qed.

(** What a literal text of characters below 128 matches when case is
    ignored spells the text. *)
Lemma same_text_spells (word : string) (found : str) :
  forallb (fun c => (Unicode.code c <? 128)%N) (Patterns.text word) = true ->
  (same_text true found (Patterns.text word) <->
   spells ignoring_case word found).
Proof.
  unfold same_text, spells, Patterns.text.
  generalize (list_ascii_of_string word). intros s. revert found.
  induction s as [|c s IH]; intros found Hs.
  - split; intros H; inversion H; constructor.
  - simpl in Hs. apply andb_true_iff in Hs. destruct Hs as (Hc & Hs).
    split; intros H; inversion H; subst; constructor;
      try (apply (match_chr_ci c _ Hc); assumption);
      apply (IH _ Hs); assumption.
Qed.

(** A letter without Unicode forms is matched in its two cases only. *)
Lemma spells_either_case (word : string) (found : str) :
  Forall (fun c => unicode_forms c = []) (list_ascii_of_string word) ->
  spells ignoring_case word found -> spells either_case word found.
Proof.
  unfold spells. generalize (list_ascii_of_string word). intros s.
  revert found. induction s as [|c s IH]; intros found Hs H.
  - inversion H. constructor.
  - inversion Hs as [|? ? Hc Hs']; subst. inversion H as [|? ? ? ? Hx Hrest]; subst.
    constructor; [|apply IH; assumption].
    destruct Hx as [Hx|Hx]; [exact Hx|]. rewrite Hc in Hx. destruct Hx.
Qed.

Lemma either_case_ignoring (word : string) (found : str) :
  spells either_case word found -> spells ignoring_case word found.
Proof.
  unfold spells. apply Forall2_impl. intros c x H. left. exact H.
Qed.

Lemma spells_length (same : ascii -> N -> Prop) (word : string) (found : str) :
  spells same word found -> List.length found = String.length word.
Proof.
  unfold spells. intros H. apply Forall2_length in H. rewrite <- H.
  clear H. induction word; simpl; congruence.
Qed.

Lemma spells_app (same : ascii -> N -> Prop) (w1 w2 : string) (found : str) :
  spells same (w1 ++ w2) found ->
  exists f1 f2, found = f1 ++ f2 /\ spells same w1 f1 /\ spells same w2 f2.
Proof.
  unfold spells.
  assert (E : list_ascii_of_string (w1 ++ w2)
              = list_ascii_of_string w1 ++ list_ascii_of_string w2).
  { induction w1; simpl; congruence. }
  rewrite E. intros H. apply Forall2_app_inv_l in H.
  destruct H as (f1 & f2 & H1 & H2 & ->). exists f1, f2. auto.
Qed.

Lemma sem_lit_then (ic : bool) (s : list ascii) (r : regex) :
  forall bef t aft g,
    sem ic (Patterns.lit_then s r) bef t aft g <->
    exists found t2,
      t = found ++ t2 /\ same_text ic found s /\
      sem ic r (rev found ++ bef) t2 aft g.
Proof.
  induction s as [|c s IH]; intros bef t aft g; simpl.
  - split.
    + intros H. exists [], t. repeat split; auto. apply same_text_nil. reflexivity.
    + intros (found & t2 & -> & Hf & H).
      apply same_text_nil in Hf. subst found. exact H.
  - split.
    + intros (t1 & t2 & g1 & g2 & -> & -> & (x & -> & Hx & ->) & H2).
      apply IH in H2. destruct H2 as (found & t3 & -> & Hf & H3).
      exists (x :: found), t3. rewrite app_nil_r. repeat split.
      * apply same_text_cons. auto.
      * simpl. rewrite <- app_assoc. exact H3.
    + intros (found & t2 & -> & Hf & H).
      destruct found as [|x found].
      { exfalso. exact (same_text_nil_l _ _ _ Hf). }
      apply same_text_cons in Hf. destruct Hf as (Hx & Hf).
      exists [x], (found ++ t2), [], g. rewrite app_nil_r. repeat split.
      * exists x. auto.
      * apply IH. exists found, t2. repeat split; auto.
        simpl in H. rewrite <- app_assoc in H. exact H.
Qed.

Lemma sem_lit (ic : bool) (s : list ascii) :
  forall bef t aft g,
    sem ic (Patterns.lit s) bef t aft g <-> same_text ic t s /\ g = [].
Proof.
  induction s as [|c s IH]; intros bef t aft g.
  - simpl. rewrite same_text_nil. tauto.
  - destruct s as [|c' s].
    + simpl. split.
      * intros (x & -> & Hx & ->). split; auto.
        apply same_text_cons. split; auto. apply same_text_nil. reflexivity.
      * intros (Hf & ->).
        destruct t as [|x t]; [exfalso; exact (same_text_nil_l _ _ _ Hf)|].
        apply same_text_cons in Hf. destruct Hf as (Hx & Hf).
        apply same_text_nil in Hf. subst t. exists x. auto.
    + change (sem ic (Patterns.lit (c :: c' :: s)) bef t aft g)
        with (sem ic (Seq (One (Chr c)) (Patterns.lit (c' :: s))) bef t aft g).
      cbn [sem]. split.
      * intros (t1 & t2 & g1 & g2 & -> & -> & (x & -> & Hx & ->) & H2).
        apply IH in H2. destruct H2 as (Hf & ->). split; auto.
        apply same_text_cons. auto.
      * intros (Hf & ->).
        destruct t as [|x t]; [exfalso; exact (same_text_nil_l _ _ _ Hf)|].
        apply same_text_cons in Hf. destruct Hf as (Hx & Hf).
        exists [x], t, [], []. repeat split.
        -- exists x. auto.
        -- apply IH. auto.
Qed.

(* ------------------------------------------------------------------ *)
(** ** What [re.search] answers *)

Lemma prefix_shorter (A : Type) (p q r1 r2 : list A) :
  p ++ r1 = q ++ r2 -> List.length q < List.length p ->
  exists c s2, p = q ++ c :: s2.
Proof.
  intros H Hlen. apply app_eq_app in H.
  destruct H as (l & [(-> & _) | (-> & _)]).
  - destruct l as [|c l]; [rewrite app_nil_r in Hlen; lia|]. eauto.
  - rewrite length_app in Hlen. lia.
Qed.

Lemma search_compiled_some (ic : bool) (r : regex) (s : str) (m : Match) :
  search_compiled ic r s = Some m ->
  exists pre t post g,
    s = pre ++ t ++ post /\
    m_start m = List.length pre /\
    sem ic r (rev pre) t post g /\
    groups (m_final m) = g /\
    forall pre' t' post' g',
      s = pre' ++ t' ++ post' -> sem ic r (rev pre') t' post' g' ->
      List.length pre <= List.length pre'.
Proof.
  unfold search_compiled. intros H. apply search_from_some in H.
  destruct H as (skipped & rest & more & -> & Hstart & Hrun & Hnone).
  assert (Hin : In (m_final m)
                   (run ic r {| before := rev skipped ++ []; after := rest;
                                groups := [] |})).
  { rewrite Hrun. left. reflexivity. }
  apply run_sem in Hin. simpl in Hin.
  destruct Hin as (t & g & -> & Hb & Hg & Hsem).
  rewrite app_nil_r in Hsem, Hg.
  exists skipped, t, (after (m_final m)), g. repeat split; auto.
  intros pre' t' post' g' Heq Hsem'.
  destruct (Nat.le_gt_cases (List.length skipped) (List.length pre')) as [|Hlt];
    [assumption|exfalso].
  destruct (prefix_shorter _ _ _ _ _ Heq Hlt) as (c & s2 & ->).
  specialize (Hnone pre' c s2 eq_refl).
  rewrite <- app_assoc in Heq. apply app_inv_head in Heq.
  assert (Hin : In {| before := rev t' ++ rev pre' ++ []; after := post';
                      groups := g' ++ [] |}
                   (run ic r {| before := rev pre' ++ [];
                                after := c :: s2 ++ t ++ after (m_final m);
                                groups := [] |})).
  { apply run_sem. exists t', g'. simpl. repeat split.
    - simpl in Heq. rewrite Heq. reflexivity.
    - rewrite app_nil_r. exact Hsem'. }
  rewrite Hnone in Hin. exact Hin.
Qed.

Lemma search_compiled_none (ic : bool) (r : regex) (s : str) :
  search_compiled ic r s = None <->
  forall pre t post g, s = pre ++ t ++ post -> ~ sem ic r (rev pre) t post g.
Proof.
  unfold search_compiled. rewrite search_from_none. split.
  - intros H pre t post g -> Hsem.
    specialize (H pre (t ++ post) eq_refl).
    assert (Hin : In {| before := rev t ++ rev pre ++ []; after := post;
                        groups := g ++ [] |}
                     (run ic r {| before := rev pre ++ []; after := t ++ post;
                                  groups := [] |})).
    { apply run_sem. exists t, g. simpl. repeat split.
      rewrite app_nil_r. exact Hsem. }
    rewrite H in Hin. exact Hin.
  - intros H skipped rest ->.
    destruct (run ic r _) as [|st more] eqn:Hrun; [reflexivity|exfalso].
    assert (Hin : In st (run ic r {| before := rev skipped ++ []; after := rest;
                                     groups := [] |})).
    { rewrite Hrun. left. reflexivity. }
    apply run_sem in Hin. simpl in Hin.
    destruct Hin as (t & g & -> & _ & _ & Hsem).
    rewrite app_nil_r in Hsem.
    exact (H skipped t (after st) g eq_refl Hsem).
Qed.

(* ------------------------------------------------------------------ *)
(** ** What the patterns of the parser match *)

Lemma sem_rep_groups (ic greedy : bool) (lo : nat) (hi : option nat) (a : atom)
      (bef t aft : str) (g : list (nat * str)) :
  sem ic (Rep greedy lo hi a) bef t aft g ->
  g = [] /\ lo <= List.length t /\ Forall (fun c => atom_match ic a c = true) t.
Proof. simpl. tauto. Qed.

Lemma Forall_spaces (ic : bool) (t : str) :
  Forall (fun c => atom_match ic space c = true) t -> Forall is_space t.
Proof.
  apply Forall_impl. intros c. rewrite match_space. auto.
Qed.

Lemma Forall_digits (ic : bool) (t : str) :
  Forall (fun c => atom_match ic digit c = true) t -> Forall is_digit t.
Proof.
  apply Forall_impl. intros c. rewrite match_digit. auto.
Qed.

Lemma Forall_one_line (ic : bool) (t : str) :
  Forall (fun c => atom_match ic AnyChar c = true) t -> one_line t.
Proof.
  intros H Hin. rewrite Forall_forall in H. specialize (H _ Hin).
  apply match_any in H. apply H. reflexivity.
Qed.

Lemma sem_number (ic : bool) (bef t aft : str) (g : list (nat * str)) :
  sem ic Patterns.number bef t aft g -> g = [(1, t)] /\ number_text t.
Proof.
  unfold Patterns.number, Patterns.plus, Patterns.star. cbn [sem].
  intros (g1 & (t1 & t2 & g1' & g2' & -> & -> & (Hlo & _ & Ha & ->)
                & (t3 & t4 & g3 & g4 & -> & -> & Hopt & (_ & _ & Hc & ->)))
          & ->).
  assert (Hb : g3 = [] /\ (t3 = [] \/ t3 = [Unicode.code "."])).
  { destruct Hopt as [(c & -> & Hp & ->) | (-> & ->)]; split; auto.
    right. apply match_point in Hp. subst c. reflexivity. }
  destruct Hb as (-> & Hb). split; [reflexivity|].
  exists t1, t3, t4. repeat split; auto.
  - intros ->. simpl in Hlo. lia.
  - revert Ha. apply Forall_impl. intros c. rewrite match_digit_or_comma.
    rewrite orb_true_iff, N.eqb_eq. auto.
  - apply (Forall_digits _ _ Hc).
Qed.

(** The literals of the patterns are made of characters below 128. *)
Ltac below_128 := vm_compute; reflexivity.

Lemma sem_currency (symbol : string) (bef t aft : str) (g : list (nat * str)) :
  forallb (fun c => (Unicode.code c <? 128)%N) (Patterns.text symbol) = true ->
  sem true (Patterns.currency symbol) bef t aft g ->
  exists num, g = [(1, num)] /\ money symbol t num.
Proof.
  intros Hsym. unfold Patterns.currency. intros H. apply sem_lit_then in H.
  destruct H as (k & t2 & -> & Hk & H).
  cbn [sem] in H.
  destruct H as (ws & num & g1 & g2 & -> & -> & Hws & Hnum).
  apply sem_rep_groups in Hws. destruct Hws as (-> & _ & Hws).
  apply sem_number in Hnum. destruct Hnum as (-> & Hnum).
  exists num. split; [reflexivity|].
  exists k, ws. repeat split; auto.
  - apply (same_text_spells symbol k Hsym). exact Hk.
  - apply (Forall_spaces _ _ Hws).
Qed.

Lemma sem_amount_1 (bef t aft : str) (g : list (nat * str)) :
  sem true Patterns.amount_1 bef t aft g -> ends_with_money "Ksh" t g.
Proof.
  intros H. apply sem_currency in H; [|below_128].
  destruct H as (num & -> & H).
  exists [], t, num. auto.
Qed.

Lemma sem_amount_2 (bef t aft : str) (g : list (nat * str)) :
  sem true Patterns.amount_2 bef t aft g -> ends_with_money "KES" t g.
Proof.
  intros H. apply sem_currency in H; [|below_128].
  destruct H as (num & -> & H).
  exists [], t, num. auto.
Qed.

Lemma sem_amount_3 (bef t aft : str) (g : list (nat * str)) :
  sem true Patterns.amount_3 bef t aft g -> ends_with_money "Ksh" t g.
Proof.
  unfold Patterns.amount_3. intros H. apply sem_lit_then in H.
  destruct H as (w & t2 & -> & _ & H). cbn [sem] in H.
  destruct H as (ws & t3 & g1 & g2 & -> & -> & Hws
                 & (o & cur & g3 & g4 & -> & -> & Hopt & Hcur)).
  apply sem_rep_groups in Hws. destruct Hws as (-> & _).
  apply sem_currency in Hcur; [|below_128].
  destruct Hcur as (num & -> & Hcur).
  assert (g3 = []) as ->.
  { destruct Hopt as [Hof | (_ & ->)]; [|reflexivity].
    apply sem_lit_then in Hof. destruct Hof as (? & ? & _ & _ & Hof).
    apply sem_rep_groups in Hof. tauto. }
  exists (w ++ ws ++ o), cur, num. repeat split; auto. assoc.
Qed.

(** What the literal "balance" of a pattern matches is the word in
    small or capital letters: none of its letters has a Unicode
    form. *)
Lemma same_text_balance (bal : str) :
  same_text true bal (Patterns.text "balance") ->
  spells either_case "balance" bal.
Proof.
  intros H. apply (same_text_spells "balance") in H; [|below_128].
  apply spells_either_case; [|exact H].
  repeat (apply Forall_cons; [reflexivity|]). apply Forall_nil.
Qed.

Lemma sem_balance_1 (bef t aft : str) (g : list (nat * str)) :
  sem true Patterns.balance_1 bef t aft g -> balance_then_money t g.
Proof.
  unfold Patterns.balance_1.
  change (Patterns.text "balance ")
    with (Patterns.text "balance" ++ Patterns.text " ").
  intros H. apply sem_lit_then in H.
  destruct H as (w & t2 & -> & Hw & H). cbn [sem] in H.
  destruct H as (v & t3 & g1 & g2 & -> & -> & Hv
                 & (ws & cur & g3 & g4 & -> & -> & Hws & Hcur)).
  apply sem_rep_groups in Hws. destruct Hws as (-> & Hlen & Hws).
  apply sem_currency in Hcur; [|below_128].
  destruct Hcur as (num & -> & Hcur).
  assert (Hv' : g1 = [] /\ (spells ignoring_case "is" v
                            \/ spells ignoring_case "was" v)).
  { destruct Hv as [Hv|Hv]; apply sem_lit in Hv; destruct Hv as (Hv & ->);
      (split; [reflexivity|]); [left|right].
    - apply (same_text_spells "is"); [below_128 | exact Hv].
    - apply (same_text_spells "was"); [below_128 | exact Hv]. }
  destruct Hv' as (-> & Hv').
  apply same_text_app in Hw. destruct Hw as (bal & sp & -> & Hbal & Hsp).
  destruct sp as [|x sp]; [exfalso; exact (same_text_nil_l _ _ _ Hsp)|].
  apply same_text_cons in Hsp. destruct Hsp as (Hx & Hsp).
  apply same_text_nil in Hsp. subst sp.
  assert (x = Unicode.code " ") as ->.
  { unfold atom_match in Hx. change (iscased " ") with false in Hx.
    apply N.eqb_eq in Hx. exact Hx. }
  exists [], bal, (Unicode.code " " :: v ++ ws), cur, num.
  split; [assoc|]. split; [apply same_text_balance; exact Hbal|].
  split; [|split; [exact Hcur | reflexivity]].
  left. exists v, ws. split; [reflexivity|]. split; [exact Hv'|].
  split; [|apply (Forall_spaces _ _ Hws)].
  intros ->. simpl in Hlen. lia.
Qed.

Lemma sem_balance_3 (bef t aft : str) (g : list (nat * str)) :
  sem true Patterns.balance_3 bef t aft g -> balance_then_money t g.
Proof.
  unfold Patterns.balance_3. intros H. apply sem_lit_then in H.
  destruct H as (bal & t2 & -> & Hbal & H). cbn [sem] in H.
  destruct H as (mid & cur & g1 & g2 & -> & -> & Hmid & Hcur).
  apply sem_rep_groups in Hmid. destruct Hmid as (-> & _ & Hmid).
  apply sem_currency in Hcur; [|below_128].
  destruct Hcur as (num & -> & Hcur).
  exists [], bal, mid, cur, num.
  split; [reflexivity|]. split; [apply same_text_balance; exact Hbal|].
  split; [right; apply (Forall_one_line _ _ Hmid)|]. auto.
Qed.

Lemma sem_balance_2 (bef t aft : str) (g : list (nat * str)) :
  sem true Patterns.balance_2 bef t aft g -> balance_then_money t g.
Proof.
  unfold Patterns.balance_2. intros H. apply sem_lit_then in H.
  destruct H as (w & t2 & -> & _ & H). cbn [sem] in H.
  destruct H as (skip & t3 & g1 & g2 & -> & -> & Hskip & H).
  apply sem_rep_groups in Hskip. destruct Hskip as (-> & _).
  apply sem_balance_3 in H.
  destruct H as (pre & bal & mid & cur & num & -> & Hbal & Hmid & Hcur & ->).
  exists (w ++ skip ++ pre), bal, mid, cur, num.
  split; [assoc|]. auto.
Qed.

Lemma balance_then_money_ends (t : str) (g : list (nat * str)) :
  balance_then_money t g -> ends_with_money "Ksh" t g.
Proof.
  intros (pre & bal & mid & cur & num & -> & _ & _ & Hcur & ->).
  exists (pre ++ bal ++ mid), cur, num. repeat split; auto. assoc.
Qed.

Lemma ends_with_money_number (symbol : string) (t : str) (g : list (nat * str)) :
  ends_with_money symbol t g ->
  exists num,
    g = [(1, num)] /\ number_text num /\ List.length num <= List.length t.
Proof.
  intros (pre & cur & num & -> & (k & ws & -> & _ & _ & Hnum) & ->).
  exists num. repeat split; auto. rewrite !length_app. lia.
Qed.

Lemma captures_number_amount :
  Forall captures_number [Patterns.amount_1; Patterns.amount_2; Patterns.amount_3].
Proof.
  repeat constructor; intros bef t aft g H.
  - apply sem_amount_1 in H. eapply ends_with_money_number; eauto.
  - apply sem_amount_2 in H. eapply ends_with_money_number; eauto.
  - apply sem_amount_3 in H. eapply ends_with_money_number; eauto.
Qed.

Lemma captures_number_balance :
  Forall captures_number [Patterns.balance_1; Patterns.balance_2; Patterns.balance_3].
Proof.
  repeat constructor; intros bef t aft g H.
  - apply sem_balance_1 in H. apply balance_then_money_ends in H.
    eapply ends_with_money_number; eauto.
  - apply sem_balance_2 in H. apply balance_then_money_ends in H.
    eapply ends_with_money_number; eauto.
  - apply sem_balance_3 in H. apply balance_then_money_ends in H.
    eapply ends_with_money_number; eauto.
Qed.

(* ------------------------------------------------------------------ *)
(** ** Rounding to binary64 keeps the sign and makes no NaN *)

Section Rounding.
Local Open Scope Z_scope.
Variables prec emax : Z.

Lemma shr_1_nonneg (mrs : shr_record) :
  0 <= shr_m mrs -> 0 <= shr_m (shr_1 mrs).
Proof.
  destruct mrs as [m r s]. simpl.
  destruct m as [|[p|p|]|[p|p|]]; simpl; lia.
Qed.

Lemma iter_pos_invariant (A : Type) (P : A -> Prop) (f : A -> A) :
  (forall x, P x -> P (f x)) ->
  forall p x, P x -> P (iter_pos f p x).
Proof.
  intros Hf. induction p as [p IH|p IH|]; intros x Hx; simpl; auto.
Qed.

Lemma shr_nonneg (mrs : shr_record) (e n : Z) :
  0 <= shr_m mrs -> 0 <= shr_m (fst (shr mrs e n)).
Proof.
  intros H. unfold shr. destruct n; simpl; auto.
  apply (iter_pos_invariant _ (fun x => 0 <= shr_m x)); auto.
  apply shr_1_nonneg.
Qed.

Lemma shr_fexp_nonneg (m e : Z) (l : location) :
  0 <= m -> 0 <= shr_m (fst (shr_fexp prec emax m e l)).
Proof.
  intros H. unfold shr_fexp. apply shr_nonneg.
  destruct l as [|[]]; simpl; exact H.
Qed.

Lemma round_nearest_even_nonneg (m : Z) (l : location) :
  0 <= m -> 0 <= round_nearest_even m l.
Proof.
  intros H. destruct l as [|[]]; simpl; try lia.
  destruct (Z.even m); lia.
Qed.

Lemma binary_round_aux_sign (s : bool) (mx ex : Z) (lx : location) :
  0 <= mx ->
  PyFloat.is_nan (binary_round_aux prec emax s mx ex lx) = false /\
  PyFloat.signbit (binary_round_aux prec emax s mx ex lx) = s.
Proof.
  intros H. unfold binary_round_aux.
  pose proof (shr_fexp_nonneg mx ex lx H) as H1.
  destruct (shr_fexp prec emax mx ex lx) as [mrs' e'].
  simpl in H1.
  pose proof (shr_fexp_nonneg _ e' loc_Exact
                (round_nearest_even_nonneg _ (loc_of_shr_record mrs') H1)) as H2.
  destruct (shr_fexp prec emax _ e' loc_Exact) as [mrs'' e''].
  simpl in H2.
  destruct (shr_m mrs'') as [|m|m]; simpl; auto.
  - destruct (e'' <=? emax - prec); simpl; auto.
  - lia.
Qed.

Lemma SFdiv_sign (mx my : positive) (ex ey : Z) :
  PyFloat.is_nan (SFdiv prec emax (S754_finite false mx ex) (S754_finite false my ey))
  = false /\
  PyFloat.signbit (SFdiv prec emax (S754_finite false mx ex) (S754_finite false my ey))
  = false.
Proof.
  unfold SFdiv, SFdiv_core_binary.
  set (e' := Z.min _ _). set (m' := match _ with Z0 => _ | _ => _ end).
  assert (Hm : 0 <= m').
  { unfold m'. destruct (ex - ey - e'); try lia.
    apply Z.shiftl_nonneg. lia. }
  pose proof (Z_div_mod m' (Zpos my) eq_refl) as Hdiv.
  destruct (Z.div_eucl m' (Zpos my)) as [q r].
  assert (Hq : 0 <= q) by nia.
  apply (binary_round_aux_sign false q e' _ Hq).
Qed.

End Rounding.

Lemma of_decimal_sign (digits e10 : Z) :
  PyFloat.is_nan (PyFloat.of_decimal false digits e10) = false /\
  PyFloat.signbit (PyFloat.of_decimal false digits e10) = false.
Proof.
  unfold PyFloat.of_decimal. destruct digits as [|m|m]; simpl; auto.
  destruct (0 <=? e10)%Z; apply SFdiv_sign.
Qed.

(* ------------------------------------------------------------------ *)
(** ** [float] on the text of a number *)

Lemma float_of_str_raises (s : str) (e : exn) :
  PyFloat.float_of_str s = Raise e -> e = ValueError.
Proof.
  unfold PyFloat.float_of_str.
  destruct (PyFloat.to_ascii s) as [a|]; [|congruence].
  destruct (PyFloat.sign _) as [neg body].
  unfold PyFloat.absfloatvalue.
  destruct (PyFloat.is_word "inf" body); [discriminate|].
  destruct (PyFloat.is_word "infinity" body); [discriminate|].
  destruct (PyFloat.is_word "nan" body); [discriminate|].
  destruct (PyFloat.number body) as [[[m k] r]|]; [|congruence].
  destruct (PyFloat.exponent r) as [x [|? ?]]; congruence.
Qed.

Section NumericText.
Local Open Scope N_scope.

(** No decimal digit is a space. *)
Lemma isdecimal_not_space (c : N) :
  Unicode.isdecimal c = true -> Unicode.isspace c = false.
Proof.
  intros H. apply isdecimal_spec in H. destruct H as (d & H & _).
  apply todecimal_spec in H. destruct H as (zero & Hin & H1 & H2 & _).
  assert (Hall : forallb
                   (fun z => forallb (fun r => (snd r <? z) || (z + 9 <? fst r))
                                     Unicode.WHITE_SPACE)
                   Unicode.DECIMAL_ZEROS = true) by (vm_compute; reflexivity).
  rewrite forallb_forall in Hall. specialize (Hall _ Hin).
  rewrite forallb_forall in Hall.
  destruct (Unicode.isspace c) eqn:E; [exfalso|reflexivity].
  apply in_ranges_spec in E. destruct E as (lo & hi & Hr & Hlo & Hhi).
  specialize (Hall _ Hr). simpl in Hall.
  apply orb_true_iff in Hall. destruct Hall as [E|E]; apply N.ltb_lt in E; lia.
Qed.

Lemma numeric_09_facts (c : N) :
  numeric_09 c = true ->
  (48 <= c /\ c <= 57) \/ c = 46.
Proof.
  unfold numeric_09, PyFloat.isdigit. intros H.
  apply orb_true_iff in H. destruct H as [H|H].
  - apply andb_true_iff in H. destruct H as (H1 & H2).
    apply N.leb_le in H1, H2. left. lia.
  - apply N.eqb_eq in H. right. exact H.
Qed.

(** [float] makes of a text of digits and points a text of the digits
    0 to 9 and points, of the same length. *)
Lemma to_ascii_numeric (s : str) :
  Forall (fun c => numeric_char c = true) s ->
  exists a,
    PyFloat.to_ascii s = Some a /\
    List.length a = List.length s /\
    Forall (fun c => numeric_09 c = true) a.
Proof.
  induction 1 as [|c s Hc _ IH].
  - exists []. simpl. auto.
  - destruct IH as (a & Ha & Hlen & Hall). cbn [PyFloat.to_ascii]. rewrite Ha.
    unfold numeric_char in Hc. apply orb_true_iff in Hc.
    destruct (c <? 127) eqn:E.
    + exists (c :: a).
      split; [reflexivity|]. split; [cbn [List.length]; congruence|].
      constructor; [|exact Hall]. unfold numeric_09, PyFloat.isdigit.
      apply N.ltb_lt in E. destruct Hc as [Hd|Hp].
      * destruct (isdecimal_ascii c E Hd) as (H1 & H2).
        apply N.leb_le in H1, H2. rewrite H1, H2. reflexivity.
      * rewrite Hp. apply orb_true_r.
    + assert (Hd : Unicode.isdecimal c = true).
      { destruct Hc as [Hd|Hp]; [exact Hd|].
        apply N.eqb_eq in Hp. subst c. discriminate E. }
      rewrite (isdecimal_not_space c Hd).
      destruct (isdecimal_spec c Hd) as (d & -> & Hlt).
      exists ((48 + d) :: a).
      split; [reflexivity|]. split; [cbn [List.length]; congruence|].
      constructor; [|exact Hall]. unfold numeric_09, PyFloat.isdigit.
      replace (48 <=? 48 + d) with true by (symmetry; apply N.leb_le; lia).
      replace (48 + d <=? 57) with true by (symmetry; apply N.leb_le; lia).
      reflexivity.
Qed.

End NumericText.

Lemma lstrip_by_none (sp : N -> bool) (s : str) :
  Forall (fun c => sp c = false) s -> lstrip_by sp s = s.
Proof.
  destruct 1 as [|c s Hc _]; simpl; [reflexivity|]. rewrite Hc. reflexivity.
Qed.

Lemma strip_by_none (sp : N -> bool) (s : str) :
  Forall (fun c => sp c = false) s -> strip_by sp s = s.
Proof.
  intros H. unfold strip_by. rewrite (lstrip_by_none sp s H).
  rewrite lstrip_by_none; [apply rev_involutive|].
  apply Forall_rev. exact H.
Qed.

Lemma numeric_strip (s : str) :
  Forall (fun c => numeric_09 c = true) s ->
  strip_by Unicode.c_isspace s = s.
Proof.
  intros H. apply strip_by_none. revert H. apply Forall_impl.
  intros c Hc. apply numeric_09_facts in Hc. unfold Unicode.c_isspace.
  destruct Hc as [(H1 & H2)| ->]; [|reflexivity].
  replace (c <=? 13)%N with false by (symmetry; apply N.leb_gt; lia).
  replace (c =? 32)%N with false by (symmetry; apply N.eqb_neq; lia).
  rewrite andb_false_r. reflexivity.
Qed.

Lemma after_char_other (c : ascii) (x : N) (s : str) :
  x <> Unicode.code c -> PyFloat.after_char c (x :: s) = None.
Proof.
  intros H. unfold PyFloat.after_char.
  apply N.eqb_neq in H. rewrite H. reflexivity.
Qed.

Lemma numeric_sign (s : str) :
  Forall (fun c => numeric_09 c = true) s -> PyFloat.sign s = (false, s).
Proof.
  destruct 1 as [|c s Hc _]; [reflexivity|].
  apply numeric_09_facts in Hc. unfold PyFloat.sign.
  rewrite !after_char_other; [reflexivity| |];
    change (Unicode.code "+") with 43%N; change (Unicode.code "-") with 45%N;
    lia.
Qed.

Lemma numeric_not_word (s : str) (w : string) (c : ascii) (w' : string) :
  Forall (fun c => numeric_09 c = true) s ->
  w = String c w' -> (97 <= Unicode.code c)%N ->
  PyFloat.is_word w s = false.
Proof.
  intros Hs -> Hc. unfold PyFloat.is_word.
  destruct (list_eq_dec N.eq_dec _ _) as [e|_]; [exfalso|reflexivity].
  destruct Hs as [|x s Hx _]; [discriminate|].
  simpl in e. injection e as Hx' _.
  apply numeric_09_facts in Hx. unfold PyFloat.c_tolower in Hx'.
  destruct ((65 <=? x) && (x <=? 90))%N eqn:E.
  - apply andb_true_iff in E. destruct E as (E1 & E2).
    apply N.leb_le in E1, E2. lia.
  - lia.
Qed.

(** The float of a text of digits and points, when there is one, is
    not NaN and has a clear sign bit. *)
Lemma float_of_numeric (s : str) (f : PyFloat.float) :
  Forall (fun c => numeric_char c = true) s ->
  PyFloat.float_of_str s = Ok f ->
  PyFloat.is_nan f = false /\ PyFloat.signbit f = false.
Proof.
  intros Hs. unfold PyFloat.float_of_str.
  destruct (to_ascii_numeric s Hs) as (a & -> & _ & Ha).
  rewrite (numeric_strip a Ha), (numeric_sign a Ha).
  unfold PyFloat.absfloatvalue.
  rewrite (numeric_not_word a "inf" "i" "nf" Ha eq_refl) by (vm_compute; discriminate).
  rewrite (numeric_not_word a "infinity" "i" "nfinity" Ha eq_refl)
    by (vm_compute; discriminate).
  rewrite (numeric_not_word a "nan" "n" "an" Ha eq_refl) by (vm_compute; discriminate).
  destruct (PyFloat.number a) as [[[m k] r]|]; [|discriminate].
  destruct (PyFloat.exponent r) as [x [|? ?]]; [|discriminate].
  intros [= <-]. apply of_decimal_sign.
Qed.

Lemma number_text_numeric (num : str) :
  number_text num ->
  Forall (fun c => numeric_char c = true) (remove "," num).
Proof.
  intros (a & b & c & -> & _ & Ha & Hb & Hc).
  unfold remove. rewrite !filter_app.
  apply Forall_app. split; [|apply Forall_app].
  - apply Forall_forall. intros x Hx. apply filter_In in Hx.
    destruct Hx as (Hx & Hne). rewrite Forall_forall in Ha.
    destruct (Ha x Hx) as [Hd | ->].
    + unfold numeric_char. unfold is_digit in Hd. rewrite Hd. reflexivity.
    + rewrite N.eqb_refl in Hne. discriminate Hne.
  - split.
    + destruct Hb as [->| ->]; simpl; repeat constructor.
    + apply Forall_forall. intros x Hx. apply filter_In in Hx.
      destruct Hx as (Hx & _). rewrite Forall_forall in Hc.
      unfold numeric_char. rewrite (Hc x Hx). reflexivity.
Qed.

(* ------------------------------------------------------------------ *)
(** ** The loop over the patterns *)

Lemma search_captures (r : regex) (s : str) (m : Match) :
  captures_number r ->
  search_compiled true r s = Some m ->
  exists num,
    group m 1 = Some num /\ number_text num /\
    List.length num <= List.length s.
Proof.
  intros Hr H. apply search_compiled_some in H.
  destruct H as (pre & t & post & g & -> & _ & Hsem & Hg & _).
  apply Hr in Hsem. destruct Hsem as (num & -> & Hnum & Hlen).
  exists num. repeat split; auto.
  - unfold group. rewrite Hg. reflexivity.
  - rewrite !length_app. lia.
Qed.

Lemma converts_attempt (pattern : string) (message : str) (v : PyFloat.float) :
  converts pattern message v <-> attempt pattern message = Some v.
Proof.
  unfold converts, attempt. split.
  - intros (r & m & num & -> & -> & -> & ->). reflexivity.
  - destruct (compile pattern) as [r|] eqn:Hc; [|discriminate].
    destruct (search_compiled true r message) as [m|] eqn:Hs; [|discriminate].
    destruct (group m 1) as [num|] eqn:Hg; [|discriminate].
    destruct (PyFloat.float_of_str _) as [w|e] eqn:Hf; [|discriminate].
    intros [= <-]. exists r, m, num. repeat split; auto.
Qed.

Lemma first_float_step (pattern : string) (r : regex) (patterns : list string)
      (message : str) :
  compile pattern = Some r -> captures_number r ->
  MpesaParser.first_float (pattern :: patterns) message
  = match attempt pattern message with
    | Some v => Ok (Some v)
    | None => MpesaParser.first_float patterns message
    end.
Proof.
  intros Hc Hr. cbn [MpesaParser.first_float]. unfold ReApi.search, attempt.
  rewrite Hc. cbn [bind].
  destruct (search_compiled true r message) as [m|] eqn:Hs; [|reflexivity].
  destruct (search_captures _ _ _ Hr Hs) as (num & -> & _ & _). cbn [MpesaParser.method bind].
  destruct (PyFloat.float_of_str _) as [v|e] eqn:Hf; [reflexivity|].
  apply float_of_str_raises in Hf. subst e. reflexivity.
Qed.

(** The three cases of one round of the loop. *)
Lemma attempt_cases (pattern : string) (r : regex) (message : str) :
  compile pattern = Some r -> captures_number r ->
  match attempt pattern message with
  | Some v => converts pattern message v
  | None => no_match pattern message \/ fails_to_convert pattern message
  end.
Proof.
  intros Hc Hr. destruct (attempt pattern message) as [v|] eqn:Ha.
  - apply converts_attempt. exact Ha.
  - unfold attempt in Ha. rewrite Hc in Ha.
    destruct (search_compiled true r message) as [m|] eqn:Hs.
    + right. destruct (search_captures _ _ _ Hr Hs) as (num & Hg & _ & _).
      rewrite Hg in Ha.
      destruct (PyFloat.float_of_str _) as [w|e] eqn:Hf; [discriminate|].
      apply float_of_str_raises in Hf as He. subst e.
      exists r, m, num. auto.
    + left. exists r. auto.
Qed.

Lemma skipped_attempt (pattern : string) (message : str) :
  skipped message pattern -> attempt pattern message = None.
Proof.
  unfold attempt.
  intros [(r & -> & ->) | (r & m & num & -> & -> & -> & ->)]; reflexivity.
Qed.

Section Loop.
Variable message : str.

Lemma first_float_some (patterns : list string) (v : PyFloat.float) :
  well_formed patterns ->
  (MpesaParser.first_float patterns message = Ok (Some v) <->
   exists l1 p l2,
     patterns = l1 ++ p :: l2 /\ converts p message v /\
     Forall (skipped message) l1).
Proof.
  induction 1 as [|p ps (r & Hc & Hr) Hps IH].
  - simpl. split; [discriminate|].
    intros (l1 & p & l2 & H & _). destruct l1; discriminate.
  - rewrite (first_float_step p r ps message Hc Hr).
    pose proof (attempt_cases p r message Hc Hr) as Hcases.
    destruct (attempt p message) as [w|] eqn:Ha.
    + split.
      * intros [= ->]. exists [], p, ps. auto.
      * intros (l1 & q & l2 & Heq & Hq & Hl1).
        destruct l1 as [|q' l1]; simpl in Heq; injection Heq as <- ->.
        -- apply converts_attempt in Hq. congruence.
        -- inversion Hl1 as [|? ? Hskip _]; subst.
           apply skipped_attempt in Hskip. congruence.
    + rewrite IH. split.
      * intros (l1 & q & l2 & -> & Hq & Hl1).
        exists (p :: l1), q, l2. repeat split; auto.
      * intros (l1 & q & l2 & Heq & Hq & Hl1).
        destruct l1 as [|q' l1]; simpl in Heq; injection Heq as <- ->.
        -- apply converts_attempt in Hq. congruence.
        -- inversion Hl1; subst. exists l1, q, l2. auto.
Qed.

Lemma first_float_none (patterns : list string) :
  well_formed patterns ->
  (MpesaParser.first_float patterns message = Ok None <->
   Forall (skipped message) patterns).
Proof.
  induction 1 as [|p ps (r & Hc & Hr) Hps IH].
  - simpl. split; auto.
  - rewrite (first_float_step p r ps message Hc Hr).
    pose proof (attempt_cases p r message Hc Hr) as Hcases.
    destruct (attempt p message) as [w|] eqn:Ha.
    + split; [discriminate|].
      intros Hall. inversion Hall as [|? ? Hskip _]; subst.
      apply skipped_attempt in Hskip. congruence.
    + rewrite IH. split.
      * intros Hall. constructor; auto.
      * intros Hall. inversion Hall; auto.
Qed.

Lemma first_float_total (patterns : list string) :
  well_formed patterns ->
  exists o, MpesaParser.first_float patterns message = Ok o.
Proof.
  induction 1 as [|p ps (r & Hc & Hr) Hps IH].
  - simpl. eauto.
  - rewrite (first_float_step p r ps message Hc Hr).
    destruct (attempt p message); eauto.
Qed.

(** A float the loop returns is not NaN and has a clear sign bit. *)
Lemma first_float_sign (patterns : list string) (v : PyFloat.float) :
  well_formed patterns ->
  MpesaParser.first_float patterns message = Ok (Some v) ->
  PyFloat.is_nan v = false /\ PyFloat.signbit v = false.
Proof.
  intros Hwf H. pose proof Hwf as Hwf'.
  apply (first_float_some _ v) in Hwf'. apply Hwf' in H.
  destruct H as (l1 & p & l2 & -> & (r & m & num & Hc & Hs & Hg & Hf) & _).
  apply Forall_app in Hwf. destruct Hwf as (_ & Hwf).
  inversion Hwf as [|? ? (r' & Hc' & Hr') _]; subst.
  assert (r' = r) by congruence. subst r'.
  destruct (search_captures _ _ _ Hr' Hs) as (num' & Hg' & Hnum & _).
  assert (num' = num) by congruence. subst num'.
  apply (float_of_numeric _ _ (number_text_numeric _ Hnum) Hf).
Qed.

End Loop.

Lemma well_formed_amount : well_formed MpesaParser.amount_patterns.
Proof.
  pose proof captures_number_amount as H.
  inversion H as [|? ? H1 H']; subst. inversion H' as [|? ? H2 H'']; subst.
  inversion H'' as [|? ? H3 _]; subst.
  repeat constructor; eexists; (split; [reflexivity|assumption]).
Qed.

Lemma well_formed_balance : well_formed MpesaParser.balance_patterns.
Proof.
  pose proof captures_number_balance as H.
  inversion H as [|? ? H1 H']; subst. inversion H' as [|? ? H2 H'']; subst.
  inversion H'' as [|? ? H3 _]; subst.
  repeat constructor; eexists; (split; [reflexivity|assumption]).
Qed.

(* ------------------------------------------------------------------ *)
(** ** The recipient patterns capture their group *)

Lemma sem_direction (bef t aft : str) (g : list (nat * str)) :
  sem true Patterns.direction bef t aft g ->
  g = [] /\ Shapes.is_direction t.
Proof.
  unfold Patterns.direction, Shapes.is_direction. cbn [sem].
  intros [H|[H|H]]; apply sem_lit in H; destruct H as (H & ->);
    (split; [reflexivity|]); [left | right; left | right; right].
  - apply (same_text_spells "sent to"); [below_128 | exact H].
  - apply (same_text_spells "paid to"); [below_128 | exact H].
  - apply (same_text_spells "received from"); [below_128 | exact H].
Qed.

Lemma captures_group_recipient_1 : captures_group Patterns.recipient_1.
Proof.
  intros bef t aft g. unfold Patterns.recipient_1. cbn [sem].
  intros (d & t1 & g1 & g2 & -> & -> & Hd
          & (ws & t2 & g3 & g4 & -> & -> & Hws
             & (name & t3 & g5 & g6 & -> & -> & (g7 & Hname & ->) & Hterm))).
  apply sem_direction in Hd. destruct Hd as (-> & _).
  apply sem_rep_groups in Hws. destruct Hws as (-> & _).
  apply sem_rep_groups in Hname. destruct Hname as (-> & _).
  assert (g6 = []) as ->.
  { destruct Hterm as [H|[H|[H|H]]].
    - destruct H as (? & ? & ? & ? & _ & -> & H1 & (? & _ & _ & ->)).
      apply sem_rep_groups in H1. destruct H1 as (-> & _). reflexivity.
    - destruct H as (? & ? & ? & ? & _ & -> & H1 & H2).
      apply sem_rep_groups in H1. destruct H1 as (-> & _).
      apply sem_lit in H2. destruct H2 as (_ & ->). reflexivity.
    - destruct H as (? & ? & ? & ? & _ & -> & H1 & H2).
      apply sem_rep_groups in H1. destruct H1 as (-> & _).
      apply sem_lit in H2. destruct H2 as (_ & ->). reflexivity.
    - destruct H as (? & _ & _ & ->). reflexivity. }
  exists name. reflexivity.
Qed.

Lemma captures_group_recipient_2 : captures_group Patterns.recipient_2.
Proof.
  intros bef t aft g. unfold Patterns.recipient_2. cbn [sem].
  intros (d & t1 & g1 & g2 & -> & -> & Hd
          & (ws & num & g3 & g4 & -> & -> & Hws & (g5 & Hnum & ->))).
  apply sem_direction in Hd. destruct Hd as (-> & _).
  apply sem_rep_groups in Hws. destruct Hws as (-> & _).
  apply sem_rep_groups in Hnum. destruct Hnum as (-> & _).
  exists num. reflexivity.
Qed.

Lemma search_captures_group (r : regex) (s : str) (m : Match) :
  captures_group r ->
  search_compiled true r s = Some m ->
  exists txt, group m 1 = Some txt.
Proof.
  intros Hr H. apply search_compiled_some in H.
  destruct H as (pre & t & post & g & _ & _ & Hsem & Hg & _).
  apply Hr in Hsem. destruct Hsem as (txt & ->).
  exists txt. unfold group. rewrite Hg. reflexivity.
Qed.

Lemma first_group_total (patterns : list string) (message : str) :
  Forall (fun p => exists r, compile p = Some r /\ captures_group r) patterns ->
  exists o, MpesaParser.first_group patterns message = Ok o.
Proof.
  induction 1 as [|p ps (r & Hc & Hr) _ IH]; simpl; [eauto|].
  unfold ReApi.search. rewrite Hc. cbn [bind].
  destruct (search_compiled true r message) as [m|] eqn:Hs; [|exact IH].
  destruct (search_captures_group _ _ _ Hr Hs) as (txt & ->). simpl. eauto.
Qed.

(* ------------------------------------------------------------------ *)
(** ** The extractors and [parse] return *)

Lemma extract_amount_total (message : str) :
  exists o, MpesaParser.extract_amount message = Ok o.
Proof. apply first_float_total. apply well_formed_amount. Qed.

Lemma extract_balance_total (message : str) :
  exists o, MpesaParser.extract_balance message = Ok o.
Proof. apply first_float_total. apply well_formed_balance. Qed.

Lemma extract_recipient_total (message : str) :
  exists o, MpesaParser.extract_recipient message = Ok o.
Proof.
  apply first_group_total. repeat constructor; eexists; (split; [reflexivity|]).
  - apply captures_group_recipient_1.
  - apply captures_group_recipient_2.
Qed.

Lemma extract_transaction_code_total (message : str) :
  exists o, MpesaParser.extract_transaction_code message = Ok o.
Proof.
  unfold MpesaParser.extract_transaction_code, ReApi.search.
  rewrite compile_code_pattern. cbn [bind].
  destruct (search_compiled false Patterns.code message); eauto.
Qed.

(** [parse] returns the record built from what the classifier and the
    four extractors return. *)
Lemma parse_returns (utcnow : Z) (sender message : str) :
  exists a c b r,
    MpesaParser.extract_amount message = Ok a /\
    MpesaParser.extract_transaction_code message = Ok c /\
    MpesaParser.extract_balance message = Ok b /\
    MpesaParser.extract_recipient message = Ok r /\
    MpesaParser.parse utcnow sender message
    = Ok {| MpesaParser.sender := sender;
            MpesaParser.raw_message := message;
            MpesaParser.transaction_type :=
              MpesaParser.determine_transaction_type message;
            MpesaParser.amount := a;
            MpesaParser.transaction_code := c;
            MpesaParser.balance := b;
            MpesaParser.recipient := r;
            MpesaParser.timestamp := utcnow;
            MpesaParser.parsed_successfully :=
              MpesaParser.is_not_none a && MpesaParser.is_not_none c |}.
Proof.
  destruct (extract_amount_total message) as (a & Ha).
  destruct (extract_transaction_code_total message) as (c & Hc).
  destruct (extract_balance_total message) as (b & Hb).
  destruct (extract_recipient_total message) as (r & Hr).
  exists a, c, b, r. unfold MpesaParser.parse.
  rewrite Ha, Hc, Hb, Hr. simpl. auto.
Qed.

(* ------------------------------------------------------------------ *)
(** ** C1, C2: the success flag and totality *)

(** C1.  For every sender and message, [parse] returns a record whose
    [parsed_successfully] is true if and only if both [amount] and
    [transaction_code] are present: the flag is the conjunction of the
    two presence tests and of nothing else. *)
Theorem parsed_successfully_iff_amount_and_code
        (utcnow : Z) (sender message : str) :
  exists r,
    MpesaParser.parse utcnow sender message = Ok r /\
    (MpesaParser.parsed_successfully r = true <->
     MpesaParser.amount r <> None /\ MpesaParser.transaction_code r <> None) /\
    MpesaParser.parsed_successfully r
    = MpesaParser.is_not_none (MpesaParser.amount r)
      && MpesaParser.is_not_none (MpesaParser.transaction_code r).
Proof.
  destruct (parse_returns utcnow sender message)
    as (a & c & b & r & _ & _ & _ & _ & H).
  eexists. split; [exact H|]. simpl. split; [|reflexivity].
  destruct a, c; simpl; split;
    first [ intros _; split; discriminate
          | intros H'; discriminate H'
          | intros (H1 & H2); congruence ].
Qed.

(** C2.  [parse] is total: for every sender and message (any sequence
    of Unicode code points: the empty one, text outside ASCII and
    arbitrarily long ones included) it returns a record and raises
    nothing; each extractor returns a value, which is absent when it
    finds nothing or when the text it finds does not convert, and the
    record holds these values. *)
Theorem parse_total (utcnow : Z) (sender message : str) :
  exists r,
    MpesaParser.parse utcnow sender message = Ok r /\
    MpesaParser.extract_amount message = Ok (MpesaParser.amount r) /\
    MpesaParser.extract_transaction_code message
    = Ok (MpesaParser.transaction_code r) /\
    MpesaParser.extract_balance message = Ok (MpesaParser.balance r) /\
    MpesaParser.extract_recipient message = Ok (MpesaParser.recipient r).
Proof.
  destruct (parse_returns utcnow sender message)
    as (a & c & b & r & Ha & Hc & Hb & Hr & H).
  eexists. split; [exact H|]. simpl. auto.
Qed.

(* ------------------------------------------------------------------ *)
(** ** C3: the classifier *)

Lemma existsb_triggers (lowered : str) (keywords : list string) :
  existsb (fun keyword => contains (chars keyword) lowered) keywords = true
  <-> triggers lowered keywords.
Proof.
  rewrite existsb_exists. unfold triggers.
  split; intros (k & Hin & H); exists k; split; auto; apply contains_spec; auto.
Qed.

Lemma first_type_spec (table : list (string * list string)) (lowered : str) :
  (exists l1 t keywords l2,
      table = l1 ++ (t, keywords) :: l2 /\
      triggers lowered keywords /\
      Forall (silent lowered) l1 /\
      MpesaParser.first_type table lowered = t)
  \/ (Forall (silent lowered) table /\
      MpesaParser.first_type table lowered = "UNKNOWN"%string).
Proof.
  induction table as [|[t keywords] table IH]; simpl.
  - right. auto.
  - destruct (existsb _ keywords) eqn:He.
    + left. exists [], t, keywords, table. repeat split; auto.
      apply existsb_triggers. exact He.
    + assert (Hs : silent lowered (t, keywords)).
      { unfold silent. simpl. rewrite <- existsb_triggers. congruence. }
      destruct IH as [(l1 & t' & k' & l2 & -> & Ht & Hl1 & Hr) | (Hall & Hr)].
      * left. exists ((t, keywords) :: l1), t', k', l2. repeat split; auto.
      * right. auto.
Qed.

(** C3.  The table lists the types in the order SENT, RECEIVED,
    WITHDRAWN, BOUGHT, BALANCE, REVERSED, PAYBILL.  For every message
    the classifier returns the first type of the table one of whose
    trigger phrases is a substring of the lower-cased message (no
    earlier type has such a phrase), and UNKNOWN when no type has one.
    In particular a message that contains "paid to", a phrase of both
    SENT and PAYBILL, is classified SENT. *)
Theorem classifier_first_match (message : str) :
  map fst MpesaParser.TRANSACTION_TYPES
  = ["SENT"; "RECEIVED"; "WITHDRAWN"; "BOUGHT"; "BALANCE"; "REVERSED";
     "PAYBILL"]%string /\
  ((exists l1 t keywords l2,
       MpesaParser.TRANSACTION_TYPES = l1 ++ (t, keywords) :: l2 /\
       triggers (Str.lower message) keywords /\
       Forall (silent (Str.lower message)) l1 /\
       MpesaParser.determine_transaction_type message = t)
   \/ (Forall (silent (Str.lower message)) MpesaParser.TRANSACTION_TYPES /\
       MpesaParser.determine_transaction_type message = "UNKNOWN"%string)) /\
  (occurs (chars "paid to") (Str.lower message) ->
   MpesaParser.determine_transaction_type message = "SENT"%string).
Proof.
  split; [reflexivity|]. split.
  - apply first_type_spec.
  - intros H. unfold MpesaParser.determine_transaction_type.
    unfold MpesaParser.TRANSACTION_TYPES. cbn [MpesaParser.first_type].
    assert (He : existsb
                   (fun keyword => contains (chars keyword) (Str.lower message))
                   ["you have sent"; "sent to"; "paid to"; "transferred to"]%string
                 = true).
    { apply existsb_triggers. exists "paid to"%string. split; auto.
      simpl. auto. }
    rewrite He. reflexivity.
Qed.

Lemma classifier_first_match_witness :
  MpesaParser.determine_transaction_type
    (chars "Ksh50 paid to KPLC for account 1234") = "SENT"%string.
Proof.
  apply (classifier_first_match (chars "Ksh50 paid to KPLC for account 1234")).
  apply contains_spec. vm_compute. reflexivity.
Defined.

(* ------------------------------------------------------------------ *)
(** ** C5: the transaction code *)

Lemma is_word_at_begins (s : str) :
  is_word_at s = begins_with Unicode.isword s.
Proof. reflexivity. Qed.

Lemma upper_is_word (c : N) : is_upper c -> Unicode.isword c = true.
Proof.
  intros (H1 & H2). unfold Unicode.isword.
  rewrite (upper_isalnum c H1 H2). reflexivity.
Qed.

Lemma digit_is_word (c : N) : is_digit c -> Unicode.isword c = true.
Proof.
  intros H. unfold Unicode.isword.
  rewrite (isdecimal_isalnum c H). reflexivity.
Qed.

Lemma upper_or_digit_is_word (c : N) :
  is_upper_or_digit c -> Unicode.isword c = true.
Proof.
  intros [H|(H1 & H2)]; [apply upper_is_word; exact H|].
  unfold Unicode.isword. rewrite (digit_09_isalnum c H1 H2). reflexivity.
Qed.

Lemma code_shape_length (c : str) :
  code_shape c -> List.length c = 9 \/ List.length c = 10.
Proof.
  intros (a & b & d & -> & Ha & _ & Hb & _ & Hd & _).
  rewrite !length_app. lia.
Qed.

Lemma code_shape_first (c rest : str) :
  code_shape c -> begins_with Unicode.isword (c ++ rest) = true.
Proof.
  intros (a & b & d & -> & Ha & Hua & _).
  destruct a as [|x a]; [discriminate|]. simpl.
  inversion Hua; subst. apply upper_is_word. assumption.
Qed.

Lemma code_shape_all_word (c : str) :
  code_shape c -> Forall (fun x => Unicode.isword x = true) c.
Proof.
  intros (a & b & d & -> & _ & Ha & _ & Hb & _ & Hd).
  apply Forall_app. split; [|apply Forall_app; split].
  - revert Ha. apply Forall_impl. apply upper_is_word.
  - revert Hb. apply Forall_impl. apply digit_is_word.
  - revert Hd. apply Forall_impl. apply upper_or_digit_is_word.
Qed.

Lemma code_shape_last (c rest : str) :
  code_shape c -> begins_with Unicode.isword (rev c ++ rest) = true.
Proof.
  intros H. pose proof (code_shape_length _ H) as Hlen.
  apply code_shape_all_word in H. apply Forall_rev in H.
  destruct (rev c) as [|x r] eqn:Hr.
  - apply (f_equal (@List.length N)) in Hr. rewrite length_rev in Hr.
    simpl in Hr. lia.
  - simpl. inversion H; assumption.
Qed.

Lemma sem_times (lo hi : nat) (a : atom) (bef t aft : str) (g : list (nat * str)) :
  sem false (Patterns.times lo hi a) bef t aft g <->
  lo <= List.length t <= hi /\
  Forall (fun c => atom_match false a c = true) t /\ g = [].
Proof. simpl. tauto. Qed.

Lemma sem_code_body (bef t aft : str) (g : list (nat * str)) :
  sem false Patterns.code_body bef t aft g <-> code_shape t /\ g = [].
Proof.
  unfold Patterns.code_body. cbn [sem]. split.
  - intros (a & t2 & g1 & g2 & -> & -> & Ha
            & (b & d & g3 & g4 & -> & -> & Hb & Hd)).
    apply sem_times in Ha, Hb, Hd.
    destruct Ha as (Hla & Ha & ->), Hb as (Hlb & Hb & ->), Hd as (Hld & Hd & ->).
    split; [|reflexivity].
    exists a, b, d. repeat split; try lia.
    + revert Ha. apply Forall_impl. intros c. apply match_upper.
    + apply (Forall_digits _ _ Hb).
    + revert Hd. apply Forall_impl. intros c. apply match_upper_or_digit.
  - intros ((a & b & d & -> & Hla & Ha & Hlb & Hb & Hld & Hd) & ->).
    exists a, (b ++ d), [], [].
    split; [reflexivity|]. split; [reflexivity|]. split.
    + apply sem_times. split; [lia|]. split; [|reflexivity].
      revert Ha. apply Forall_impl. intros c. apply match_upper.
    + exists b, d, [], [].
      split; [reflexivity|]. split; [reflexivity|]. split.
      * apply sem_times. split; [lia|]. split; [|reflexivity].
        revert Hb. apply Forall_impl. intros c. rewrite match_digit. auto.
      * apply sem_times. split; [lia|]. split; [|reflexivity].
        revert Hd. apply Forall_impl. intros c. apply match_upper_or_digit.
Qed.

Lemma sem_code (pre t post : str) (g : list (nat * str)) :
  sem false Patterns.code (rev pre) t post g <->
  code_shape t /\ whole_word pre post /\ g = [(1, t)].
Proof.
  unfold Patterns.code, whole_word, boundary. cbn [sem]. split.
  - intros (t1 & t2 & g1 & g2 & -> & -> & (-> & -> & Hb1)
            & (c & t3 & g3 & g4 & -> & -> & (g5 & Hc & ->) & (-> & -> & Hb2))).
    apply sem_code_body in Hc. destruct Hc as (Hc & ->).
    simpl in *. rewrite app_nil_r in *.
    unfold boundary in Hb1, Hb2.
    change is_word_at with (begins_with Unicode.isword) in Hb1, Hb2.
    rewrite (code_shape_first _ _ Hc) in Hb1.
    rewrite (code_shape_last _ _ Hc) in Hb2.
    repeat split; auto.
    + destruct (begins_with Unicode.isword (rev pre)); [discriminate | reflexivity].
    + destruct (begins_with Unicode.isword post); [discriminate | reflexivity].
  - intros (Hc & (Hpre & Hpost) & ->).
    exists [], t, [], [(1, t)].
    split; [reflexivity|]. split; [reflexivity|]. split.
    + split; [reflexivity|]. split; [reflexivity|].
      unfold boundary. change is_word_at with (begins_with Unicode.isword).
      rewrite Hpre, (code_shape_first _ _ Hc). reflexivity.
    + exists t, [], [(1, t)], [].
      split; [symmetry; apply app_nil_r|]. split; [reflexivity|]. split.
      * exists []. split; [|reflexivity]. apply sem_code_body. auto.
      * split; [reflexivity|]. split; [reflexivity|].
        unfold boundary. change is_word_at with (begins_with Unicode.isword).
        rewrite Hpost, (code_shape_last _ _ Hc). reflexivity.
Qed.

(** Two codes that stand at the same place of a message are equal. *)
Lemma code_at_unique (message pre c post pre' c' post' : str) :
  code_at message pre c post -> code_at message pre' c' post' ->
  List.length pre = List.length pre' -> c = c'.
Proof.
  intros (-> & Hc & _ & Hpost) (Heq & Hc' & _ & Hpost') Hlen.
  apply app_eq_app in Heq.
  assert (pre = pre' /\ c ++ post = c' ++ post') as (-> & Heq').
  { destruct Heq as (l & [(-> & H) | (-> & H)]);
      rewrite length_app in Hlen;
      (destruct l; [|simpl in Hlen; lia]);
      rewrite app_nil_r; simpl in H; auto. }
  clear Heq Hlen. apply app_eq_app in Heq'.
  destruct Heq' as (l & [(-> & H) | (-> & H)]).
  - destruct l as [|x l]; [apply app_nil_r|exfalso].
    subst post'.
    apply code_shape_all_word in Hc. apply Forall_app in Hc.
    destruct Hc as (_ & Hl). inversion Hl; subst.
    simpl in Hpost'. congruence.
  - destruct l as [|x l]; [symmetry; apply app_nil_r|exfalso].
    subst post.
    apply code_shape_all_word in Hc'. apply Forall_app in Hc'.
    destruct Hc' as (_ & Hl). inversion Hl; subst.
    simpl in Hpost. congruence.
Qed.

(** In "RK12AB34CD_" the text RK12AB34CD has the shape of a code and
    is not part of a longer alphanumeric run: what follows it is an
    underscore.  The extractor returns nothing for this message: the
    underscore is a word character for it. *)
Lemma code_before_underscore_is_not_found :
  (exists pre c post,
      chars "RK12AB34CD_" = pre ++ c ++ post /\
      code_shape c /\ whole_run pre post) /\
  MpesaParser.extract_transaction_code (chars "RK12AB34CD_") = Ok None.
Proof.
  split; [|vm_compute; reflexivity].
  exists [], (chars "RK12AB34CD"), (chars "_").
  split; [reflexivity|]. split; [|split; vm_compute; reflexivity].
  exists (chars "RK"), (chars "12"), (chars "AB34CD").
  split; [reflexivity|]. split; [reflexivity|]. split.
  { repeat (apply Forall_cons; [vm_compute; split; discriminate|]).
    apply Forall_nil. }
  split; [reflexivity|]. split.
  { repeat (apply Forall_cons; [vm_compute; reflexivity|]). apply Forall_nil. }
  split; [right; reflexivity|].
  repeat (apply Forall_cons;
          [first [ left; vm_compute; split; discriminate
                 | right; vm_compute; split; discriminate ]|]).
  apply Forall_nil.
Qed.

(** C5 (amended).  For every message the transaction-code extractor
    returns the first (leftmost) substring made of two capital letters
    A to Z, two decimal digits (of any number system) and five or six
    further characters each a capital letter A to Z or a digit 0 to 9,
    that stands as a whole word: no word character (a letter, a digit
    or the underscore) just before it nor just after it; it returns
    nothing exactly when the message has no such substring. *)
Theorem transaction_code_is_first_code (message : str) :
  (forall c,
      MpesaParser.extract_transaction_code message = Ok (Some c) <->
      first_code message c) /\
  (MpesaParser.extract_transaction_code message = Ok None <->
   ~ exists pre c post, code_at message pre c post).
Proof.
  unfold MpesaParser.extract_transaction_code, ReApi.search.
  rewrite compile_code_pattern. cbn [bind].
  destruct (search_compiled false Patterns.code message) as [m|] eqn:Hs.
  - apply search_compiled_some in Hs.
    destruct Hs as (pre & t & post & g & Hmsg & _ & Hsem & Hg & Hleft).
    apply sem_code in Hsem. destruct Hsem as (Hshape & Hword & ->).
    assert (Hgroup : group m 1 = Some t) by (unfold group; rewrite Hg; reflexivity).
    rewrite Hgroup.
    assert (Hat : code_at message pre t post) by (split; auto).
    assert (Hfirst : forall pre' c' post',
               code_at message pre' c' post' ->
               List.length pre <= List.length pre').
    { intros pre' c' post' (Heq & Hshape' & Hword').
      apply (Hleft pre' c' post' [(1, c')] Heq).
      apply sem_code. auto. }
    split.
    + intros c. split.
      * intros [= <-]. exists pre, post. auto.
      * intros (pre' & post' & Hat' & Hfirst').
        assert (Hlen : List.length pre = List.length pre').
        { apply Nat.le_antisymm; eauto. }
        rewrite (code_at_unique _ _ _ _ _ _ _ Hat Hat' Hlen). reflexivity.
    + split; [discriminate|]. intros Hno. exfalso. apply Hno. eauto.
  - rewrite search_compiled_none in Hs. split.
    + intros c. split; [discriminate|].
      intros (pre & post & (Heq & Hshape & Hword) & _). exfalso.
      apply (Hs pre c post [(1, c)] Heq).
      apply sem_code. auto.
    + split; [|reflexivity]. intros _ (pre & c & post & Heq & Hshape & Hword).
      apply (Hs pre c post [(1, c)] Heq). apply sem_code. auto.
Qed.

(* ------------------------------------------------------------------ *)
(** ** C4: the scenario SENT *)

(** The recipient patterns want "sent to", "paid to" or "received from"
    in one piece; the scenario message reads "sent Ksh500.00 to", so
    that [parse] does not return the recipient JOHN DOE for it. *)
Lemma scenario_sent_recipient_is_not_john_doe :
  ~ exists r,
      MpesaParser.parse 0 (chars "MPESA") scenario_sent = Ok r /\
      MpesaParser.recipient r = Some (chars "JOHN DOE").
Proof.
  intros (r & H & Hr). vm_compute in H. injection H as <-.
  discriminate Hr.
Qed.

(** C4 (amended).  For the message of the scenario SENT, with any
    sender and at any time, [parse] returns the type SENT, the amount
    500 (exactly), the code RK12AB34CD, the balance 1234.56 (the
    binary64 number this decimal denotes: 5429652300748554 * 2^-42, the
    float of the text "1234.56", within half a unit in the last place
    of 1234.56), no recipient, and [parsed_successfully] true. *)
Theorem scenario_sent_parse (utcnow : Z) (sender : str) :
  exists r,
    MpesaParser.parse utcnow sender scenario_sent = Ok r /\
    MpesaParser.transaction_type r = "SENT"%string /\
    MpesaParser.amount r = Some (double 8796093022208000 (-44)) /\
    exactly 500 (double 8796093022208000 (-44)) /\
    MpesaParser.transaction_code r = Some (chars "RK12AB34CD") /\
    MpesaParser.balance r = Some (double 5429652300748554 (-42)) /\
    PyFloat.float_of_str (chars "1234.56") = Ok (double 5429652300748554 (-42)) /\
    rounds (123456 # 100) (double 5429652300748554 (-42)) /\
    MpesaParser.recipient r = None /\
    MpesaParser.parsed_successfully r = true.
Proof.
  destruct (parse_returns utcnow sender scenario_sent)
    as (a & c & b & rc & Ha & Hc & Hb & Hr & H).
  vm_compute in Ha. injection Ha as <-.
  vm_compute in Hc. injection Hc as <-.
  vm_compute in Hb. injection Hb as <-.
  vm_compute in Hr. injection Hr as <-.
  eexists. split; [exact H|]. cbn [MpesaParser.transaction_type
    MpesaParser.amount MpesaParser.transaction_code MpesaParser.balance
    MpesaParser.recipient MpesaParser.parsed_successfully].
  split; [vm_compute; reflexivity|]. split; [reflexivity|]. split.
  { eexists. split; [reflexivity|]. vm_compute. reflexivity. }
  split; [reflexivity|]. split; [reflexivity|].
  split; [vm_compute; reflexivity|]. split; [|split; reflexivity].
  split; [reflexivity|].
  eexists. split; [reflexivity|]. apply Qle_bool_iff. vm_compute. reflexivity.
Qed.

(* ------------------------------------------------------------------ *)
(** ** C6: the order of the amount patterns *)

Lemma fails_to_convert_step (pattern : string) (patterns : list string)
      (message : str) :
  fails_to_convert pattern message ->
  MpesaParser.first_float (pattern :: patterns) message
  = MpesaParser.first_float patterns message.
Proof.
  intros (r & m & num & Hc & Hs & Hg & Hf).
  cbn [MpesaParser.first_float]. unfold ReApi.search.
  rewrite Hc. cbn [bind]. rewrite Hs, Hg. cbn [MpesaParser.method bind].
  rewrite Hf. reflexivity.
Qed.

(** C6.  For every message the amount extractor tries its patterns in
    the order of the list: it returns [v] exactly when some pattern
    matches with a captured text that, commas removed, converts to
    [v], every earlier pattern either not matching or capturing a text
    that does not convert; it returns nothing exactly when every
    pattern does one or the other; it never raises; and a pattern that
    matches with a text that does not convert is passed over, the
    result being that of the patterns after it. *)
Theorem amount_first_convertible (message : str) :
  (forall v,
      MpesaParser.extract_amount message = Ok (Some v) <->
      exists l1 p l2,
        MpesaParser.amount_patterns = l1 ++ p :: l2 /\
        converts p message v /\
        Forall (skipped message) l1) /\
  (MpesaParser.extract_amount message = Ok None <->
   Forall (skipped message) MpesaParser.amount_patterns) /\
  (exists o, MpesaParser.extract_amount message = Ok o) /\
  (forall p rest,
      fails_to_convert p message ->
      MpesaParser.first_float (p :: rest) message
      = MpesaParser.first_float rest message).
Proof.
  split; [|split; [|split]].
  - intros v. apply first_float_some. apply well_formed_amount.
  - apply first_float_none. apply well_formed_amount.
  - apply extract_amount_total.
  - intros p rest. apply fails_to_convert_step.
Qed.

(** On "Ksh, KES 5" the first pattern captures a lone comma, which does
    not convert, and the amount is the 5 the second pattern finds. *)
Lemma amount_first_convertible_witness :
  MpesaParser.first_float MpesaParser.amount_patterns (chars "Ksh, KES 5")
  = MpesaParser.first_float (tl MpesaParser.amount_patterns) (chars "Ksh, KES 5")
  /\ MpesaParser.extract_amount (chars "Ksh, KES 5")
     = Ok (Some (double 5629499534213120 (-50))).
Proof.
  split; [|vm_compute; reflexivity].
  apply (amount_first_convertible (chars "Ksh, KES 5")).
  eexists. eexists. eexists.
  split; [reflexivity|]. split; [vm_compute; reflexivity|].
  split; [vm_compute; reflexivity|]. vm_compute. reflexivity.
Defined.

(* ------------------------------------------------------------------ *)
(** ** The first match from a given place *)

Lemma run_lit_then (ic : bool) (s : list ascii) (r : regex) :
  forall found bef rest g,
    same_text ic found s ->
    run ic (Patterns.lit_then s r)
        {| before := bef; after := found ++ rest; groups := g |}
    = run ic r {| before := rev found ++ bef; after := rest; groups := g |}.
Proof.
  induction s as [|c s IH]; intros found bef rest g Hf.
  - apply same_text_nil in Hf. subst found. reflexivity.
  - destruct found as [|x found]; [exfalso; exact (same_text_nil_l _ _ _ Hf)|].
    apply same_text_cons in Hf. destruct Hf as (Hx & Hf).
    cbn [Patterns.lit_then run after app flat_map before groups].
    rewrite Hx. cbn [flat_map]. rewrite app_nil_r.
    rewrite (IH found (x :: bef) rest g Hf).
    cbn [rev]. rewrite <- app_assoc. reflexivity.
Qed.

(** A literal whose first character does not match finds nothing. *)
Lemma run_lit_then_none (ic : bool) (c : ascii) (s : list ascii) (r : regex)
      (st : state) :
  (forall x rest, after st = x :: rest -> atom_match ic (Chr c) x = false) ->
  run ic (Patterns.lit_then (c :: s) r) st = [].
Proof.
  intros H. cbn [Patterns.lit_then run].
  destruct (after st) as [|x rest] eqn:E; [reflexivity|].
  rewrite (H x rest eq_refl). reflexivity.
Qed.

(** The first stop of a greedy repetition without upper count is after
    all the characters that match. *)
Lemma repeat_atom_greedy (ic : bool) (a : atom) (t : str) :
  forall lo bef rest,
    Forall (fun c => atom_match ic a c = true) t ->
    lo <= List.length t ->
    (forall c rest', rest = c :: rest' -> atom_match ic a c = false) ->
    exists more,
      repeat_atom ic true a lo None bef (t ++ rest)
      = (rev t ++ bef, rest) :: more.
Proof.
  induction t as [|x t IH]; intros lo bef rest Hall Hlo Hstop.
  - simpl in Hlo. assert (lo = 0) by lia. subst lo. simpl.
    destruct rest as [|c rest']; simpl; [eauto|].
    rewrite (Hstop c rest' eq_refl). simpl. eauto.
  - inversion Hall as [|? ? Hx Hall']; subst.
    cbn [app repeat_atom may_repeat andb option_map]. rewrite Hx.
    destruct (IH (pred lo) (x :: bef) rest Hall' ltac:(simpl in Hlo; lia) Hstop)
      as (more & ->).
    cbn [app rev]. rewrite <- app_assoc. eexists. reflexivity.
Qed.

(** The scan passes over the places where the expression finds
    nothing. *)
Lemma search_from_skip (ic : bool) (r : regex) (pre : str) :
  forall bef rest,
    (forall s1 c s2,
        pre = s1 ++ c :: s2 ->
        run ic r {| before := rev s1 ++ bef; after := c :: s2 ++ rest;
                    groups := [] |} = []) ->
    search_from ic r bef (pre ++ rest)
    = search_from ic r (rev pre ++ bef) rest.
Proof.
  induction pre as [|c pre IH]; intros bef rest H; [reflexivity|].
  cbn [app search_from]. pose proof (H [] c pre eq_refl) as H0.
  cbn [rev app] in H0. rewrite H0.
  rewrite IH.
  - cbn [rev]. rewrite <- app_assoc. reflexivity.
  - intros s1 c' s2 ->. specialize (H (c :: s1) c' s2 eq_refl).
    cbn [rev] in H. rewrite <- app_assoc in H. exact H.
Qed.

Lemma search_from_here (ic : bool) (r : regex) (bef aft : str) (st : state)
      (more : list state) :
  run ic r {| before := bef; after := aft; groups := [] |} = st :: more ->
  search_from ic r bef aft
  = Some {| m_start := List.length bef; m_final := st |}.
Proof. intros H. destruct aft; simpl; rewrite H; reflexivity. Qed.

(** The first match of the number group on digits and commas, a point
    and digits, when no digit follows. *)
Lemma run_number_here (t1 t2 bef post : str) (g : list (nat * str)) :
  Forall (fun c => is_digit c \/ c = Unicode.code ",") t1 -> t1 <> [] ->
  Forall is_digit t2 ->
  (forall c rest, post = c :: rest -> ~ is_digit c) ->
  exists more,
    run true Patterns.number
        {| before := bef; after := t1 ++ Unicode.code "." :: t2 ++ post;
           groups := g |}
    = {| before := rev (t1 ++ Unicode.code "." :: t2) ++ bef; after := post;
         groups := (1, t1 ++ Unicode.code "." :: t2) :: g |} :: more.
Proof.
  intros H1 Hne H2 Hpost.
  unfold Patterns.number, Patterns.plus, Patterns.star.
  cbn [run before after groups].
  destruct (repeat_atom_greedy true Patterns.digit_or_comma t1 1 bef
                               (Unicode.code "." :: t2 ++ post))
    as (more1 & ->).
  { revert H1. apply Forall_impl. intros c Hc. rewrite match_digit_or_comma.
    apply orb_true_iff. destruct Hc as [Hc| ->]; [left; exact Hc|].
    right. apply N.eqb_refl. }
  { destruct t1; [congruence | simpl; lia]. }
  { intros c rest' [= <- _]. vm_compute. reflexivity. }
  cbn [map flat_map fst snd run after before groups].
  replace (atom_match true (Chr ".") (Unicode.code ".")) with true
    by (vm_compute; reflexivity).
  cbn [app flat_map run before after groups].
  destruct (repeat_atom_greedy true digit t2 0 (Unicode.code "." :: rev t1 ++ bef)
                               post)
    as (more2 & ->).
  { revert H2. apply Forall_impl. intros c Hc. rewrite match_digit. exact Hc. }
  { lia. }
  { intros c rest' Hc. rewrite match_digit.
    destruct (Unicode.isdecimal c) eqn:E; [|reflexivity].
    exfalso. exact (Hpost c rest' Hc E). }
  cbn [map app fst snd].
  unfold set_group, between_states. cbn [before after groups].
  replace (t1 ++ Unicode.code "." :: t2 ++ post)
    with ((t1 ++ Unicode.code "." :: t2) ++ post) by assoc.
  rewrite firstn_length_app.
  replace (rev (t1 ++ Unicode.code "." :: t2) ++ bef)
    with (rev t2 ++ Unicode.code "." :: rev t1 ++ bef).
  - eexists. reflexivity.
  - rewrite rev_app_distr. cbn [rev]. rewrite <- !app_assoc. reflexivity.
Qed.

(* ------------------------------------------------------------------ *)
(** ** Occurrences of a word *)

(** Every character of a word that occurs has a form in the text. *)
Lemma occurs_as_char (same : ascii -> N -> Prop) (word : string) (hay : str)
      (c : ascii) :
  occurs_as same word hay -> In c (list_ascii_of_string word) ->
  exists x, In x hay /\ same c x.
Proof.
  intros (pre & found & post & -> & Hsp) Hin. unfold spells in Hsp.
  assert (H : exists x, In x found /\ same c x).
  { revert Hin. induction Hsp as [|c' x' w f Hx _ IH]; simpl; [tauto|].
    intros [->|Hin]; [exists x'; auto|].
    destruct (IH Hin) as (x & Hx' & Hs). exists x. auto. }
  destruct H as (x & Hx & Hs). exists x. split; [|exact Hs].
  apply in_or_app. right. apply in_or_app. left. exact Hx.
Qed.

(** No character of the text is a form of [c]. *)
Ltac no_form :=
  repeat (apply Forall_cons;
          [let H := fresh in intros H; vm_compute in H; intuition discriminate|]);
  apply Forall_nil.

Lemma no_char_no_word (same : ascii -> N -> Prop) (word : string) (hay : str)
      (c : ascii) :
  In c (list_ascii_of_string word) ->
  Forall (fun x => ~ same c x) hay ->
  ~ occurs_as same word hay.
Proof.
  intros Hin Hall Hocc.
  destruct (occurs_as_char same word hay c Hocc Hin) as (x & Hx & Hs).
  rewrite Forall_forall in Hall. exact (Hall x Hx Hs).
Qed.

(** A word that is found where the text begins occurs in any text that
    begins with what the word covers. *)
Lemma spells_prefix_occurs (same : ascii -> N -> Prop) (word : string)
      (s1 found rest : str) (hay : str) :
  spells same word found ->
  (exists tail, hay = s1 ++ found ++ tail) ->
  occurs_as same word hay.
Proof.
  intros Hsp (tail & ->). exists s1, found, tail. auto.
Qed.
(* ------------------------------------------------------------------ *)
(** ** C7: several thousands separators *)

(** Where the marker of an amount is found, "Ksh" occurs. *)
Lemma currency_found_occurs (s1 tail : str) (c : N) (s2 : str) (st : state)
      (more : list state) :
  run true (Patterns.currency "Ksh")
      {| before := rev s1 ++ []; after := c :: s2 ++ chars "Ks" ++ tail;
         groups := [] |} = st :: more ->
  occurs_as ignoring_case "Ksh" ((s1 ++ c :: s2) ++ chars "Ks").
Proof.
  intros Hrun.
  assert (Hin : In st (run true (Patterns.currency "Ksh")
                           {| before := rev s1 ++ [];
                              after := c :: s2 ++ chars "Ks" ++ tail;
                              groups := [] |}))
    by (rewrite Hrun; left; reflexivity).
  apply run_sem in Hin. cbn [before after groups] in Hin.
  destruct Hin as (t & g & Hafter & _ & _ & Hsem).
  apply sem_currency in Hsem; [|below_128].
  destruct Hsem as (num & _ & k & ws & -> & Hk & _).
  pose proof Hk as Hk'. unfold spells in Hk'. simpl in Hk'.
  inversion Hk' as [|? k1 ? f1 _ Hk1]; subst.
  inversion Hk1 as [|? k2 ? f2 _ Hk2]; subst.
  inversion Hk2 as [|? k3 ? f3 _ Hk3]; subst.
  inversion Hk3; subst. clear Hk' Hk1 Hk2 Hk3.
  cbn [app] in Hafter. injection Hafter as -> Hrest.
  destruct s2 as [|a [|b s2]]; cbn [app chars map list_ascii_of_string] in Hrest.
  - injection Hrest as Ha Hb _.
    exists s1, [k1; k2; k3], []. split; [|exact Hk].
    rewrite <- Ha, <- Hb. assoc.
  - injection Hrest as -> Hb _.
    exists s1, [k1; k2; k3], [Unicode.code "s"]. split; [|exact Hk].
    rewrite <- Hb. assoc.
  - injection Hrest as -> -> _.
    exists s1, [k1; k2; k3], (s2 ++ chars "Ks"). split; [|exact Hk]. assoc.
Qed.

(** The amount of "Ksh12,345,678.90" is a binary64 number, and
    12345678.90 is not one: the amount is not exactly this decimal.
    The amount of a message that has the string after another amount
    is that other amount, and the amount of a message in which a digit
    follows the string has that digit too. *)
Lemma thousands_amount_is_not_the_exact_decimal :
  (~ exists f,
       MpesaParser.extract_amount (chars "Ksh12,345,678.90") = Ok (Some f) /\
       exactly (1234567890 # 100) f) /\
  (exists f,
      MpesaParser.extract_amount (chars "Paid Ksh1. Then Ksh12,345,678.90")
      = Ok (Some f) /\ exactly 1 f) /\
  (exists f,
      MpesaParser.extract_amount (chars "Ksh12,345,678.905") = Ok (Some f) /\
      PyFloat.float_of_str (chars "12345678.905") = Ok f).
Proof.
  split; [|split].
  - intros (f & H & v & Hv & Hq). vm_compute in H. injection H as <-.
    vm_compute in Hv. injection Hv as <-.
    vm_compute in Hq. discriminate Hq.
  - eexists. split; [vm_compute; reflexivity|].
    eexists. split; [reflexivity|]. vm_compute. reflexivity.
  - eexists. split; vm_compute; reflexivity.
Qed.

(** C7 (amended).  For every message that has the string
    "Ksh12,345,678.90" where "Ksh" occurs first (in no letter case
    does it occur further to the left) and with no digit right after
    the string, the amount is the binary64 number that the decimal
    12345678.90 denotes: 6628035890302157 * 2^-29, the float of the
    text "12345678.90", all the commas removed and every digit read.
    It is within half a unit in the last place of 12345678.90, which
    it exceeds by 1/2684354560, the error of the one rounding to
    binary64. *)
Theorem thousands_amount_is_the_nearest_double (pre post : str) :
  ~ occurs_as ignoring_case "Ksh" (pre ++ chars "Ks") ->
  (forall c rest, post = c :: rest -> ~ is_digit c) ->
  MpesaParser.extract_amount (pre ++ chars "Ksh12,345,678.90" ++ post)
  = Ok (Some (double 6628035890302157 (-29))) /\
  PyFloat.float_of_str (chars "12345678.90")
  = Ok (double 6628035890302157 (-29)) /\
  rounds (1234567890 # 100) (double 6628035890302157 (-29)) /\
  exactly ((1234567890 # 100) + (1 # 2684354560)) (double 6628035890302157 (-29)).
Proof.
  intros Hfirst Hpost.
  split; [|split; [vm_compute; reflexivity|split]].
  - unfold MpesaParser.extract_amount, MpesaParser.amount_patterns.
    cbn [MpesaParser.first_float]. unfold ReApi.search.
    change (compile "Ksh\s*([\d,]+\.?\d*)") with (Some Patterns.amount_1).
    cbn [bind]. unfold search_compiled.
    rewrite search_from_skip.
    2:{ intros s1 c s2 ->.
        destruct (run true Patterns.amount_1 _) as [|st more] eqn:Hrun;
          [reflexivity|exfalso].
        apply Hfirst.
        apply (currency_found_occurs s1 (chars "h12,345,678.90" ++ post) c s2
                                     st more).
        rewrite <- Hrun. reflexivity. }
    assert (Hrun : exists more,
               run true Patterns.amount_1
                   {| before := rev pre ++ [];
                      after := chars "Ksh12,345,678.90" ++ post;
                      groups := [] |}
               = {| before := rev (chars "Ksh12,345,678.90") ++ rev pre ++ [];
                    after := post;
                    groups := [(1, chars "12,345,678.90")] |} :: more).
    { unfold Patterns.amount_1, Patterns.currency.
      change (chars "Ksh12,345,678.90" ++ post)
        with (chars "Ksh" ++ chars "12,345,678" ++ Unicode.code "."
                    :: chars "90" ++ post).
      rewrite run_lit_then
        by (repeat (apply Forall2_cons; [vm_compute; reflexivity|]);
            apply Forall2_nil).
      unfold Patterns.star. cbn [run before after groups].
      change (repeat_atom true true space 0 None (rev (chars "Ksh") ++ rev pre ++ [])
                          (chars "12,345,678" ++ Unicode.code "." :: chars "90" ++ post))
        with [(rev (chars "Ksh") ++ rev pre ++ [],
               chars "12,345,678" ++ Unicode.code "." :: chars "90" ++ post)].
      cbn [map flat_map fst snd]. rewrite app_nil_r.
      destruct (run_number_here (chars "12,345,678") (chars "90")
                                (rev (chars "Ksh") ++ rev pre ++ []) post [])
        as (more & ->).
      - repeat (apply Forall_cons;
                [first [ left; vm_compute; reflexivity | right; reflexivity ]|]).
        apply Forall_nil.
      - discriminate.
      - repeat (apply Forall_cons; [vm_compute; reflexivity|]). apply Forall_nil.
      - exact Hpost.
      - exists more. reflexivity. }
    destruct Hrun as (more & Hrun).
    rewrite (search_from_here _ _ _ _ _ _ Hrun).
    cbn [group m_final groups lookup Nat.eqb MpesaParser.method bind].
    replace (PyFloat.float_of_str (remove "," (chars "12,345,678.90")))
      with (Ok (double 6628035890302157 (-29))) by (vm_compute; reflexivity).
    reflexivity.
  - split; [reflexivity|].
    eexists. split; [reflexivity|]. apply Qle_bool_iff. vm_compute. reflexivity.
  - eexists. split; [reflexivity|]. vm_compute. reflexivity.
Qed.

Lemma thousands_amount_is_the_nearest_double_witness :
  MpesaParser.extract_amount
    (chars "Paid " ++ chars "Ksh12,345,678.90" ++ chars " to JOHN")
  = Ok (Some (double 6628035890302157 (-29))).
Proof.
  apply (thousands_amount_is_the_nearest_double (chars "Paid ") (chars " to JOHN")).
  - apply (no_char_no_word ignoring_case "Ksh" _ "h"); [simpl; tauto|].
    no_form.
  - intros c rest [= <- _]. vm_compute. discriminate.
Defined.
(* ------------------------------------------------------------------ *)
(** ** C9: no currency marker, no amount *)

Lemma occurs_as_app (same : ascii -> N -> Prop) (word : string)
      (pre hay post : str) :
  occurs_as same word hay -> occurs_as same word (pre ++ hay ++ post).
Proof.
  intros (a & found & b & -> & H). exists (pre ++ a), found, (b ++ post).
  split; [assoc | exact H].
Qed.

Lemma money_occurs (symbol : string) (cur num : str) :
  money symbol cur num -> occurs_as ignoring_case symbol cur.
Proof.
  intros (k & ws & -> & Hk & _). exists [], k, (ws ++ num). auto.
Qed.

Lemma ends_with_money_occurs (symbol : string) (t : str) (g : list (nat * str))
      (before_t after_t : str) :
  ends_with_money symbol t g ->
  occurs_as ignoring_case symbol (before_t ++ t ++ after_t).
Proof.
  intros (pre & cur & num & -> & Hcur & _).
  apply money_occurs in Hcur.
  replace (before_t ++ (pre ++ cur) ++ after_t)
    with ((before_t ++ pre) ++ cur ++ after_t) by assoc.
  apply occurs_as_app. exact Hcur.
Qed.

Lemma no_marker_no_match (pattern : string) (r : regex) (symbol : string)
      (message : str) :
  compile pattern = Some r ->
  (forall bef t aft g, sem true r bef t aft g -> ends_with_money symbol t g) ->
  ~ occurs_as ignoring_case symbol message ->
  no_match pattern message.
Proof.
  intros Hc Hr Hno. exists r. split; [exact Hc|].
  apply search_compiled_none. intros pre t post g -> Hsem.
  apply Hno. apply (ends_with_money_occurs symbol t g). apply (Hr _ _ _ _ Hsem).
Qed.

(** In "RK12AB34CD K?h100", where ? is the long s (U+017F), neither
    "Ksh" nor "KES" occurs in small or capital letters; the amount
    extractor returns 100 for it all the same, and [parse] reports
    success: when case is ignored the long s is taken for an s. *)
Lemma long_s_marker_gives_an_amount :
  ~ occurs_as either_case "Ksh" long_s_amount /\
  ~ occurs_as either_case "KES" long_s_amount /\
  MpesaParser.extract_amount long_s_amount
  = Ok (Some (double 7036874417766400 (-46))) /\
  exactly 100 (double 7036874417766400 (-46)) /\
  exists r,
    MpesaParser.parse 0 (chars "MPESA") long_s_amount = Ok r /\
    MpesaParser.parsed_successfully r = true.
Proof.
  split; [|split; [|split; [|split]]].
  - apply (no_char_no_word either_case "Ksh" _ "s"); [simpl; tauto|]. no_form.
  - apply (no_char_no_word either_case "KES" _ "E"); [simpl; tauto|]. no_form.
  - vm_compute. reflexivity.
  - eexists. split; [reflexivity|]. vm_compute. reflexivity.
  - eexists. split; [vm_compute; reflexivity|]. reflexivity.
Qed.

(** C9 (amended).  For every message in which neither "Ksh" nor "KES"
    occurs, whatever the case of their letters and with the long s
    (U+017F) counted as an s and the Kelvin sign (U+212A) as a k, the
    amount extractor returns nothing, and the record [parse] returns
    has no amount and [parsed_successfully] false. *)
Theorem no_currency_marker_no_amount (utcnow : Z) (sender message : str) :
  ~ occurs_as ignoring_case "Ksh" message ->
  ~ occurs_as ignoring_case "KES" message ->
  MpesaParser.extract_amount message = Ok None /\
  exists r,
    MpesaParser.parse utcnow sender message = Ok r /\
    MpesaParser.amount r = None /\
    MpesaParser.parsed_successfully r = false.
Proof.
  intros Hksh Hkes.
  assert (Hnone : MpesaParser.extract_amount message = Ok None).
  { apply first_float_none; [apply well_formed_amount|].
    unfold MpesaParser.amount_patterns.
    apply Forall_cons; [left|apply Forall_cons; [left|apply Forall_cons;
      [left|apply Forall_nil]]].
    - apply (no_marker_no_match _ Patterns.amount_1 "Ksh"); auto.
      apply sem_amount_1.
    - apply (no_marker_no_match _ Patterns.amount_2 "KES"); auto.
      apply sem_amount_2.
    - apply (no_marker_no_match _ Patterns.amount_3 "Ksh"); auto.
      apply sem_amount_3. }
  split; [exact Hnone|].
  destruct (parse_returns utcnow sender message)
    as (a & c & b & r & Ha & _ & _ & _ & H).
  rewrite Hnone in Ha. injection Ha as <-.
  eexists. split; [exact H|]. split; reflexivity.
Qed.

Lemma no_currency_marker_no_amount_witness :
  MpesaParser.extract_amount (chars "Hello, this is a test.") = Ok None /\
  exists r,
    MpesaParser.parse 0 (chars "MPESA") (chars "Hello, this is a test.") = Ok r /\
    MpesaParser.amount r = None /\
    MpesaParser.parsed_successfully r = false.
Proof.
  apply (no_currency_marker_no_amount 0 (chars "MPESA")
                                      (chars "Hello, this is a test.")).
  - apply (no_char_no_word ignoring_case "Ksh" _ "K"); [simpl; tauto|]. no_form.
  - apply (no_char_no_word ignoring_case "KES" _ "K"); [simpl; tauto|]. no_form.
Defined.
(* ------------------------------------------------------------------ *)
(** ** C10: no word "balance", no balance *)

Lemma balance_then_money_occurs (t : str) (g : list (nat * str))
      (before_t after_t : str) :
  balance_then_money t g ->
  occurs_as either_case "balance" (before_t ++ t ++ after_t).
Proof.
  intros (pre & bal & mid & cur & num & -> & Hbal & _).
  exists (before_t ++ pre), bal, (mid ++ cur ++ after_t).
  split; [assoc | exact Hbal].
Qed.

Lemma no_balance_no_match (pattern : string) (r : regex) (message : str) :
  compile pattern = Some r ->
  (forall bef t aft g, sem true r bef t aft g -> balance_then_money t g) ->
  ~ occurs_as either_case "balance" message ->
  no_match pattern message.
Proof.
  intros Hc Hr Hno. exists r. split; [exact Hc|].
  apply search_compiled_none. intros pre t post g -> Hsem.
  apply Hno. apply (balance_then_money_occurs t g). apply (Hr _ _ _ _ Hsem).
Qed.

(** The number a balance pattern converts stands in the message after
    the word "balance" and a later marker "Ksh". *)
Lemma converts_after_balance (pattern : string) (r : regex) (message : str)
      (v : PyFloat.float) :
  compile pattern = Some r ->
  (forall bef t aft g, sem true r bef t aft g -> balance_then_money t g) ->
  converts pattern message v ->
  exists pre bal mid ksh ws num post,
    message = pre ++ bal ++ mid ++ ksh ++ ws ++ num ++ post /\
    spells either_case "balance" bal /\
    (is_or_was mid \/ one_line mid) /\
    spells ignoring_case "Ksh" ksh /\
    Forall is_space ws /\
    number_text num /\
    PyFloat.float_of_str (remove "," num) = Ok v.
Proof.
  intros Hc Hr (r' & m & num & Hc' & Hs & Hg & Hf).
  assert (r' = r) by congruence. subst r'.
  apply search_compiled_some in Hs.
  destruct Hs as (pre & t & post & g & -> & _ & Hsem & Hgs & _).
  apply Hr in Hsem.
  destruct Hsem as (pre' & bal & mid & cur & num' & -> & Hbal & Hmid
                    & (ksh & ws & -> & Hksh & Hws & Hnum) & ->).
  unfold group in Hg. rewrite Hgs in Hg. simpl in Hg. injection Hg as ->.
  exists (pre ++ pre'), bal, mid, ksh, ws, num, post.
  split; [assoc|]. auto 10.
Qed.

(** *** A balance far from the word *)

Section FarBalance.
Local Open Scope N_scope.

(** What a literal of a pattern matches has a form of each of its
    characters. *)
Lemma lit_then_char (word : string) (r : regex) (c : ascii)
      (bef t aft : str) (g : list (nat * str)) :
  forallb (fun c => Unicode.code c <? 128) (Patterns.text word) = true ->
  In c (list_ascii_of_string word) ->
  sem true (Patterns.lit_then (Patterns.text word) r) bef t aft g ->
  exists x, In x t /\ ignoring_case c x.
Proof.
  intros Hw Hin H. apply sem_lit_then in H.
  destruct H as (found & t2 & -> & Hf & _).
  apply (same_text_spells word found Hw) in Hf.
  destruct (occurs_as_char ignoring_case word found c) as (x & Hx & Hs).
  - exists [], found, []. split; [symmetry; apply app_nil_r | exact Hf].
  - exact Hin.
  - exists x. split; [apply in_or_app; left; exact Hx | exact Hs].
Qed.

Lemma far_balance_no_form (n : nat) (c : ascii) :
  Forall (fun x => ~ ignoring_case c x) (chars "balanceKsh5") ->
  ~ ignoring_case c 120 ->
  Forall (fun x => ~ ignoring_case c x) (far_balance n).
Proof.
  intros H Hx. unfold far_balance.
  change (chars "balanceKsh5") with (chars "balance" ++ chars "Ksh5") in H.
  apply Forall_app in H. destruct H as (H1 & H2).
  apply Forall_app. split; [exact H1|]. apply Forall_app. split; [|exact H2].
  apply Forall_forall. intros x Hin. apply repeat_spec in Hin. subst x. exact Hx.
Qed.

Lemma far_balance_no_match (n : nat) (word : string) (r : regex) (c : ascii) :
  forallb (fun c => Unicode.code c <? 128) (Patterns.text word) = true ->
  In c (list_ascii_of_string word) ->
  Forall (fun x => ~ ignoring_case c x) (chars "balanceKsh5") ->
  ~ ignoring_case c 120 ->
  search_compiled true (Patterns.lit_then (Patterns.text word) r) (far_balance n)
  = None.
Proof.
  intros Hw Hin H Hx. apply search_compiled_none.
  intros pre t post g Heq Hsem.
  destruct (lit_then_char word r c _ _ _ _ Hw Hin Hsem) as (x & Hxt & Hs).
  pose proof (far_balance_no_form n c H Hx) as Hall.
  rewrite Forall_forall in Hall. apply (Hall x); [|exact Hs].
  rewrite Heq. apply in_or_app. right. apply in_or_app. left. exact Hxt.
Qed.

(** A lazy [.*?] passes over the places where what follows it finds
    nothing. *)
Lemma run_lazy_any_skip (r : regex) (x : N) (n : nat) :
  x <> 10 ->
  (forall bef rest g,
      run true r {| before := bef; after := x :: rest; groups := g |} = []) ->
  forall bef tail g,
    run true (Seq (Patterns.lazy_star AnyChar) r)
        {| before := bef; after := repeat x n ++ tail; groups := g |}
    = run true (Seq (Patterns.lazy_star AnyChar) r)
          {| before := repeat x n ++ bef; after := tail; groups := g |}.
Proof.
  intros Hx Hr. induction n as [|n IH]; intros bef tail g; [reflexivity|].
  replace (repeat x (S n) ++ bef) with (repeat x n ++ x :: bef).
  2:{ cbn [repeat]. rewrite (repeat_cons n x), <- app_assoc. reflexivity. }
  rewrite <- IH.
  unfold Patterns.lazy_star.
  cbn [repeat app run before after groups repeat_atom may_repeat andb
       option_map pred].
  replace (atom_match true AnyChar x) with true
    by (symmetry; apply match_any; exact Hx).
  cbn [app map flat_map fst snd]. rewrite Hr. reflexivity.
Qed.

(** Whatever the number of letters between the word and the marker,
    the balance of [far_balance] is 5. *)
Lemma far_balance_extract (n : nat) :
  MpesaParser.extract_balance (far_balance n)
  = Ok (Some (double 5629499534213120 (-50))).
Proof.
  unfold MpesaParser.extract_balance, MpesaParser.balance_patterns.
  cbn [MpesaParser.first_float]. unfold ReApi.search.
  change (compile "balance (?:is|was)\s+Ksh\s*([\d,]+\.?\d*)")
    with (Some Patterns.balance_1).
  change (compile "New.*?balance.*?Ksh\s*([\d,]+\.?\d*)")
    with (Some Patterns.balance_2).
  change (compile "balance.*?Ksh\s*([\d,]+\.?\d*)")
    with (Some Patterns.balance_3).
  cbn [bind].
  unfold Patterns.balance_1, Patterns.balance_2.
  rewrite (far_balance_no_match n "balance " _ " ");
    [|below_128 | simpl; tauto | no_form
     | intros H; vm_compute in H; intuition discriminate].
  rewrite (far_balance_no_match n "New" _ "w");
    [|below_128 | simpl; tauto | no_form
     | intros H; vm_compute in H; intuition discriminate].
  assert (Hrun : exists st more,
             run true Patterns.balance_3
                 {| before := []; after := far_balance n; groups := [] |}
             = st :: more /\ groups st = [(1%nat, chars "5")]).
  { unfold Patterns.balance_3, far_balance.
    rewrite run_lit_then
      by (repeat (apply Forall2_cons; [vm_compute; reflexivity|]);
          apply Forall2_nil).
    rewrite run_lazy_any_skip.
    - generalize (repeat 120 n ++ rev (chars "balance") ++ []). intros bef.
      eexists. eexists. split; [vm_compute; reflexivity|]. reflexivity.
    - discriminate.
    - intros bef rest g. apply run_lit_then_none.
      intros y rest' [= <- _]. vm_compute. reflexivity. }
  destruct Hrun as (st & more & Hrun & Hg).
  unfold search_compiled. rewrite (search_from_here _ _ _ _ _ _ Hrun).
  unfold group. cbn [m_final]. rewrite Hg.
  cbn [lookup Nat.eqb MpesaParser.method bind].
  replace (PyFloat.float_of_str (remove "," (chars "5")))
    with (Ok (double 5629499534213120 (-50))) by (vm_compute; reflexivity).
  reflexivity.
Qed.

(** A text that ends where a run of one letter begins. *)
Lemma before_repeat (l1 l2 l3 : str) (c x : N) (n : nat) :
  l1 ++ c :: l2 = repeat x n ++ l3 -> c <> x -> (n <= List.length l1)%nat.
Proof.
  revert l1. induction n as [|n IH]; intros l1 H Hc; [lia|].
  destruct l1 as [|y l1]; simpl in H.
  - injection H as -> _. congruence.
  - injection H as _ H. apply IH in H; [simpl; lia | exact Hc].
Qed.

(** In [far_balance] the marker is more than [n - 1] characters after
    the word. *)
Lemma far_balance_not_within (bound : nat) :
  ~ balance_within bound (far_balance (S bound)).
Proof.
  intros (pre & bal & mid & rest & Heq & Hbal & Hlen & k & tail & -> & Hk).
  pose proof (spells_length _ _ _ Hbal) as Hl. simpl in Hl.
  unfold spells in Hbal, Hk. simpl in Hbal, Hk.
  inversion Hbal as [|? b0 ? bal' Hb0 _]; subst.
  inversion Hk as [|? k0 ? k' Hk0 _]; subst.
  (* the word is at the start of the message *)
  assert (pre = []) as ->.
  { destruct pre as [|p pre]; [reflexivity|exfalso].
    unfold far_balance in Heq. cbn [app chars map list_ascii_of_string] in Heq.
    injection Heq as _ Heq.
    assert (Hin : In b0 (pre ++ b0 :: bal' ++ mid ++ k0 :: k' ++ tail))
      by (apply in_or_app; right; left; reflexivity).
    rewrite <- Heq in Hin.
    repeat (destruct Hin as [Hin|Hin];
            [subst b0; vm_compute in Hb0; intuition discriminate|]).
    apply in_app_or in Hin. destruct Hin as [Hin|Hin].
    - apply repeat_spec in Hin. subst b0. vm_compute in Hb0.
      intuition discriminate.
    - repeat (destruct Hin as [Hin|Hin];
              [subst b0; vm_compute in Hb0; intuition discriminate|]).
      destruct Hin. }
  (* the marker is after the run of letters *)
  destruct bal' as [|b1 [|b2 [|b3 [|b4 [|b5 [|b6 [|]]]]]]]; try discriminate Hl.
  unfold far_balance in Heq. cbn [app chars map list_ascii_of_string] in Heq.
  injection Heq as _ _ _ _ _ _ _ Heq. symmetry in Heq.
  change (Unicode.code "x" :: repeat (Unicode.code "x") bound
                       ++ [Unicode.code "K"; Unicode.code "s";
                           Unicode.code "h"; Unicode.code "5"])
    with (repeat (Unicode.code "x") (S bound) ++ chars "Ksh5") in Heq.
  apply (before_repeat mid (k' ++ tail) (chars "Ksh5") k0 120 (S bound)) in Heq;
    [lia|].
  intros ->. vm_compute in Hk0. intuition discriminate.
Qed.

End FarBalance.

(** The balance of a message that tells of a failed balance enquiry
    and then of a payment of Ksh500.00 is 500, the amount of the
    payment.  No number of characters bounds the distance between the
    word "balance" and the marker of the number the extractor returns:
    the balance of "balance", however many letters x, "Ksh5" is 5. *)
Lemma balance_is_not_anchored_near :
  (exists v,
      MpesaParser.extract_balance enquiry_failed = Ok (Some v) /\
      MpesaParser.extract_amount enquiry_failed = Ok (Some v) /\
      exactly 500 v) /\
  ~ exists bound,
      forall message v,
        MpesaParser.extract_balance message = Ok (Some v) ->
        balance_within bound message.
Proof.
  split.
  - eexists. split; [vm_compute; reflexivity|].
    split; [vm_compute; reflexivity|].
    eexists. split; [reflexivity|]. vm_compute. reflexivity.
  - intros (bound & H).
    apply (far_balance_not_within bound).
    apply (H _ _ (far_balance_extract (S bound))).
Qed.

(** C10 (amended).  For every message in which the word "balance" does
    not occur, whatever the case of its letters, the balance extractor
    returns nothing.  A balance it returns is the float of a number
    text (commas removed) that stands in the message after an
    occurrence of "balance" and, later, of the marker "Ksh" (the case
    of its letters ignored) and optional spaces: between the word and
    the marker stands " is" or " was" and white space, or any text
    without a line feed, of whatever length. *)
Theorem balance_needs_the_word_balance (message : str) :
  (~ occurs_as either_case "balance" message ->
   MpesaParser.extract_balance message = Ok None) /\
  (forall v,
      MpesaParser.extract_balance message = Ok (Some v) ->
      exists pre bal mid ksh ws num post,
        message = pre ++ bal ++ mid ++ ksh ++ ws ++ num ++ post /\
        spells either_case "balance" bal /\
        (is_or_was mid \/ one_line mid) /\
        spells ignoring_case "Ksh" ksh /\
        Forall is_space ws /\
        number_text num /\
        PyFloat.float_of_str (remove "," num) = Ok v).
Proof.
  split.
  - intros Hno. apply first_float_none; [apply well_formed_balance|].
    unfold MpesaParser.balance_patterns.
    apply Forall_cons; [left|apply Forall_cons; [left|apply Forall_cons;
      [left|apply Forall_nil]]].
    + apply (no_balance_no_match _ Patterns.balance_1); auto.
      apply sem_balance_1.
    + apply (no_balance_no_match _ Patterns.balance_2); auto.
      apply sem_balance_2.
    + apply (no_balance_no_match _ Patterns.balance_3); auto.
      apply sem_balance_3.
  - intros v H.
    apply (first_float_some _ _ v well_formed_balance) in H.
    destruct H as (l1 & p & l2 & Heq & Hconv & _).
    assert (Hin : In p MpesaParser.balance_patterns).
    { rewrite Heq. apply in_or_app. right. left. reflexivity. }
    destruct Hin as [<-|[<-|[<-|[]]]].
    + refine (converts_after_balance _ Patterns.balance_1 _ _ _
                                     sem_balance_1 Hconv).
      reflexivity.
    + refine (converts_after_balance _ Patterns.balance_2 _ _ _
                                     sem_balance_2 Hconv).
      reflexivity.
    + refine (converts_after_balance _ Patterns.balance_3 _ _ _
                                     sem_balance_3 Hconv).
      reflexivity.
Qed.

Lemma balance_needs_the_word_balance_witness :
  MpesaParser.extract_balance (chars "You have sent Ksh500.00 to JOHN DOE.")
  = Ok None.
Proof.
  apply (balance_needs_the_word_balance
           (chars "You have sent Ksh500.00 to JOHN DOE.")).
  apply (no_char_no_word either_case "balance" _ "b"); [simpl; tauto|]. no_form.
Defined.
(* ------------------------------------------------------------------ *)
(** ** C8: the sign and the size of the monetary fields *)

(** A number of 310 digits is beyond the binary64 range: its float is
    the positive infinity, and that is the amount [parse] returns. *)
Lemma amount_can_be_infinite :
  exists r,
    MpesaParser.parse 0 (chars "MPESA") huge_amount = Ok r /\
    MpesaParser.amount r = Some (S754_infinity false) /\
    PyFloat.is_infinite (S754_infinity false) = true.
Proof.
  eexists. split; [vm_compute; reflexivity|]. split; reflexivity.
Qed.

Lemma balance_can_be_infinite :
  exists r,
    MpesaParser.parse 0 (chars "MPESA") huge_balance = Ok r /\
    MpesaParser.balance r = Some (S754_infinity false).
Proof.
  eexists. split; [vm_compute; reflexivity|]. reflexivity.
Qed.

(** *** Numbers of moderate size have a finite float *)

Section FiniteRounding.
Local Open Scope Z_scope.

Lemma digits2_pos_size (p : positive) : digits2_pos p = Pos.size p.
Proof. induction p; simpl; congruence. Qed.

Lemma Zdigits2_nonneg (z : Z) : 0 <= Zdigits2 z.
Proof. destruct z; simpl; lia. Qed.

(** A non-negative number below [2^k] has at most [k] binary digits. *)
Lemma Zdigits2_le (z k : Z) : 0 <= z < 2 ^ k -> 0 <= k -> Zdigits2 z <= k.
Proof.
  intros (Hz & Hlt) Hk. destruct z as [|p|p]; simpl; try lia.
  rewrite digits2_pos_size.
  pose proof (Pos.size_le p) as Hle.
  destruct (Z.le_gt_cases (Zpos (Pos.size p)) k) as [|Hgt]; [assumption|exfalso].
  assert (H2 : 2 ^ (k + 1) <= 2 ^ Zpos (Pos.size p)).
  { apply Z.pow_le_mono_r; lia. }
  assert (H3 : 2 ^ Zpos (Pos.size p) <= Zpos p~0).
  { rewrite <- Pos2Z.inj_pow. apply Pos2Z.pos_le_pos. exact Hle. }
  rewrite Z.pow_add_r in H2 by lia. lia.
Qed.

(** A non-negative number is below 2 to the number of its binary
    digits. *)
Lemma Zdigits2_gt (z : Z) : 0 <= z -> z < 2 ^ Zdigits2 z.
Proof.
  intros Hz. destruct z as [|p|p]; [reflexivity| |lia].
  unfold Zdigits2. rewrite digits2_pos_size, <- Pos2Z.inj_pow.
  apply Pos2Z.pos_lt_pos. apply Pos.size_gt.
Qed.

Lemma shr_1_digits (mrs : shr_record) (d : Z) :
  0 <= shr_m mrs -> Zdigits2 (shr_m mrs) <= d ->
  0 <= shr_m (shr_1 mrs) /\ Zdigits2 (shr_m (shr_1 mrs)) <= Z.max (d - 1) 0.
Proof.
  destruct mrs as [m r s]. simpl.
  destruct m as [|[p|p|]|p]; simpl; lia.
Qed.

Lemma iter_shr_1_digits (p : positive) :
  forall mrs d,
    0 <= shr_m mrs -> Zdigits2 (shr_m mrs) <= d ->
    0 <= shr_m (iter_pos shr_1 p mrs) /\
    Zdigits2 (shr_m (iter_pos shr_1 p mrs)) <= Z.max (d - Zpos p) 0.
Proof.
  induction p as [p IH|p IH|]; intros mrs d Hm Hd; simpl.
  - destruct (shr_1_digits mrs d Hm Hd) as (H0 & H1).
    destruct (IH _ _ H0 H1) as (H2 & H3).
    destruct (IH _ _ H2 H3) as (H4 & H5). split; [assumption|]. lia.
  - destruct (IH _ _ Hm Hd) as (H2 & H3).
    destruct (IH _ _ H2 H3) as (H4 & H5). split; [assumption|]. lia.
  - apply shr_1_digits; assumption.
Qed.

Lemma shr_fexp_bounds (m e : Z) (l : location) :
  0 <= m ->
  let r := shr_fexp PyFloat.prec PyFloat.emax m e l in
  0 <= shr_m (fst r) /\
  snd r = Z.max e (fexp PyFloat.prec PyFloat.emax (Zdigits2 m + e)) /\
  Zdigits2 (shr_m (fst r)) + snd r <= Z.max (Zdigits2 m + e) (snd r).
Proof.
  intros Hm. unfold shr_fexp, shr.
  set (mrs := shr_record_of_loc m l).
  assert (Hmrs : shr_m mrs = m) by (unfold mrs; destruct l as [|[]]; reflexivity).
  pose proof (Zdigits2_nonneg m) as Hd.
  destruct (fexp PyFloat.prec PyFloat.emax (Zdigits2 m + e) - e) as [|p|p] eqn:Hn; simpl.
  - rewrite Hmrs. repeat split; lia.
  - destruct (iter_shr_1_digits p mrs (Zdigits2 m)) as (H1 & H2);
      [rewrite Hmrs; lia | rewrite Hmrs; lia |].
    repeat split; lia.
  - rewrite Hmrs. repeat split; lia.
Qed.

Lemma round_nearest_even_digits (m : Z) (l : location) :
  0 <= m ->
  0 <= round_nearest_even m l /\
  Zdigits2 (round_nearest_even m l) <= Zdigits2 m + 1.
Proof.
  intros Hm. split; [apply round_nearest_even_nonneg; exact Hm|].
  pose proof (Zdigits2_gt m Hm) as Hgt.
  pose proof (Zdigits2_nonneg m) as Hd.
  apply Zdigits2_le; [|lia].
  assert (Hle : round_nearest_even m l <= m + 1).
  { destruct l as [|[]]; simpl; try lia. destruct (Z.even m); lia. }
  pose proof (round_nearest_even_nonneg m l Hm).
  rewrite Z.pow_add_r by lia. lia.
Qed.

(** Rounding a number below [2^1023] does not overflow. *)
Lemma binary_round_aux_finite (s : bool) (mx ex : Z) (lx : location) :
  0 <= mx -> ex <= 0 -> Zdigits2 mx + ex <= 1023 ->
  PyFloat.is_infinite (binary_round_aux PyFloat.prec PyFloat.emax s mx ex lx) = false.
Proof.
  intros Hm He Hd. unfold binary_round_aux.
  pose proof (shr_fexp_bounds mx ex lx Hm) as H1. cbv zeta in H1.
  destruct (shr_fexp PyFloat.prec PyFloat.emax mx ex lx) as [mrs' e']. simpl in H1.
  destruct H1 as (Hm1 & He1 & Hd1).
  destruct (round_nearest_even_digits (shr_m mrs') (loc_of_shr_record mrs') Hm1)
    as (Hmr & Hdr).
  pose proof (shr_fexp_bounds _ e' loc_Exact Hmr) as H2. cbv zeta in H2.
  destruct (shr_fexp PyFloat.prec PyFloat.emax _ e' loc_Exact) as [mrs'' e'']. simpl in H2.
  destruct H2 as (Hm2 & He2 & _).
  unfold fexp, emin, PyFloat.prec, PyFloat.emax in *.
  destruct (shr_m mrs'') as [|m|m]; [reflexivity| |reflexivity].
  destruct (e'' <=? 1024 - 53) eqn:Hle; [reflexivity|].
  apply Z.leb_gt in Hle. lia.
Qed.

Lemma SFdiv_finite (mx my : positive) :
  Zpos mx < 2 ^ 1023 ->
  PyFloat.is_infinite
    (SFdiv PyFloat.prec PyFloat.emax (S754_finite false mx 0) (S754_finite false my 0)) = false.
Proof.
  intros Hmx. unfold SFdiv, SFdiv_core_binary.
  set (e' := Z.min _ _).
  assert (He' : e' <= 0) by (unfold e'; lia).
  set (m' := match 0 - 0 - e' with Z0 => _ | _ => _ end).
  assert (Hm' : m' = Zpos mx * 2 ^ (- e')).
  { unfold m'. replace (0 - 0 - e') with (- e') by lia.
    destruct (- e') as [|p|p] eqn:Hs; try lia.
    rewrite Z.shiftl_mul_pow2 by lia. reflexivity. }
  pose proof (Z_div_mod m' (Zpos my) eq_refl) as Hdiv.
  destruct (Z.div_eucl m' (Zpos my)) as [q r].
  assert (Hpow : 0 < 2 ^ (- e')) by (apply Z.pow_pos_nonneg; lia).
  assert (Hq : 0 <= q) by nia.
  assert (Hqle : q <= m') by nia.
  apply binary_round_aux_finite; auto.
  assert (Hlt : q < 2 ^ (1023 - e')).
  { replace (1023 - e') with (1023 + - e') by lia.
    rewrite Z.pow_add_r by lia. nia. }
  pose proof (Zdigits2_le q (1023 - e')). lia.
Qed.

Lemma of_decimal_finite (digits e10 : Z) :
  digits < 2 ^ 1023 -> e10 <= 0 ->
  PyFloat.is_infinite (PyFloat.of_decimal false digits e10) = false.
Proof.
  intros Hd He. unfold PyFloat.of_decimal.
  destruct digits as [|m|m]; simpl; auto.
  destruct (0 <=? e10) eqn:H0.
  - apply Z.leb_le in H0. assert (e10 = 0) by lia. subst e10.
    apply SFdiv_finite. simpl. rewrite Pos.mul_1_r. exact Hd.
  - apply SFdiv_finite. exact Hd.
Qed.

End FiniteRounding.

Section NumberValue.
Local Open Scope Z_scope.

Lemma digit_value_range (c : N) :
  PyFloat.isdigit c = true -> 0 <= PyFloat.digit_value c <= 9.
Proof.
  unfold PyFloat.isdigit, PyFloat.digit_value. intros H.
  apply andb_true_iff in H. destruct H as (H1 & H2).
  apply N.leb_le in H1, H2. lia.
Qed.

Lemma numeric_not_digit (c : N) :
  numeric_09 c = true -> PyFloat.isdigit c = false -> c = 46%N.
Proof.
  unfold numeric_09. intros H Hd. rewrite Hd in H. simpl in H.
  apply N.eqb_eq in H. exact H.
Qed.

(** Read on a text of digits and points, [digits_tail] takes the
    digits at the head of the text and counts them. *)
Lemma digits_tail_numeric (s : str) :
  forall acc n m n' r,
    Forall (fun c => numeric_09 c = true) s ->
    PyFloat.digits_tail acc n s = (m, n', r) ->
    0 <= acc ->
    exists used,
      s = used ++ r /\
      0 <= m /\ m + 1 <= (acc + 1) * 10 ^ Z.of_nat (List.length used) /\
      n <= n'.
Proof.
  induction s as [|c s IH]; intros acc n m n' r Hs H Hacc.
  - simpl in H. injection H as <- <- <-. exists []. simpl. repeat split; lia.
  - inversion Hs as [|? ? Hc Hs']; subst. cbn [PyFloat.digits_tail] in H.
    destruct (PyFloat.isdigit c) eqn:Hd.
    + pose proof (digit_value_range c Hd) as Hv.
      apply IH in H; [|assumption|lia].
      destruct H as (used & -> & Hm & Hb & Hn).
      exists (c :: used). simpl List.length. rewrite Nat2Z.inj_succ.
      rewrite Z.pow_succ_r by lia. repeat split; auto; try lia.
      assert (0 < 10 ^ Z.of_nat (List.length used))
        by (apply Z.pow_pos_nonneg; lia).
      nia.
    + pose proof (numeric_not_digit c Hc Hd) as Hp. subst c.
      change (46 =? Unicode.code "_")%N with false in H.
      injection H as <- <- <-. exists []. simpl. repeat split; lia.
Qed.

Lemma digitpart_numeric (s : str) (acc n m n' : Z) (r : str) :
  Forall (fun c => numeric_09 c = true) s ->
  PyFloat.digitpart acc n s = Some (m, n', r) ->
  0 <= acc ->
  exists used,
    s = used ++ r /\
    0 <= m /\ m + 1 <= (acc + 1) * 10 ^ Z.of_nat (List.length used) /\
    n < n'.
Proof.
  intros Hs H Hacc. destruct s as [|c s]; [discriminate|].
  inversion Hs as [|? ? Hc Hs']; subst. unfold PyFloat.digitpart in H.
  destruct (PyFloat.isdigit c) eqn:Hd; [|discriminate].
  pose proof (digit_value_range c Hd) as Hv.
  destruct (PyFloat.digits_tail (10 * acc + PyFloat.digit_value c) (n + 1) s)
    as [[m0 n0] r0] eqn:Ht.
  injection H as <- <- <-.
  apply digits_tail_numeric in Ht; [|assumption|lia].
  destruct Ht as (used & -> & Hm & Hb & Hn).
  exists (c :: used). simpl List.length. rewrite Nat2Z.inj_succ.
  rewrite Z.pow_succ_r by lia. repeat split; auto; try lia.
  assert (0 < 10 ^ Z.of_nat (List.length used))
    by (apply Z.pow_pos_nonneg; lia).
  nia.
Qed.

Lemma numeric_suffix (used r : str) :
  Forall (fun c => numeric_09 c = true) (used ++ r) ->
  Forall (fun c => numeric_09 c = true) r.
Proof. intros H. apply Forall_app in H. tauto. Qed.

Lemma after_char_some (c : ascii) (s r : str) :
  PyFloat.after_char c s = Some r -> s = Unicode.code c :: r.
Proof.
  unfold PyFloat.after_char. destruct s as [|x s]; [discriminate|].
  destruct (x =? Unicode.code c)%N eqn:E; [|discriminate].
  apply N.eqb_eq in E. intros [= <-]. congruence.
Qed.

Lemma number_numeric (s : str) (m k : Z) (r : str) :
  Forall (fun c => numeric_09 c = true) s ->
  PyFloat.number s = Some (m, k, r) ->
  m < 10 ^ Z.of_nat (List.length s) /\ 0 <= k /\
  Forall (fun c => numeric_09 c = true) r.
Proof.
  intros Hs. unfold PyFloat.number.
  destruct (PyFloat.digitpart 0 0 s) as [[[i ni] r1]|] eqn:Hint.
  - apply digitpart_numeric in Hint; [|assumption|lia].
    destruct Hint as (u1 & -> & Hi & Hbi & _).
    pose proof (numeric_suffix _ _ Hs) as Hr1.
    assert (Hp1 : 0 < 10 ^ Z.of_nat (List.length u1))
      by (apply Z.pow_pos_nonneg; lia).
    assert (Hwhole : forall rest,
               i < 10 ^ Z.of_nat (List.length (u1 ++ rest))).
    { intros rest. rewrite length_app, Nat2Z.inj_add, Z.pow_add_r by lia.
      assert (0 < 10 ^ Z.of_nat (List.length rest))
        by (apply Z.pow_pos_nonneg; lia).
      nia. }
    destruct (PyFloat.after_char "." r1) as [r'|] eqn:Hdot.
    + apply after_char_some in Hdot. subst r1.
      inversion Hr1 as [|? ? _ Hr']; subst.
      destruct (PyFloat.digitpart i 0 r') as [[[m' k'] r'']|] eqn:Hfrac.
      * intros [= <- <- <-].
        apply digitpart_numeric in Hfrac; [|assumption|lia].
        destruct Hfrac as (u2 & -> & Hm & Hbm & Hk).
        split; [|split; [lia | apply (numeric_suffix _ _ Hr')]].
        rewrite !length_app. simpl List.length. rewrite length_app.
        rewrite !Nat2Z.inj_add, Nat2Z.inj_succ, Nat2Z.inj_add.
        assert (Hp2 : 0 < 10 ^ Z.of_nat (List.length u2))
          by (apply Z.pow_pos_nonneg; lia).
        assert (Hp3 : 0 < 10 ^ Z.of_nat (List.length r''))
          by (apply Z.pow_pos_nonneg; lia).
        rewrite Z.pow_add_r, Z.pow_succ_r, Z.pow_add_r by lia.
        set (A := 10 ^ Z.of_nat (List.length u1)) in *.
        set (B := 10 ^ Z.of_nat (List.length u2)) in *.
        set (C := 10 ^ Z.of_nat (List.length r'')) in *.
        assert (H1 : (i + 1) * B <= A * B) by (apply Z.mul_le_mono_nonneg_r; lia).
        assert (H2 : B <= 10 * (B * C)) by nia.
        assert (H3 : A * B <= A * (10 * (B * C)))
          by (apply Z.mul_le_mono_nonneg_l; lia).
        lia.
      * intros [= <- <- <-]. repeat split; auto; lia.
    + intros [= <- <- <-]. repeat split; auto; lia.
  - destruct (PyFloat.after_char "." s) as [r'|] eqn:Hdot; [|discriminate].
    apply after_char_some in Hdot. subst s.
    inversion Hs as [|? ? _ Hr']; subst. intros Hfrac.
    apply digitpart_numeric in Hfrac; [|assumption|lia].
    destruct Hfrac as (u2 & -> & Hm & Hbm & Hk).
    split; [|split; [lia | apply (numeric_suffix _ _ Hr')]].
    simpl List.length. rewrite length_app, Nat2Z.inj_succ, Nat2Z.inj_add.
    assert (Hp2 : 0 < 10 ^ Z.of_nat (List.length u2))
      by (apply Z.pow_pos_nonneg; lia).
    assert (Hp3 : 0 < 10 ^ Z.of_nat (List.length r))
      by (apply Z.pow_pos_nonneg; lia).
    rewrite Z.pow_succ_r, Z.pow_add_r by lia. nia.
Qed.

Lemma exponent_numeric (r : str) :
  Forall (fun c => numeric_09 c = true) r -> PyFloat.exponent r = (0, r).
Proof.
  destruct 1 as [|c r Hc _]; [reflexivity|]. unfold PyFloat.exponent.
  apply numeric_09_facts in Hc.
  replace ((c =? Unicode.code "e") || (c =? Unicode.code "E"))%N with false;
    [reflexivity|].
  symmetry. apply orb_false_iff.
  change (Unicode.code "e") with 101%N. change (Unicode.code "E") with 69%N.
  split; apply N.eqb_neq; lia.
Qed.

(** The float of a text of digits and points is the rounding of a
    number below 10 to the length of the text. *)
Lemma float_of_numeric_decimal (s : str) (f : PyFloat.float) :
  Forall (fun c => numeric_char c = true) s ->
  PyFloat.float_of_str s = Ok f ->
  exists m k,
    f = PyFloat.of_decimal false m (0 - k) /\
    m < 10 ^ Z.of_nat (List.length s) /\ 0 <= k.
Proof.
  intros Hs. unfold PyFloat.float_of_str.
  destruct (to_ascii_numeric s Hs) as (a & -> & Hlen & Ha).
  rewrite (numeric_strip a Ha), (numeric_sign a Ha).
  unfold PyFloat.absfloatvalue.
  rewrite (numeric_not_word a "inf" "i" "nf" Ha eq_refl) by (vm_compute; discriminate).
  rewrite (numeric_not_word a "infinity" "i" "nfinity" Ha eq_refl)
    by (vm_compute; discriminate).
  rewrite (numeric_not_word a "nan" "n" "an" Ha eq_refl) by (vm_compute; discriminate).
  destruct (PyFloat.number a) as [[[m k] r]|] eqn:Hnum; [|discriminate].
  apply number_numeric in Hnum; [|assumption].
  destruct Hnum as (Hm & Hk & Hr).
  rewrite (exponent_numeric r Hr).
  destruct r; [|discriminate]. intros [= <-]. exists m, k.
  rewrite <- Hlen. auto.
Qed.

Lemma float_of_numeric_finite (s : str) (f : PyFloat.float) :
  Forall (fun c => numeric_char c = true) s ->
  (List.length s <= 307)%nat ->
  PyFloat.float_of_str s = Ok f ->
  PyFloat.is_infinite f = false.
Proof.
  intros Hs Hlen Hf.
  destruct (float_of_numeric_decimal s f Hs Hf) as (m & k & -> & Hm & Hk).
  apply of_decimal_finite; [|lia].
  assert (H1 : 10 ^ Z.of_nat (List.length s) <= 10 ^ 307)
    by (apply Z.pow_le_mono_r; lia).
  assert (H2 : 10 ^ 307 < 2 ^ 1023) by reflexivity.
  lia.
Qed.

End NumberValue.

Lemma remove_length (c : ascii) (s : str) :
  List.length (remove c s) <= List.length s.
Proof. unfold remove. apply filter_length_le. Qed.

(** On a message of at most 307 characters, a float the loop returns is
    finite. *)
Lemma first_float_finite (patterns : list string) (message : str)
      (v : PyFloat.float) :
  well_formed patterns ->
  List.length message <= 307 ->
  MpesaParser.first_float patterns message = Ok (Some v) ->
  PyFloat.is_infinite v = false.
Proof.
  intros Hwf Hlen H. pose proof Hwf as Hwf'.
  apply (first_float_some message _ v) in Hwf'. apply Hwf' in H.
  destruct H as (l1 & p & l2 & -> & (r & m & num & Hc & Hs & Hg & Hf) & _).
  apply Forall_app in Hwf. destruct Hwf as (_ & Hwf).
  inversion Hwf as [|? ? (r' & Hc' & Hr') _]; subst.
  assert (r' = r) by congruence. subst r'.
  destruct (search_captures _ _ _ Hr' Hs) as (num' & Hg' & Hnum & Hnlen).
  assert (num' = num) by congruence. subst num'.
  apply (float_of_numeric_finite _ _ (number_text_numeric _ Hnum)); auto.
  pose proof (remove_length "," num). lia.
Qed.

(** C8 (amended).  For every message, an amount or a balance of the
    record [parse] returns is a binary64 number that is not NaN and is
    not negative (its sign bit is clear); it is finite when the message
    has at most 307 characters.  Longer messages can carry a number
    beyond the binary64 range, whose float is the positive infinity. *)
Theorem money_fields_not_negative_not_nan (utcnow : Z) (sender message : str) :
  exists r,
    MpesaParser.parse utcnow sender message = Ok r /\
    forall f,
      MpesaParser.amount r = Some f \/ MpesaParser.balance r = Some f ->
      PyFloat.is_nan f = false /\
      PyFloat.signbit f = false /\
      (List.length message <= 307 -> PyFloat.is_infinite f = false).
Proof.
  destruct (parse_returns utcnow sender message)
    as (a & c & b & r & Ha & _ & Hb & _ & H).
  eexists. split; [exact H|]. simpl.
  intros f [-> | ->].
  - destruct (first_float_sign _ _ _ well_formed_amount Ha) as (Hnan & Hsign).
    repeat split; auto. intros Hlen.
    apply (first_float_finite _ _ _ well_formed_amount Hlen Ha).
  - destruct (first_float_sign _ _ _ well_formed_balance Hb) as (Hnan & Hsign).
    repeat split; auto. intros Hlen.
    apply (first_float_finite _ _ _ well_formed_balance Hlen Hb).
Qed.

Lemma money_fields_not_negative_not_nan_witness :
  exists r,
    MpesaParser.parse 0 (chars "MPESA") scenario_sent = Ok r /\
    forall f,
      MpesaParser.amount r = Some f \/ MpesaParser.balance r = Some f ->
      PyFloat.is_nan f = false /\
      PyFloat.signbit f = false /\
      PyFloat.is_infinite f = false.
Proof.
  destruct (money_fields_not_negative_not_nan 0 (chars "MPESA") scenario_sent)
    as (r & Hr & H).
  exists r. split; [exact Hr|]. intros f Hf.
  destruct (H f Hf) as (H1 & H2 & H3). repeat split; auto.
  apply H3. vm_compute. lia.
Defined.


(* ================================================================== *)
(** * Further properties of the parser *)

Import Shapes.

(* ------------------------------------------------------------------ *)
(** ** Deciding whether a word occurs *)

Lemma either_case_b_spec (c : ascii) (x : N) :
  either_case_b c x = true <-> either_case c x.
Proof.
  unfold either_case_b, either_case.
  rewrite orb_true_iff, !N.eqb_eq. reflexivity.
Qed.

Lemma ignoring_case_b_spec (c : ascii) (x : N) :
  ignoring_case_b c x = true <-> ignoring_case c x.
Proof.
  unfold ignoring_case_b, ignoring_case.
  rewrite orb_true_iff, either_case_b_spec, existsb_eqb. reflexivity.
Qed.

Lemma spelled_at_spec (same_b : ascii -> N -> bool) (same : ascii -> N -> Prop)
      (word : list ascii) :
  (forall c x, same_b c x = true <-> same c x) ->
  forall s,
    spelled_at same_b word s = true <->
    exists found rest, s = found ++ rest /\ Forall2 same word found.
Proof.
  intros Hsame. induction word as [|c word IH]; intros s; simpl.
  - split; [intros _; exists [], s; auto | reflexivity].
  - destruct s as [|x s].
    + split; [discriminate|]. intros (found & rest & H & HF).
      inversion HF; subst. discriminate.
    + rewrite andb_true_iff, Hsame, IH. split.
      * intros (Hx & found & rest & -> & HF). exists (x :: found), rest. auto.
      * intros (found & rest & H & HF). inversion HF; subst.
        injection H as -> ->. eauto.
Qed.

Lemma spelled_in_spec (same_b : ascii -> N -> bool) (same : ascii -> N -> Prop)
      (word : string) (hay : str) :
  (forall c x, same_b c x = true <-> same c x) ->
  (spelled_in same_b (list_ascii_of_string word) hay = true <->
   occurs_as same word hay).
Proof.
  intros Hsame. unfold occurs_as, spells.
  generalize (list_ascii_of_string word). intros w.
  induction hay as [|x hay IH]; simpl.
  - rewrite orb_false_r, (spelled_at_spec same_b same w Hsame). split.
    + intros (found & rest & H & HF). exists [], found, rest. auto.
    + intros (pre & found & post & H & HF).
      destruct pre; [|discriminate]. simpl in H. eauto.
  - rewrite orb_true_iff, (spelled_at_spec same_b same w Hsame), IH. split.
    + intros [(found & rest & H & HF) | (pre & found & post & -> & HF)].
      * exists [], found, rest. auto.
      * exists (x :: pre), found, post. auto.
    + intros (pre & found & post & H & HF). destruct pre as [|y pre].
      * left. simpl in H. eauto.
      * right. injection H as _ ->. eauto.
Qed.

(** A word that a computation does not find does not occur. *)
Lemma not_found (word : string) (hay : str) :
  spelled_in ignoring_case_b (list_ascii_of_string word) hay = false ->
  ~ occurs_as ignoring_case word hay.
Proof.
  intros H Hocc.
  apply (spelled_in_spec ignoring_case_b ignoring_case word hay
                         ignoring_case_b_spec) in Hocc.
  congruence.
Qed.

(* ------------------------------------------------------------------ *)
(** ** Where an amount comes from *)

Lemma converts_money_at (pattern : string) (r : regex) (symbol : string)
      (message : str) (v : PyFloat.float) :
  compile pattern = Some r ->
  (forall bef t aft g, sem true r bef t aft g -> ends_with_money symbol t g) ->
  symbol = "Ksh"%string \/ symbol = "KES"%string ->
  converts pattern message v ->
  exists pre k ws num post,
    money_at message pre k ws num post /\
    PyFloat.float_of_str (remove "," num) = Ok v.
Proof.
  intros Hc Hr Hsym (r' & m & num & Hc' & Hs & Hg & Hf).
  assert (r' = r) by congruence. subst r'.
  apply search_compiled_some in Hs.
  destruct Hs as (pre & t & post & g & -> & _ & Hsem & Hgs & _).
  apply Hr in Hsem.
  destruct Hsem as (pre' & cur & num' & -> & (k & ws & -> & Hk & Hws & Hnum) & ->).
  unfold group in Hg. rewrite Hgs in Hg. simpl in Hg. injection Hg as ->.
  exists (pre ++ pre'), k, ws, num, post. split; [|exact Hf].
  split; [assoc|]. split; [|auto].
  destruct Hsym as [->| ->]; [left | right]; exact Hk.
Qed.

(** An amount the extractor returns is the float of a number text,
    commas removed, that stands in the message right after a marker Ksh
    or KES (in any case) and optional white space. *)
Lemma amount_is_number_after_marker (message : str) (v : PyFloat.float) :
  MpesaParser.extract_amount message = Ok (Some v) ->
  exists pre k ws num post,
    money_at message pre k ws num post /\
    PyFloat.float_of_str (remove "," num) = Ok v.
Proof.
  intros H.
  apply (first_float_some _ _ v well_formed_amount) in H.
  destruct H as (l1 & p & l2 & Heq & Hconv & _).
  assert (Hin : In p MpesaParser.amount_patterns).
  { rewrite Heq. apply in_or_app. right. left. reflexivity. }
  destruct Hin as [<-|[<-|[<-|[]]]].
  - refine (converts_money_at _ Patterns.amount_1 "Ksh" _ _ _ sem_amount_1 _ Hconv);
      [reflexivity | auto].
  - refine (converts_money_at _ Patterns.amount_2 "KES" _ _ _ sem_amount_2 _ Hconv);
      [reflexivity | auto].
  - refine (converts_money_at _ Patterns.amount_3 "Ksh" _ _ _ sem_amount_3 _ Hconv);
      [reflexivity | auto].
Qed.

(* ------------------------------------------------------------------ *)
(** ** The recipient *)

Lemma lstrip_by_spec (sp : N -> bool) (s : str) :
  exists a,
    s = a ++ lstrip_by sp s /\
    Forall (fun c => sp c = true) a /\
    (forall c rest, lstrip_by sp s = c :: rest -> sp c = false).
Proof.
  induction s as [|c s (a & Hs & Ha & Hhd)]; simpl.
  - exists []. repeat split; auto. discriminate.
  - destruct (sp c) eqn:Hc.
    + exists (c :: a). repeat split; auto. simpl. congruence.
    + exists []. repeat split; auto. intros c' rest [= <- _]. exact Hc.
Qed.

(** [strip_by] cuts white space off both ends and nothing else. *)
Lemma strip_by_spec (sp : N -> bool) (s : str) :
  exists a b,
    s = a ++ strip_by sp s ++ b /\
    Forall (fun c => sp c = true) a /\
    Forall (fun c => sp c = true) b /\
    (forall c rest, strip_by sp s = c :: rest -> sp c = false) /\
    (forall c front, strip_by sp s = front ++ [c] -> sp c = false).
Proof.
  unfold strip_by.
  destruct (lstrip_by_spec sp s) as (a & Hs & Ha & Hhd).
  set (u := lstrip_by sp s) in *.
  destruct (lstrip_by_spec sp (rev u)) as (b & Hu & Hb & Hlast).
  set (w := lstrip_by sp (rev u)) in *.
  assert (Hu' : u = rev w ++ rev b).
  { rewrite <- rev_app_distr, <- Hu, rev_involutive. reflexivity. }
  exists a, (rev b). repeat split; auto.
  - rewrite <- Hu'. exact Hs.
  - apply Forall_rev. exact Hb.
  - intros c rest Hc. apply (Hhd c (rest ++ rev b)).
    rewrite Hu', Hc. reflexivity.
  - intros c front Hc. apply (Hlast c (rev front)).
    rewrite <- (rev_involutive w), Hc, rev_app_distr. reflexivity.
Qed.

Lemma strip_trimmed (s : str) : trimmed (strip s).
Proof.
  destruct (strip_by_spec Unicode.isspace s) as (a & b & _ & _ & _ & H1 & H2).
  split; assumption.
Qed.

Lemma Forall_strip (P : N -> Prop) (s : str) :
  Forall P s -> Forall P (strip s).
Proof.
  intros H.
  destruct (strip_by_spec Unicode.isspace s) as (a & b & Hs & _).
  unfold strip. rewrite Hs in H.
  apply Forall_app in H. destruct H as (_ & H).
  apply Forall_app in H. tauto.
Qed.

(** What the first recipient pattern matches: a directional phrase,
    white space, and as group 1 a text of letters and white space. *)
Lemma sem_recipient_1 (bef t aft : str) (g : list (nat * str)) :
  sem true Patterns.recipient_1 bef t aft g ->
  exists d ws name rest,
    t = d ++ ws ++ name ++ rest /\ is_direction d /\
    ws <> [] /\ Forall is_space ws /\
    name <> [] /\ Forall (fun c => is_letter c \/ is_space c) name /\
    g = [(1, name)].
Proof.
  intros H. destruct (captures_group_recipient_1 _ _ _ _ H) as (txt & ->).
  revert H. unfold Patterns.recipient_1. cbn [sem].
  intros (d & t1 & g1 & g2 & -> & Hg & Hd
          & (ws & t2 & g3 & g4 & -> & -> & Hws
             & (name & t3 & g5 & g6 & -> & -> & (g7 & Hname & ->) & Hterm))).
  apply sem_direction in Hd. destruct Hd as (-> & Hd).
  apply sem_rep_groups in Hws. destruct Hws as (-> & Hwlen & Hws).
  apply sem_rep_groups in Hname. destruct Hname as (-> & Hnlen & Hname).
  rewrite !app_nil_r in Hg.
  assert (Hg' : In (1, name) [(1, txt)]).
  { rewrite Hg. apply in_or_app. right. left. reflexivity. }
  destruct Hg' as [[= ->]|[]].
  exists d, ws, name, t3. repeat split; auto.
  - intros ->. simpl in Hwlen. lia.
  - apply (Forall_spaces _ _ Hws).
  - intros ->. simpl in Hnlen. lia.
  - revert Hname. apply Forall_impl. intros c. apply match_upper_or_space.
Qed.

(** What the second recipient pattern matches: a directional phrase,
    white space, and as group 1 a text of digits. *)
Lemma sem_recipient_2 (bef t aft : str) (g : list (nat * str)) :
  sem true Patterns.recipient_2 bef t aft g ->
  exists d ws name,
    t = d ++ ws ++ name /\ is_direction d /\
    ws <> [] /\ Forall is_space ws /\
    name <> [] /\ Forall is_digit name /\
    g = [(1, name)].
Proof.
  unfold Patterns.recipient_2. cbn [sem].
  intros (d & t1 & g1 & g2 & -> & -> & Hd
          & (ws & num & g3 & g4 & -> & -> & Hws & (g5 & Hnum & ->))).
  apply sem_direction in Hd. destruct Hd as (-> & Hd).
  apply sem_rep_groups in Hws. destruct Hws as (-> & Hwlen & Hws).
  apply sem_rep_groups in Hnum. destruct Hnum as (-> & Hnlen & Hnum).
  exists d, ws, num. repeat split; auto.
  - intros ->. simpl in Hwlen. lia.
  - apply (Forall_spaces _ _ Hws).
  - intros ->. simpl in Hnlen. lia.
  - apply (Forall_digits _ _ Hnum).
Qed.

Lemma first_group_some (patterns : list string) (message : str) (r : str) :
  MpesaParser.first_group patterns message = Ok (Some r) ->
  exists p rx m txt,
    In p patterns /\ compile p = Some rx /\
    search_compiled true rx message = Some m /\
    group m 1 = Some txt /\ r = strip txt.
Proof.
  induction patterns as [|p ps IH]; simpl; [discriminate|].
  unfold ReApi.search.
  destruct (compile p) as [rx|] eqn:Hc; [|discriminate]. cbn [bind].
  destruct (search_compiled true rx message) as [m|] eqn:Hs.
  - destruct (group m 1) as [txt|] eqn:Hg; simpl; [|discriminate].
    intros [= <-]. exists p, rx, m, txt. repeat split; auto.
  - intros H. destruct (IH H) as (p' & rx' & m' & txt & Hin & H').
    exists p', rx', m', txt. split; auto.
Qed.

(** A recipient the extractor returns is what stands in the message
    after a directional phrase ("sent to", "paid to" or "received
    from", the case of the letters ignored) and white space, with the
    white space of its ends cut off: either a text of letters (A to Z
    in either case, or one of the four characters that are taken for
    such a letter when case is ignored) and white space, or a text of
    decimal digits.  It has no white space at either end. *)
Theorem recipient_follows_direction (message r : str) :
  MpesaParser.extract_recipient message = Ok (Some r) ->
  exists pre d ws name post,
    message = pre ++ d ++ ws ++ name ++ post /\
    is_direction d /\
    ws <> [] /\ Forall is_space ws /\
    name <> [] /\
    r = strip name /\
    (Forall (fun c => is_letter c \/ is_space c) r
     \/ (Forall is_digit r /\ r = name)) /\
    trimmed r.
Proof.
  intros H. apply first_group_some in H.
  destruct H as (p & rx & m & txt & Hin & Hc & Hs & Hg & ->).
  apply search_compiled_some in Hs.
  destruct Hs as (pre & t & post & g & Hmsg & _ & Hsem & Hgs & _).
  unfold group in Hg. rewrite Hgs in Hg.
  destruct Hin as [<-|[<-|[]]].
  - assert (rx = Patterns.recipient_1)
      by (vm_compute in Hc; injection Hc as <-; reflexivity).
    subst rx. apply sem_recipient_1 in Hsem.
    destruct Hsem as (d & ws & name & rest & -> & Hd & Hne & Hws & Hnn & Hname & ->).
    simpl in Hg. injection Hg as <-.
    exists pre, d, ws, name, (rest ++ post).
    split; [rewrite Hmsg; assoc|].
    split; [exact Hd|]. split; [exact Hne|]. split; [exact Hws|].
    split; [exact Hnn|]. split; [reflexivity|].
    split; [left; apply Forall_strip; exact Hname | apply strip_trimmed].
  - assert (rx = Patterns.recipient_2)
      by (vm_compute in Hc; injection Hc as <-; reflexivity).
    subst rx. apply sem_recipient_2 in Hsem.
    destruct Hsem as (d & ws & name & -> & Hd & Hne & Hws & Hnn & Hname & ->).
    simpl in Hg. injection Hg as <-.
    assert (Hstrip : strip name = name).
    { apply strip_by_none. revert Hname. apply Forall_impl.
      intros c. apply isdecimal_not_space. }
    exists pre, d, ws, name, post.
    split; [rewrite Hmsg; assoc|].
    split; [exact Hd|]. split; [exact Hne|]. split; [exact Hws|].
    split; [exact Hnn|]. split; [reflexivity|].
    rewrite Hstrip.
    split; [right; auto | rewrite <- Hstrip; apply strip_trimmed].
Qed.

Lemma recipient_follows_direction_witness :
  exists pre d ws name post,
    chars "Ksh500.00 sent to JOHN DOE 0722000000 on 1/1/24"
    = pre ++ d ++ ws ++ name ++ post /\
    is_direction d /\
    ws <> [] /\ Forall is_space ws /\
    name <> [] /\
    chars "JOHN DOE" = strip name /\
    (Forall (fun c => is_letter c \/ is_space c) (chars "JOHN DOE")
     \/ (Forall is_digit (chars "JOHN DOE") /\ chars "JOHN DOE" = name)) /\
    trimmed (chars "JOHN DOE").
Proof.
  apply (recipient_follows_direction
           (chars "Ksh500.00 sent to JOHN DOE 0722000000 on 1/1/24")
           (chars "JOHN DOE")).
  vm_compute. reflexivity.
Defined.

Lemma direction_occurs (d rest before_t after_t : str) :
  is_direction d ->
  occurs_as ignoring_case "sent to" (before_t ++ (d ++ rest) ++ after_t)
  \/ occurs_as ignoring_case "paid to" (before_t ++ (d ++ rest) ++ after_t)
  \/ occurs_as ignoring_case "received from" (before_t ++ (d ++ rest) ++ after_t).
Proof.
  intros [H|[H|H]]; [left | right; left | right; right];
    (exists before_t, d, (rest ++ after_t); split; [assoc | exact H]).
Qed.

(** For every message in which none of "sent to", "paid to" and
    "received from" occurs, the case of the letters ignored (which
    takes the dotless i and the dotted capital I for an i, and the
    long s for an s), the recipient extractor returns nothing. *)
Theorem recipient_needs_direction (message : str) :
  ~ occurs_as ignoring_case "sent to" message ->
  ~ occurs_as ignoring_case "paid to" message ->
  ~ occurs_as ignoring_case "received from" message ->
  MpesaParser.extract_recipient message = Ok None.
Proof.
  intros H1 H2 H3.
  assert (Hno : forall pre t post d rest,
             message = pre ++ t ++ post -> t = d ++ rest ->
             is_direction d -> False).
  { intros pre t post d rest Hmsg -> Hd.
    destruct (direction_occurs d rest pre post Hd) as [H|[H|H]];
      rewrite <- Hmsg in H; auto. }
  unfold MpesaParser.extract_recipient, MpesaParser.recipient_patterns.
  cbn [MpesaParser.first_group]. unfold ReApi.search.
  change (compile "(?:sent to|paid to|received from)\s+([A-Z\s]+?)(?:\s+\d|\s+on|\s+Ksh|\.)")
    with (Some Patterns.recipient_1).
  change (compile "(?:sent to|paid to|received from)\s+(\d+)")
    with (Some Patterns.recipient_2).
  cbn [bind].
  assert (Hs1 : search_compiled true Patterns.recipient_1 message = None).
  { apply search_compiled_none. intros pre t post g Hmsg Hsem.
    apply sem_recipient_1 in Hsem.
    destruct Hsem as (d & ws & name & rest & Ht & Hd & _).
    exact (Hno pre t post d _ Hmsg Ht Hd). }
  assert (Hs2 : search_compiled true Patterns.recipient_2 message = None).
  { apply search_compiled_none. intros pre t post g Hmsg Hsem.
    apply sem_recipient_2 in Hsem.
    destruct Hsem as (d & ws & name & Ht & Hd & _).
    exact (Hno pre t post d _ Hmsg Ht Hd). }
  rewrite Hs1, Hs2. reflexivity.
Qed.

Lemma recipient_needs_direction_witness :
  MpesaParser.extract_recipient scenario_sent = Ok None.
Proof.
  apply (recipient_needs_direction scenario_sent);
    apply not_found; vm_compute; reflexivity.
Defined.

(* ------------------------------------------------------------------ *)
(** ** What a successful parse guarantees *)

Lemma code_found_is_first (message c : str) :
  MpesaParser.extract_transaction_code message = Ok (Some c) ->
  first_code message c.
Proof.
  unfold MpesaParser.extract_transaction_code, ReApi.search.
  rewrite compile_code_pattern. cbn [bind].
  destruct (search_compiled false Patterns.code message) as [m|] eqn:Hs;
    [|discriminate].
  apply search_compiled_some in Hs.
  destruct Hs as (pre & t & post & g & Hmsg & _ & Hsem & Hg & Hleft).
  apply sem_code in Hsem. destruct Hsem as (Hshape & Hword & ->).
  unfold group. rewrite Hg. simpl. intros [= <-].
  exists pre, post. split; [split; auto|].
  intros pre' c' post' (Heq & Hshape' & Hword').
  apply (Hleft pre' c' post' [(1, c')] Heq). apply sem_code. auto.
Qed.

(** When [parse] reports success, the record holds the first
    transaction code of the message (two capitals A to Z, two decimal
    digits, five or six capitals or digits 0 to 9, as a whole word) and
    an amount that is the float of a number standing after a marker
    Ksh or KES, the case of its letters ignored: a message without
    such a code or without such a number is never reported as
    parsed. *)
Theorem success_means_code_and_amount
        (utcnow : Z) (sender message : str) (r : MpesaParser.ParsedTransaction) :
  MpesaParser.parse utcnow sender message = Ok r ->
  MpesaParser.parsed_successfully r = true ->
  exists c v,
    MpesaParser.transaction_code r = Some c /\
    first_code message c /\
    MpesaParser.amount r = Some v /\
    exists pre k ws num post,
      money_at message pre k ws num post /\
      PyFloat.float_of_str (remove "," num) = Ok v.
Proof.
  intros Hparse Hflag.
  destruct (parse_returns utcnow sender message)
    as (a & c & b & rc & Ha & Hc & _ & _ & H).
  rewrite H in Hparse. injection Hparse as <-. simpl in *.
  destruct a as [v|]; [|discriminate]. destruct c as [c|]; [|discriminate].
  exists c, v. split; [reflexivity|]. split; [apply code_found_is_first; exact Hc|].
  split; [reflexivity|]. apply amount_is_number_after_marker. exact Ha.
Qed.

Lemma success_means_code_and_amount_witness :
  exists r c v,
    MpesaParser.parse 0 (chars "MPESA") scenario_sent = Ok r /\
    MpesaParser.transaction_code r = Some c /\
    first_code scenario_sent c /\
    MpesaParser.amount r = Some v.
Proof.
  assert (Hr : exists r, MpesaParser.parse 0 (chars "MPESA") scenario_sent = Ok r /\
                         MpesaParser.parsed_successfully r = true).
  { eexists. split; [vm_compute; reflexivity | reflexivity]. }
  destruct Hr as (r & Hr & Hflag).
  destruct (success_means_code_and_amount 0 (chars "MPESA") scenario_sent r Hr Hflag)
    as (c & v & H1 & H2 & H3 & _).
  exists r, c, v. auto.
Defined.

(* ------------------------------------------------------------------ *)
(** ** Phrases of the classifier that never decide *)

Lemma contains_part (a b c l : str) :
  contains (a ++ b ++ c) l = true -> contains b l = true.
Proof.
  rewrite !contains_spec. intros (pre & post & ->).
  exists (pre ++ a), (c ++ post). assoc.
Qed.

Lemma first_type_live (l : str) :
  MpesaParser.first_type MpesaParser.TRANSACTION_TYPES l
  = MpesaParser.first_type LIVE_TRANSACTION_TYPES l.
Proof.
  assert (Hw : contains (chars "withdrawn from") l = true ->
               contains (chars "withdraw") l = true)
    by (apply (contains_part [] (chars "withdraw") (chars "n from"))).
  assert (Hr : contains (chars "transaction reversed") l = true ->
               contains (chars "reversed") l = true)
    by (apply (contains_part (chars "transaction ") (chars "reversed") [])).
  unfold MpesaParser.TRANSACTION_TYPES, LIVE_TRANSACTION_TYPES.
  cbn [MpesaParser.first_type existsb].
  destruct (contains (chars "you have sent") l); [reflexivity|].
  destruct (contains (chars "sent to") l); [reflexivity|].
  destruct (contains (chars "paid to") l); [reflexivity|].
  destruct (contains (chars "transferred to") l); [reflexivity|].
  destruct (contains (chars "you have received") l); [reflexivity|].
  destruct (contains (chars "received from") l); [reflexivity|].
  destruct (contains (chars "withdraw") l) eqn:E1; [reflexivity|].
  destruct (contains (chars "withdrawn from") l) eqn:E2;
    [specialize (Hw eq_refl); congruence|].
  destruct (contains (chars "bought") l); [reflexivity|].
  destruct (contains (chars "airtime for") l); [reflexivity|].
  destruct (contains (chars "balance was") l); [reflexivity|].
  destruct (contains (chars "your balance is") l); [reflexivity|].
  destruct (contains (chars "reversed") l) eqn:E3; [reflexivity|].
  destruct (contains (chars "transaction reversed") l) eqn:E4;
    [specialize (Hr eq_refl); congruence|].
  destruct (contains (chars "for account") l); reflexivity.
Qed.

(** Three trigger phrases of the table never change the outcome: for
    every message the classifier returns what it would return with
    "withdrawn from" (it holds "withdraw"), "transaction reversed" (it
    holds "reversed") and the "paid to" of PAYBILL (SENT has it first)
    taken out of the table. *)
Theorem classifier_ignores_dead_phrases (message : str) :
  MpesaParser.determine_transaction_type message
  = MpesaParser.first_type LIVE_TRANSACTION_TYPES (Str.lower message).
Proof. apply first_type_live. Qed.

Lemma silent_existsb (l : str) (entry : string * list string) :
  silent l entry <->
  existsb (fun keyword => contains (chars keyword) l) (snd entry) = false.
Proof.
  unfold silent. rewrite <- existsb_triggers.
  destruct (existsb _ (snd entry)); split; congruence.
Qed.

(** A message is classified PAYBILL exactly when "for account" occurs
    in its lower-case form ([str.lower] of the message) and no phrase
    of the six types before PAYBILL does; "paid to" alone never gives
    PAYBILL. *)
Theorem paybill_needs_for_account (message : str) :
  MpesaParser.determine_transaction_type message = "PAYBILL"%string <->
  occurs (chars "for account") (Str.lower message) /\
  Forall (silent (Str.lower message))
         (firstn 6 MpesaParser.TRANSACTION_TYPES).
Proof.
  unfold MpesaParser.determine_transaction_type.
  set (l := Str.lower message).
  cbn [firstn MpesaParser.TRANSACTION_TYPES].
  unfold MpesaParser.TRANSACTION_TYPES.
  rewrite <- contains_spec.
  repeat rewrite Forall_cons_iff. repeat rewrite silent_existsb.
  cbn [MpesaParser.first_type snd existsb].
  destruct (contains (chars "you have sent") l);
    [split; [discriminate | intros (_ & H & _); discriminate H]|].
  destruct (contains (chars "sent to") l);
    [split; [discriminate | intros (_ & H & _); discriminate H]|].
  destruct (contains (chars "paid to") l);
    [split; [discriminate | intros (_ & H & _); discriminate H]|].
  destruct (contains (chars "transferred to") l);
    [split; [discriminate | intros (_ & H & _); discriminate H]|].
  destruct (contains (chars "you have received") l);
    [split; [discriminate | intros (_ & _ & H & _); discriminate H]|].
  destruct (contains (chars "received from") l);
    [split; [discriminate | intros (_ & _ & H & _); discriminate H]|].
  destruct (contains (chars "withdraw") l);
    [split; [discriminate | intros (_ & _ & _ & H & _); discriminate H]|].
  destruct (contains (chars "withdrawn from") l);
    [split; [discriminate | intros (_ & _ & _ & H & _); discriminate H]|].
  destruct (contains (chars "bought") l);
    [split; [discriminate | intros (_ & _ & _ & _ & H & _); discriminate H]|].
  destruct (contains (chars "airtime for") l);
    [split; [discriminate | intros (_ & _ & _ & _ & H & _); discriminate H]|].
  destruct (contains (chars "balance was") l);
    [split; [discriminate | intros (_ & _ & _ & _ & _ & H & _); discriminate H]|].
  destruct (contains (chars "your balance is") l);
    [split; [discriminate | intros (_ & _ & _ & _ & _ & H & _); discriminate H]|].
  destruct (contains (chars "reversed") l);
    [split; [discriminate | intros (_ & _ & _ & _ & _ & _ & H & _); discriminate H]|].
  destruct (contains (chars "transaction reversed") l);
    [split; [discriminate | intros (_ & _ & _ & _ & _ & _ & H & _); discriminate H]|].
  destruct (contains (chars "for account") l).
  - split; [intros _|reflexivity]. simpl. repeat split; auto.
  - split; [discriminate | intros (H & _); discriminate H].
Qed.

(* ------------------------------------------------------------------ *)
(** ** The number of an amount is read whole *)

Lemma flat_map_head (A B : Type) (f : A -> list B) (l : list A) (x : B)
      (more : list B) :
  flat_map f l = x :: more ->
  exists a more', In a l /\ f a = x :: more'.
Proof.
  induction l as [|a l IH]; simpl; [discriminate|].
  destruct (f a) as [|y ys] eqn:Hf; simpl.
  - intros H. destruct (IH H) as (a' & more' & Hin & H'). eauto.
  - intros [= <- <-]. exists a, ys. auto.
Qed.

Lemma ends_as_refl (r : regex) : ends_as r r.
Proof. intros st x more H. eauto. Qed.

Lemma ends_as_seq (r_end r1 r2 : regex) :
  ends_as r_end r2 -> ends_as r_end (Seq r1 r2).
Proof.
  intros H st x more Hrun. simpl in Hrun.
  apply flat_map_head in Hrun. destruct Hrun as (mid & more' & _ & Hrun).
  apply (H _ _ _ Hrun).
Qed.

Lemma ends_as_lit_then (r_end : regex) (s : list ascii) (r : regex) :
  ends_as r_end r -> ends_as r_end (Patterns.lit_then s r).
Proof.
  intros H. induction s as [|c s IH]; simpl; [exact H|].
  apply ends_as_seq. exact IH.
Qed.

Lemma ends_as_currency (symbol : string) :
  ends_as Patterns.number (Patterns.currency symbol).
Proof.
  unfold Patterns.currency. apply ends_as_lit_then, ends_as_seq, ends_as_refl.
Qed.

Lemma ends_as_amount :
  Forall (ends_as Patterns.number)
         [Patterns.amount_1; Patterns.amount_2; Patterns.amount_3].
Proof.
  repeat apply Forall_cons; [| | |apply Forall_nil].
  - apply ends_as_currency.
  - apply ends_as_currency.
  - unfold Patterns.amount_3.
    apply ends_as_lit_then, ends_as_seq, ends_as_seq, ends_as_currency.
Qed.

Lemma ends_as_balance :
  Forall (ends_as Patterns.number)
         [Patterns.balance_1; Patterns.balance_2; Patterns.balance_3].
Proof.
  repeat apply Forall_cons; [| | |apply Forall_nil].
  - unfold Patterns.balance_1.
    apply ends_as_lit_then, ends_as_seq, ends_as_seq, ends_as_currency.
  - unfold Patterns.balance_2.
    apply ends_as_lit_then, ends_as_seq, ends_as_lit_then, ends_as_seq,
      ends_as_currency.
  - unfold Patterns.balance_3.
    apply ends_as_lit_then, ends_as_seq, ends_as_currency.
Qed.

(** A greedy repetition with no least count always stops somewhere. *)
Lemma repeat_atom_nonempty (ic : bool) (a : atom) (hi : option nat)
      (bef aft : str) :
  repeat_atom ic true a 0 hi bef aft <> [].
Proof.
  destruct aft as [|c aft]; simpl; [discriminate|].
  destruct (may_repeat hi && atom_match ic a c);
    [|discriminate].
  intros H. apply app_eq_nil in H. destruct H as (_ & H). discriminate.
Qed.

(** The first stop of a greedy unbounded repetition is the farthest:
    the next character does not match. *)
Lemma repeat_atom_head (ic : bool) (a : atom) (aft : str) :
  forall lo bef b' a' more,
    repeat_atom ic true a lo None bef aft = (b', a') :: more ->
    forall c rest, a' = c :: rest -> atom_match ic a c = false.
Proof.
  induction aft as [|x aft IH]; intros lo bef b' a' more H c rest Ha.
  - simpl in H. destruct lo; simpl in H; [|discriminate].
    injection H as _ <- _. discriminate.
  - cbn [repeat_atom may_repeat andb option_map] in H.
    destruct (atom_match ic a x) eqn:Hx.
    + destruct (repeat_atom ic true a (pred lo) None (x :: bef) aft)
        as [|[b0 a0] l0] eqn:Hrec.
      * destruct lo as [|lo]; [|discriminate H].
        exfalso. exact (repeat_atom_nonempty _ _ _ _ _ Hrec).
      * simpl in H. injection H as <- <- _.
        apply (IH _ _ _ _ _ Hrec c rest Ha).
    + destruct lo; simpl in H; [|discriminate].
      injection H as _ <- _. injection Ha as <- _. exact Hx.
Qed.

Lemma search_compiled_head (ic : bool) (r : regex) (s : str) (m : Match) :
  search_compiled ic r s = Some m ->
  exists pre t st more,
    s = pre ++ t ++ after (m_final m) /\
    sem ic r (rev pre) t (after (m_final m)) (groups (m_final m)) /\
    run ic r st = m_final m :: more.
Proof.
  unfold search_compiled. intros H. apply search_from_some in H.
  destruct H as (skipped & rest & more & -> & _ & Hrun & _).
  assert (Hin : In (m_final m)
                   (run ic r {| before := rev skipped ++ []; after := rest;
                                groups := [] |})).
  { rewrite Hrun. left. reflexivity. }
  apply run_sem in Hin. simpl in Hin.
  destruct Hin as (t & g & -> & _ & Hg & Hsem).
  rewrite app_nil_r in Hsem, Hg. rewrite <- Hg in Hsem.
  exists skipped, t. eexists. exists more. split; [reflexivity|].
  split; [exact Hsem | exact Hrun].
Qed.

(** The first stop of [\d*]: all the digits that follow. *)
Lemma run_star_digit_head (st : state) :
  exists y more t,
    run true (Patterns.star digit) st = y :: more /\
    after st = t ++ after y /\
    (forall c rest, after y = c :: rest -> ~ is_digit c).
Proof.
  unfold Patterns.star. cbn [run].
  destruct (repeat_atom true true digit 0 None (before st) (after st))
    as [|[b a] l] eqn:Hrep.
  { exfalso. exact (repeat_atom_nonempty _ _ _ _ _ Hrep). }
  assert (Hin : In (b, a) (repeat_atom true true digit 0 None (before st) (after st)))
    by (rewrite Hrep; left; reflexivity).
  apply repeat_atom_spec in Hin. destruct Hin as (t & Ht & _).
  simpl. eexists. eexists. exists t. split; [reflexivity|]. simpl.
  split; [exact Ht|].
  intros c rest Hc Hd.
  pose proof (repeat_atom_head _ _ _ _ _ _ _ _ Hrep c rest Hc) as Hm.
  rewrite match_digit in Hm. unfold is_digit in Hd. congruence.
Qed.

(** The first stop of [[\d,]+], when there is one: all the digits and
    commas that follow. *)
Lemma run_plus_digit_or_comma_head (st y : state) (more : list state) :
  run true (Patterns.plus Patterns.digit_or_comma) st = y :: more ->
  exists t,
    after st = t ++ after y /\
    (forall c rest, after y = c :: rest ->
       Unicode.isdecimal c = false /\ c <> Unicode.code ",").
Proof.
  unfold Patterns.plus. cbn [run].
  destruct (repeat_atom true true Patterns.digit_or_comma 1 None
                        (before st) (after st))
    as [|[b a] l] eqn:Hrep; [discriminate|].
  assert (Hin : In (b, a) (repeat_atom true true Patterns.digit_or_comma 1 None
                                       (before st) (after st)))
    by (rewrite Hrep; left; reflexivity).
  apply repeat_atom_spec in Hin. destruct Hin as (t & Ht & _).
  simpl. intros [= <- _]. simpl. exists t. split; [exact Ht|].
  intros c rest Hc.
  pose proof (repeat_atom_head _ _ _ _ _ _ _ _ Hrep c rest Hc) as Hm.
  rewrite match_digit_or_comma in Hm. apply orb_false_iff in Hm.
  destruct Hm as (Hd & Hcomma). split; [exact Hd|].
  intros ->. discriminate Hcomma.
Qed.

(** An optional point: read when it is there. *)
Lemma run_point (st : state) :
  (exists a1,
      after st = Unicode.code "." :: a1 /\
      run true (One (Chr ".")) st
      = [{| before := Unicode.code "." :: before st; after := a1; groups := groups st |}])
  \/ (run true (One (Chr ".")) st = [] /\
      forall a1, after st <> Unicode.code "." :: a1).
Proof.
  cbn [run]. destruct (after st) as [|c a1].
  - right. split; [reflexivity | discriminate].
  - destruct (atom_match true (Chr ".") c) eqn:Hc.
    + apply match_point in Hc. subst c. left. exists a1. auto.
    + right. split; [reflexivity|]. intros a1' [= -> _].
      vm_compute in Hc. discriminate Hc.
Qed.

(** The first match of the number group reads the number whole. *)
Lemma number_head (st x : state) (more : list state) :
  run true Patterns.number st = x :: more ->
  exists num,
    after st = num ++ after x /\
    lookup 1 (groups x) = Some num /\
    whole_number num (after x).
Proof.
  intros H.
  assert (Hin : In x (run true Patterns.number st))
    by (rewrite H; left; reflexivity).
  apply run_sem in Hin. destruct Hin as (num & g & Hafter & _ & Hg & Hsem).
  apply sem_number in Hsem. destruct Hsem as (-> & _).
  exists num. split; [exact Hafter|]. split; [rewrite Hg; reflexivity|].
  (* the path of the first match *)
  change (run true Patterns.number st)
    with (map (set_group 1 st)
              (flat_map (fun y => flat_map (run true (Patterns.star digit))
                                           (run true (One (Chr ".")) y ++ [y]))
                        (run true (Patterns.plus Patterns.digit_or_comma) st)))
    in H.
  destruct (run true (Patterns.plus Patterns.digit_or_comma) st)
    as [|y0 l0] eqn:Hplus; [discriminate|].
  destruct (run_plus_digit_or_comma_head _ _ _ Hplus) as (t0 & Ht0 & Hstop0).
  cbn [flat_map] in H.
  destruct (run_point y0) as [(a1 & Ha0 & Hrun) | (Hrun & Hnopoint)];
    rewrite Hrun in H; cbn [app flat_map] in H.
  - (* a point follows: it is read, and the digits after it *)
    destruct (run_star_digit_head
                {| before := Unicode.code "." :: before y0; after := a1;
                   groups := groups y0 |})
      as (z & zs & t2 & Hz & Ht2 & Hstopz).
    rewrite Hz in H. cbn [app map] in H. injection H as <- _.
    cbn [set_group after] in *.
    split; [exact Hstopz|]. intros _ _ _ _.
    assert (Hnum : num = t0 ++ Unicode.code "." :: t2).
    { apply (app_inv_tail (after z)).
      rewrite <- Hafter, Ht0, Ha0, Ht2, <- app_assoc. reflexivity. }
    rewrite Hnum. apply in_or_app. right. left. reflexivity.
  - (* no point follows: no digit follows either *)
    destruct (run_star_digit_head y0) as (z & zs & t2 & Hz & Ht2 & Hstopz).
    rewrite Hz in H. cbn [app map] in H. injection H as <- _.
    cbn [set_group after] in *.
    assert (Hsame : after z = after y0).
    { destruct t2 as [|d t2]; [symmetry; exact Ht2|exfalso].
      destruct (Hstop0 d (t2 ++ after z) Ht2) as (Hd & _).
      assert (Hin : In z (run true (Patterns.star digit) y0))
        by (rewrite Hz; left; reflexivity).
      apply run_sem in Hin. destruct Hin as (t & g' & Ht & _ & _ & Hsem).
      apply sem_rep_groups in Hsem. destruct Hsem as (_ & _ & Hall).
      rewrite Ht2 in Ht. apply app_inv_tail in Ht. subst t.
      inversion Hall as [|? ? Hm _]; subst.
      rewrite match_digit in Hm. congruence. }
    rewrite Hsame. split.
    + intros c rest Hc Hd. destruct (Hstop0 c rest Hc) as (Hd' & _).
      unfold is_digit in Hd. congruence.
    + intros c rest Hc [->| ->].
      * destruct (Hstop0 _ rest Hc) as (_ & Hcomma). congruence.
      * exfalso. exact (Hnopoint rest Hc).
Qed.

Lemma converts_whole_number (pattern : string) (r : regex) (symbol : string)
      (message : str) (v : PyFloat.float) :
  compile pattern = Some r ->
  (forall bef t aft g, sem true r bef t aft g -> ends_with_money symbol t g) ->
  symbol = "Ksh"%string \/ symbol = "KES"%string ->
  ends_as Patterns.number r ->
  converts pattern message v ->
  exists pre k ws num post,
    money_at message pre k ws num post /\
    spells ignoring_case symbol k /\
    PyFloat.float_of_str (remove "," num) = Ok v /\
    whole_number num post.
Proof.
  intros Hc Hr Hsym Hend (r' & m & num & Hc' & Hs & Hg & Hf).
  assert (r' = r) by congruence. subst r'.
  apply search_compiled_head in Hs.
  destruct Hs as (pre & t & st & more & -> & Hsem & Hrun).
  destruct (Hend _ _ _ Hrun) as (mid & more' & Hnum).
  apply number_head in Hnum. destruct Hnum as (num0 & _ & Hlook & Hwhole).
  unfold group in Hg. assert (num0 = num) by congruence. subst num0.
  apply Hr in Hsem.
  destruct Hsem as (pre' & cur & num' & -> & (k & ws & -> & Hk & Hws & Hnt) & Hgs).
  rewrite Hgs in Hg. simpl in Hg. injection Hg as ->.
  exists (pre ++ pre'), k, ws, num, (after (m_final m)).
  split; [|split; [exact Hk | split; [exact Hf | exact Hwhole]]].
  split; [assoc|]. split; [|auto].
  destruct Hsym as [->| ->]; [left | right]; exact Hk.
Qed.

(** The amount is read from a whole number: it is the float of a number
    text (decimal digits of any number system, commas, at most one
    point), commas removed, that follows a marker Ksh or KES (the case
    of its letters ignored, which takes the long s for an s and the
    Kelvin sign for a k) and optional white space, and this text is not
    cut short: no decimal digit stands right after it, and a comma or a
    point stands right after it only when the number already has a
    point. *)
Theorem amount_reads_whole_number (message : str) (v : PyFloat.float) :
  MpesaParser.extract_amount message = Ok (Some v) ->
  exists pre k ws num post,
    money_at message pre k ws num post /\
    PyFloat.float_of_str (remove "," num) = Ok v /\
    whole_number num post.
Proof.
  intros H.
  apply (first_float_some _ _ v well_formed_amount) in H.
  destruct H as (l1 & p & l2 & Heq & Hconv & _).
  assert (Hin : In p MpesaParser.amount_patterns).
  { rewrite Heq. apply in_or_app. right. left. reflexivity. }
  pose proof ends_as_amount as Hends.
  inversion Hends as [|? ? E1 Hends']; subst.
  inversion Hends' as [|? ? E2 Hends'']; subst.
  inversion Hends'' as [|? ? E3 _]; subst.
  assert (Hgoal : exists symbol pre k ws num post,
             money_at message pre k ws num post /\
             spells ignoring_case symbol k /\
             PyFloat.float_of_str (remove "," num) = Ok v /\
             whole_number num post).
  { destruct Hin as [<-|[<-|[<-|[]]]].
    - exists "Ksh"%string.
      refine (converts_whole_number _ Patterns.amount_1 "Ksh" _ _ _ sem_amount_1
                                    _ E1 Hconv); [reflexivity | auto].
    - exists "KES"%string.
      refine (converts_whole_number _ Patterns.amount_2 "KES" _ _ _ sem_amount_2
                                    _ E2 Hconv); [reflexivity | auto].
    - exists "Ksh"%string.
      refine (converts_whole_number _ Patterns.amount_3 "Ksh" _ _ _ sem_amount_3
                                    _ E3 Hconv); [reflexivity | auto]. }
  destruct Hgoal as (symbol & pre & k & ws & num & post & H1 & _ & H2 & H3).
  exists pre, k, ws, num, post. auto.
Qed.

Lemma amount_reads_whole_number_witness :
  exists pre k ws num post,
    money_at (chars "Ksh1,2345 sent") pre k ws num post /\
    PyFloat.float_of_str (remove "," num) = Ok (double 6786735522447360 (-39)) /\
    whole_number num post.
Proof.
  apply (amount_reads_whole_number (chars "Ksh1,2345 sent")).
  vm_compute. reflexivity.
Defined.

Lemma balance_reads_whole_number_aux (message : str) (v : PyFloat.float)
      (pattern : string) (r : regex) :
  compile pattern = Some r ->
  (forall bef t aft g, sem true r bef t aft g -> balance_then_money t g) ->
  ends_as Patterns.number r ->
  converts pattern message v ->
  exists pre k ws num post,
    money_at message pre k ws num post /\
    spells ignoring_case "Ksh" k /\
    PyFloat.float_of_str (remove "," num) = Ok v /\
    whole_number num post.
Proof.
  intros Hc Hr Hend Hconv.
  apply (converts_whole_number pattern r "Ksh"); auto.
  intros bef t aft g H. apply balance_then_money_ends. apply (Hr _ _ _ _ H).
Qed.

(** The balance is read from a whole number, as the amount is: the
    float of a number text (decimal digits of any number system,
    commas, at most one point), commas removed, that follows a marker
    Ksh (the case of its letters ignored, which takes the long s for an
    s and the Kelvin sign for a k) and optional white space, with no
    decimal digit right after it, and a comma or a point right after it
    only when the number already has a point. *)
Theorem balance_reads_whole_number (message : str) (v : PyFloat.float) :
  MpesaParser.extract_balance message = Ok (Some v) ->
  exists pre k ws num post,
    money_at message pre k ws num post /\
    spells ignoring_case "Ksh" k /\
    PyFloat.float_of_str (remove "," num) = Ok v /\
    whole_number num post.
Proof.
  intros H.
  apply (first_float_some _ _ v well_formed_balance) in H.
  destruct H as (l1 & p & l2 & Heq & Hconv & _).
  assert (Hin : In p MpesaParser.balance_patterns).
  { rewrite Heq. apply in_or_app. right. left. reflexivity. }
  pose proof ends_as_balance as Hends.
  inversion Hends as [|? ? E1 Hends']; subst.
  inversion Hends' as [|? ? E2 Hends'']; subst.
  inversion Hends'' as [|? ? E3 _]; subst.
  destruct Hin as [<-|[<-|[<-|[]]]].
  - refine (balance_reads_whole_number_aux _ _ _ Patterns.balance_1 _
                                           sem_balance_1 E1 Hconv); reflexivity.
  - refine (balance_reads_whole_number_aux _ _ _ Patterns.balance_2 _
                                           sem_balance_2 E2 Hconv); reflexivity.
  - refine (balance_reads_whole_number_aux _ _ _ Patterns.balance_3 _
                                           sem_balance_3 E3 Hconv); reflexivity.
Qed.

Lemma balance_reads_whole_number_witness :
  exists pre k ws num post,
    money_at (chars "Balance was Ksh2,034.56.") pre k ws num post /\
    spells ignoring_case "Ksh" k /\
    PyFloat.float_of_str (remove "," num) = Ok (double 8948089509631754 (-42)) /\
    whole_number num post.
Proof.
  apply (balance_reads_whole_number (chars "Balance was Ksh2,034.56.")).
  vm_compute. reflexivity.
Defined.

(* ================================================================== *)
(** * Properties of the spending agent *)

Import SpendingAgent.

(* ================================================================== *)
(** * Properties of the spending agent *)

Import SpendingAgent.

(* ------------------------------------------------------------------ *)
(** ** The row of today *)

Lemma find_app_none (A : Type) (f : A -> bool) (l : list A) (x : A) :
  find f l = None -> find f (l ++ [x]) = if f x then Some x else None.
Proof.
  induction l as [|a l IH]; simpl; [reflexivity|].
  destruct (f a); [discriminate | exact IH].
Qed.

Lemma find_none_dates (today : string) (db : Session) :
  find (fun row => String.eqb (date row) today) db = None ->
  ~ In today (map date db).
Proof.
  intros H Hin. apply in_map_iff in Hin. destruct Hin as (row & Hd & Hin).
  apply (find_none _ _ H) in Hin. simpl in Hin.
  rewrite Hd, String.eqb_refl in Hin. discriminate.
Qed.

Lemma dates_find_none (today : string) (db : Session) :
  ~ In today (map date db) ->
  find (fun row => String.eqb (date row) today) db = None.
Proof.
  intros Hno.
  destruct (find _ db) as [row|] eqn:Hf; [exfalso|reflexivity].
  apply find_some in Hf. destruct Hf as (Hin & Heq).
  apply String.eqb_eq in Heq. apply Hno. rewrite <- Heq.
  apply in_map. exact Hin.
Qed.

(** What the database gives back for a float: nothing for a NaN, and
    only for a NaN; plus zero for a zero; the float itself
    otherwise. *)
Lemma stored_spec (f : PyFloat.float) :
  stored f
  = if PyFloat.is_nan f then None
    else Some (if is_zero f then S754_zero false else f).
Proof. destruct f; reflexivity. Qed.

(** [get_or_create_daily_limit] returns a row of today that is in the
    table it leaves; it changes no row and removes none: the table is
    unchanged when it had a row of today, and has one row more, the one
    returned, at its end when it had none. *)
Theorem get_or_create_keeps_the_table
        (self : Agent) (today : string) (db : Session) :
  let (row, db') := get_or_create_daily_limit self today db in
  date row = today /\
  In row db' /\
  (db' = db \/ (~ In today (map date db) /\ db' = db ++ [row])).
Proof.
  unfold get_or_create_daily_limit.
  destruct (find _ db) as [row|] eqn:Hfind.
  - apply find_some in Hfind. destruct Hfind as (Hin & Heq).
    apply String.eqb_eq in Heq. auto.
  - pose proof (find_none_dates today db Hfind) as Hno.
    split; [reflexivity|]. split; [apply in_or_app; right; left; reflexivity|].
    right. auto.
Qed.

(** When no two rows of the table have the same date, no two have after
    [get_or_create_daily_limit]: the unique index on the date is never
    violated by the row it adds. *)
Theorem daily_limit_dates_stay_unique
        (self : Agent) (today : string) (db : Session) :
  NoDup (map date db) ->
  NoDup (map date (snd (get_or_create_daily_limit self today db))).
Proof.
  intros Hnd. unfold get_or_create_daily_limit.
  destruct (find _ db) as [row|] eqn:Hfind; [exact Hnd|].
  pose proof (find_none_dates today db Hfind) as Hno.
  cbn [snd]. rewrite map_app. cbn [map date].
  apply NoDup_app; [exact Hnd | repeat constructor; auto |].
  intros d Hd [<-|[]]. exact (Hno Hd).
Qed.

Lemma daily_limit_dates_stay_unique_witness :
  NoDup
    (map date
       (snd (get_or_create_daily_limit
               {| daily_limit := float_of_int 2000;
                  warning_threshold := PyFloat.of_decimal false 7 (-1) |}
               "2026-01-02"
               [{| date := "2026-01-01";
                   limit_amount := Some (float_of_int 2000);
                   spent_amount := Some (float_of_int 1500);
                   transaction_count := 3 |}]))).
Proof.
  apply (daily_limit_dates_stay_unique
           {| daily_limit := float_of_int 2000;
              warning_threshold := PyFloat.of_decimal false 7 (-1) |}
           "2026-01-02"
           [{| date := "2026-01-01";
               limit_amount := Some (float_of_int 2000);
               spent_amount := Some (float_of_int 1500);
               transaction_count := 3 |}]).
  simpl. constructor; [intros [] | constructor].
Defined.

(** Asking again gives the same row and leaves the table as it is, also
    for an agent with other settings: the limit of a day is the one in
    force when its row was made. *)
Theorem get_or_create_is_idempotent
        (self other : Agent) (today : string) (db : Session) :
  let (row, db') := get_or_create_daily_limit self today db in
  get_or_create_daily_limit other today db' = (row, db').
Proof.
  unfold get_or_create_daily_limit.
  destruct (find _ db) as [row|] eqn:Hfind.
  - rewrite Hfind. reflexivity.
  - rewrite (find_app_none _ _ _ _ Hfind). simpl.
    rewrite String.eqb_refl. reflexivity.
Qed.

(* ------------------------------------------------------------------ *)
(** ** The spending status *)

Lemma gt_zero_not_zero (f : PyFloat.float) :
  gt f (float_of_int 0) = true -> is_zero f = false.
Proof. destruct f as [s|s| |s m e]; simpl; [destruct s|..]; auto; discriminate. Qed.

(** [check_spending_status] never divides by zero.  With the row of
    today that [get_or_create_daily_limit] gives, and the table it
    leaves: when both [spent_amount] and [limit_amount] of the row
    hold a float, the method returns a status with these two and their
    difference; when one of them is [None] (a NULL of the table; the
    limit of a row made from a NaN setting is one), it raises
    [TypeError]. *)
Theorem check_spending_status_outcome
        (self : Agent) (today : string) (db : Session) :
  let (row, db') := get_or_create_daily_limit self today db in
  match spent_amount row, limit_amount row with
  | Some spent_today, Some limit_today =>
      exists s,
        check_spending_status self today db = (Returns s, db') /\
        spent s = spent_today /\
        limit s = limit_today /\
        remaining s = sub limit_today spent_today
  | _, _ => check_spending_status self today db = (Raises TypeError, db')
  end.
Proof.
  unfold check_spending_status.
  destruct (get_or_create_daily_limit self today db) as [row db'].
  destruct (spent_amount row) as [sp|]; [|reflexivity].
  destruct (limit_amount row) as [li|]; [|reflexivity].
  destruct (gt li (float_of_int 0)) eqn:Hgt.
  - unfold truediv. rewrite (gt_zero_not_zero _ Hgt).
    eexists. split; [reflexivity|]. repeat split.
  - eexists. split; [reflexivity|]. repeat split.
Qed.

(** With a limit that is not above zero (zero, negative, or NaN) the
    percentage used is the integer 0 whatever was spent, and the status
    is never EXCEEDED: it is WARNING when 0 reaches the warning
    threshold times 100, and SAFE otherwise. *)
Theorem no_positive_limit_never_exceeded
        (self : Agent) (today : string) (db db' : Session) (s : SpendingStatus) :
  check_spending_status self today db = (Returns s, db') ->
  gt (limit s) (float_of_int 0) = false ->
  percentage_used s = Int 0 /\
  status s <> "EXCEEDED"%string /\
  status s
  = (if ge (float_of_int 0) (mul (warning_threshold self) (float_of_int 100))
     then "WARNING" else "SAFE")%string.
Proof.
  unfold check_spending_status.
  destruct (get_or_create_daily_limit self today db) as [row db0].
  destruct (spent_amount row) as [sp|]; [|discriminate].
  destruct (limit_amount row) as [li|]; [|discriminate].
  destruct (gt li (float_of_int 0)) eqn:Hgt.
  - unfold truediv. rewrite (gt_zero_not_zero _ Hgt).
    intros [= <- _]. cbn [limit]. intros H. rewrite H in Hgt. discriminate Hgt.
  - intros [= <- _] _. cbn [percentage_used status round2 as_float].
    split; [reflexivity|]. split; [|reflexivity].
    destruct (ge _ _); discriminate.
Qed.

Lemma no_positive_limit_never_exceeded_witness :
  exists s db',
    check_spending_status
      {| daily_limit := S754_zero false;
         warning_threshold := PyFloat.of_decimal false 7 (-1) |}
      "2026-01-01" [] = (Returns s, db') /\
    percentage_used s = Int 0 /\
    status s = "SAFE"%string.
Proof.
  eexists. eexists. split; [vm_compute; reflexivity|].
  match goal with
  | |- percentage_used ?s = _ /\ _ =>
      destruct (no_positive_limit_never_exceeded
                  {| daily_limit := S754_zero false;
                     warning_threshold := PyFloat.of_decimal false 7 (-1) |}
                  "2026-01-01" [] _ s eq_refl eq_refl) as (H1 & _ & H3)
  end.
  split; [exact H1 | exact H3].
Defined.

Lemma zero_over_positive (f : PyFloat.float) :
  gt f (float_of_int 0) = true ->
  mul (SFdiv PyFloat.prec PyFloat.emax (S754_zero false) f) (float_of_int 100)
  = S754_zero false.
Proof.
  destruct f as [s|s| |s m e]; simpl; try discriminate.
  - destruct s; [discriminate | reflexivity].
  - destruct s; [discriminate | reflexivity].
Qed.

(** On a day that has no row yet, [check_spending_status] makes the
    row, with the limit of the settings as the database gives it back,
    nothing spent and no transaction.  When the limit of the settings
    is a NaN, the database gives back no limit and the method raises
    [TypeError], the row made.  Otherwise it reports the date, nothing
    spent, the limit of the settings (plus zero when that limit is a
    zero of either sign), no transaction, and a status that is not
    EXCEEDED: SAFE, or WARNING when 0 reaches the warning threshold
    times 100. *)
Theorem first_status_of_a_day
        (self : Agent) (today : string) (db : Session) :
  ~ In today (map date db) ->
  let new_row limit_today :=
    {| date := today; limit_amount := limit_today;
       spent_amount := Some (S754_zero false); transaction_count := 0 |} in
  if PyFloat.is_nan (daily_limit self)
  then check_spending_status self today db
       = (Raises TypeError, db ++ [new_row None])
  else
    let limit_today :=
      if is_zero (daily_limit self) then S754_zero false
      else daily_limit self in
    exists s,
      check_spending_status self today db
      = (Returns s, db ++ [new_row (Some limit_today)]) /\
      status_date s = today /\
      spent s = S754_zero false /\
      limit s = limit_today /\
      status_transaction_count s = 0%Z /\
      status s
      = (if ge (float_of_int 0) (mul (warning_threshold self) (float_of_int 100))
         then "WARNING" else "SAFE")%string.
Proof.
  intros Hno new_row. subst new_row.
  pose proof (dates_find_none today db Hno) as Hfind.
  unfold check_spending_status, get_or_create_daily_limit.
  rewrite Hfind, stored_spec.
  destruct (PyFloat.is_nan (daily_limit self)); [reflexivity|].
  cbn [limit_amount spent_amount date transaction_count stored].
  set (li := if is_zero (daily_limit self) then S754_zero false
             else daily_limit self).
  destruct (gt li (float_of_int 0)) eqn:Hgt.
  - unfold truediv. rewrite (gt_zero_not_zero _ Hgt).
    eexists. split; [reflexivity|]. cbn [status_date spent limit
      status_transaction_count status as_float].
    rewrite (zero_over_positive _ Hgt).
    repeat split.
  - eexists. split; [reflexivity|]. repeat split.
Qed.

Lemma first_status_of_a_day_witness :
  (exists s,
      check_spending_status
        {| daily_limit := float_of_int 2000;
           warning_threshold := PyFloat.of_decimal false 7 (-1) |}
        "2026-01-02"
        [{| date := "2026-01-01"; limit_amount := Some (float_of_int 2000);
            spent_amount := Some (float_of_int 1500); transaction_count := 3 |}]
      = (Returns s,
         [{| date := "2026-01-01"; limit_amount := Some (float_of_int 2000);
             spent_amount := Some (float_of_int 1500); transaction_count := 3 |};
          {| date := "2026-01-02"; limit_amount := Some (float_of_int 2000);
             spent_amount := Some (S754_zero false); transaction_count := 0 |}]) /\
      status s = "SAFE"%string) /\
  check_spending_status
    {| daily_limit := S754_nan;
       warning_threshold := PyFloat.of_decimal false 7 (-1) |}
    "2026-01-02" []
  = (Raises TypeError,
     [{| date := "2026-01-02"; limit_amount := None;
         spent_amount := Some (S754_zero false); transaction_count := 0 |}]).
Proof.
  split.
  - destruct (first_status_of_a_day
                {| daily_limit := float_of_int 2000;
                   warning_threshold := PyFloat.of_decimal false 7 (-1) |}
                "2026-01-02"
                [{| date := "2026-01-01"; limit_amount := Some (float_of_int 2000);
                    spent_amount := Some (float_of_int 1500);
                    transaction_count := 3 |}])
      as (s & H1 & _ & _ & _ & _ & H6).
    + simpl. intros [H|[]]. discriminate H.
    + exists s. split; [exact H1 | exact H6].
  - apply (first_status_of_a_day
             {| daily_limit := S754_nan;
                warning_threshold := PyFloat.of_decimal false 7 (-1) |}
             "2026-01-02" []).
    simpl. intros [].
Defined.

(* ------------------------------------------------------------------ *)
(** ** Which messages notify *)

(** A message with a phrase of RECEIVED and no phrase of SENT in its
    lower-case form gives no notification, whatever else it holds (a
    phrase of WITHDRAWN, BOUGHT or PAYBILL after it changes nothing):
    [should_notify] is false on its type. *)
Theorem received_money_does_not_notify (message : str) :
  Forall (silent (Str.lower message))
         (firstn 1 MpesaParser.TRANSACTION_TYPES) ->
  triggers (Str.lower message)
           ["you have received"; "received from"]%string ->
  map fst (firstn 2 MpesaParser.TRANSACTION_TYPES)
  = ["SENT"; "RECEIVED"]%string /\
  MpesaParser.determine_transaction_type message = "RECEIVED"%string /\
  should_notify (MpesaParser.determine_transaction_type message) = false.
Proof.
  intros Hs Hr. split; [reflexivity|].
  assert (Ht : MpesaParser.determine_transaction_type message
               = "RECEIVED"%string).
  { unfold MpesaParser.determine_transaction_type.
    revert Hs Hr. set (l := Str.lower message).
    unfold MpesaParser.TRANSACTION_TYPES. cbn [firstn].
    intros Hs Hr. apply Forall_inv in Hs. apply silent_existsb in Hs.
    apply existsb_triggers in Hr.
    cbn [MpesaParser.first_type snd]. cbn [snd] in Hs.
    rewrite Hs, Hr. reflexivity. }
  split; [exact Ht|]. rewrite Ht. reflexivity.
Qed.

Lemma received_money_does_not_notify_witness :
  should_notify
    (MpesaParser.determine_transaction_type
       (chars "You have received Ksh500.00 from JANE. Withdraw at any agent"))
  = false.
Proof.
  apply (received_money_does_not_notify
           (chars "You have received Ksh500.00 from JANE. Withdraw at any agent")).
  - constructor; [|constructor]. apply silent_existsb. vm_compute. reflexivity.
  - apply existsb_triggers. vm_compute. reflexivity.
Defined.
